(** * FlyCharts: the map renderer, the pollers and the SimConnect live link

    A shallow embedding of the two scripts of the dashboard:
    - the map script (updateStatus, initMap, addAirportMarkers, changeMapLayer)
      and the legacy poller fetchAircraftData;
    - script/simconnect.js (the socket handlers, connectSimConnect,
      disconnectSimConnect, updateSimConnectStatus, toggleAutoUpdate,
      handleRealtimePositionUpdate, updateAircraftMarkerPosition,
      fetchAircraftDataEnhanced, checkSimConnectStatus).

    The module-level variables of the scripts, the part of the page they
    touch, the console and the list of issued HTTP requests form one explicit
    state.  A JavaScript statement sequence becomes a computation in a state
    monad with exceptions: a thrown exception keeps the writes made before it,
    as in JavaScript.  An [await] receives its outcome as an argument of the
    embedded function, so an async function is embedded as one activation run
    to completion.

    Leaflet, Socket.IO, [fetch] and the page are modelled as far as the
    scripts use them: a map is its zoom and the list of layers attached to
    it, a layer is an object with an identity, a request is recorded when it
    is issued.

    The second part states and proves the properties: the zoom bands of the
    airport markers, the single base layer and overlay, the outcomes of
    connecting and disconnecting, the guards of the fallback poller, the
    effect of a position update and the reports of a poll cycle; then, over
    the events of a session (each one a run of a function of the scripts),
    what every sequence of events keeps: the indicator and the disconnect
    button in line with the flags, and the identities of the attached layers
    consistent, so that the map has one base layer and at most one aircraft
    marker. *)

From Stdlib Require Import ZArith QArith Qround Qabs List String Ascii Bool Lia.
From Stdlib Require Import DecimalString.
Import ListNotations.
Open Scope string_scope.

(** ** Numbers and strings

    A JSON number is a decimal literal, hence a rational: numbers are [Q],
    with [NaN] added for the results of arithmetic on [undefined].  Binary
    floating-point rounding is outside the model. *)

Inductive number : Type :=
| Num (q : Q)
| NaN.

(** A property that is [undefined] (absent from the payload) or a number. *)
Definition ToNumber (v : option Q) : number :=
  match v with
  | Some q => Num q
  | None => NaN
  end.

(** [Math.round]: the nearest integer, a tie going up. *)
Definition Math_round (n : number) : number :=
  match n with
  | Num q => Num (inject_Z (Qfloor (q + (1 # 2))))
  | NaN => NaN
  end.

(** [x - y] on numbers. *)
Definition number_sub (x y : number) : number :=
  match x, y with
  | Num a, Num b => Num (a - b)
  | _, _ => NaN
  end.

Definition string_of_Z (z : Z) : string := NilZero.string_of_int (Z.to_int z).

Fixpoint zeros (n : nat) : string :=
  match n with
  | O => ""
  | S k => String "0" (zeros k)
  end.

Definition pad_left (width : nat) (s : string) : string :=
  zeros (width - String.length s) ++ s.

(** [Number.prototype.toFixed(digits)]: sign, then the integer [n] nearest to
    [|x| * 10^digits] (a tie going up), printed with [digits] decimals.
    (Above [10^21] JavaScript switches to exponent notation; the model keeps
    printing digits.) *)
Definition toFixed (digits : nat) (x : Q) : string :=
  let scale := (10 ^ Z.of_nat digits)%Z in
  let n := Qfloor (Qabs x * inject_Z scale + (1 # 2)) in
  let sign := if (Qnum x <? 0)%Z then "-" else "" in
  let int_part := string_of_Z (n / scale) in
  match digits with
  | O => sign ++ int_part
  | _ => sign ++ int_part ++ "." ++ pad_left digits (string_of_Z (n mod scale))
  end.

(** The string a number turns into inside a template literal or a form
    field; used on the results of [Math.round] only. *)
Definition number_to_string (n : number) : string :=
  match n with
  | Num q => string_of_Z (Qfloor q)
  | NaN => "NaN"
  end.

(** The double-quote character, for markup held in strings. *)
Definition dq : string := String (ascii_of_nat 34) "".

(** ** JavaScript values carried by the JSON payloads *)

Inductive jsval : Type :=
| JUndefined
| JNull
| JBool (b : bool)
| JNumber (q : Q)
| JString (s : string).

(** Truthiness, as tested by [if (v)], [v || d] and [a && v]. *)
Definition truthy (v : jsval) : bool :=
  match v with
  | JUndefined | JNull => false
  | JBool b => b
  | JNumber q => negb (Qnum q =? 0)%Z
  | JString s => negb (String.eqb s "")
  end.

Definition js_or (v d : jsval) : jsval := if truthy v then v else d.

Definition of_number (v : option Q) : jsval :=
  match v with
  | Some q => JNumber q
  | None => JUndefined
  end.

(** ** Exceptions and the outcome of an awaited request *)

Inductive Exn : Type :=
| ReferenceError (name : string)
| TypeError (message : string)
| Error (message : string).

Definition error_message (e : Exn) : string :=
  match e with
  | ReferenceError name => name ++ " is not defined"
  | TypeError m => m
  | Error m => m
  end.

(** What [await fetch(url)] followed by [await response.json()] yields: the
    request fails, the body does not parse, the body is the JSON [null], or
    the body is an object read as [A]. *)
Inductive Reply (A : Type) : Type :=
| FetchRejects (e : Exn)
| JsonRejects (e : Exn)
| BodyNull
| Body (a : A).
Arguments FetchRejects {A} e.
Arguments JsonRejects {A} e.
Arguments BodyNull {A}.
Arguments Body {A} a.

(** How a statement sequence ends: normally with a value, or by an
    exception thrown. *)
Inductive Result (A : Type) : Type :=
| Ok (a : A)
| Throw (e : Exn).
Arguments Ok {A} a.
Arguments Throw {A} e.

(** ** Data model *)

(** An airport record of airports.json. *)
Record Airport : Type := mkAirport {
  code : string;
  lat : Q;
  lng : Q;
  size : Z
}.

(** The icons the scripts build: [L.icon] for airports, [L.divIcon] for the
    aircraft.  Of the aircraft icon's markup the model keeps the number
    placed in [rotate(...deg)]. *)
Inductive Icon : Type :=
| L_icon (iconUrl : string) (iconSize iconAnchor popupAnchor : Z * Z)
| L_divIcon (rotation : number) (className : string) (iconSize iconAnchor : Z * Z).

Record Marker : Type := mkMarker {
  m_latlng : Q * Q;
  m_icon : Icon;
  m_popup : option string
}.

Inductive Subdomains : Type :=
| SubArray (l : list string)
| SubChars (s : string).

Record TileOptions : Type := mkTileOptions {
  attribution : string;
  maxZoom : Z;
  subdomains : option Subdomains;
  pane : string
}.

Inductive LayerSource : Type :=
| TileLayer (url : string) (opts : TileOptions)
| MaplibreGL (style : string) (attr : string)
| LayerGroup
| MarkerLayer (m : Marker).

(** A Leaflet layer object.  [l_oid] is the identity of the object, given at
    construction from a counter; [hasLayer] and [removeLayer] compare it. *)
Record Layer : Type := mkLayer {
  l_oid : nat;
  l_src : LayerSource
}.

Definition layer_pane (l : Layer) : string :=
  match l_src l with
  | TileLayer _ opts => pane opts
  | MaplibreGL _ _ => "tilePane"
  | LayerGroup => ""
  | MarkerLayer _ => "markerPane"
  end.

(** A base layer is drawn in the tile pane, an overlay in the labels pane. *)
Definition is_base (l : Layer) : bool := String.eqb (layer_pane l) "tilePane".
Definition is_overlay (l : Layer) : bool := String.eqb (layer_pane l) "labels".
Definition is_marker (l : Layer) : bool :=
  match l_src l with
  | MarkerLayer _ => true
  | _ => false
  end.

(** The Leaflet map: its view, the layers attached to it in the order they
    were attached, its panes, and the airport lists captured by the
    listeners registered for [zoomend]. *)
Record LMap : Type := mkLMap {
  m_center : Q * Q;
  m_zoom : Z;
  m_layers : list Layer;
  m_panes : list string;
  m_zoomControl_position : string;
  m_zoomend : list (list Airport)
}.

(** The [airportMarkers] layer group: the group object and its markers. *)
Record LayerGroupObj : Type := mkGroup {
  g_oid : nat;
  g_layers : list Layer
}.

Record Socket : Type := mkSocket {
  connected : bool;
  emitted : list string
}.

(** A position reading as pushed by the server or returned by
    /aircraft/position.  The four numeric properties are a number or absent. *)
Record PositionData : Type := mkPositionData {
  latitude : option Q;
  longitude : option Q;
  altitude : option Q;
  heading : option Q;
  ground_speed : jsval;
  aircraft_title : jsval;
  atc_id : jsval
}.

Record PositionReply : Type := mkPositionReply {
  p_error : jsval;
  p_data : PositionData
}.

Record TypeReply : Type := mkTypeReply {
  t_error : jsval;
  t_type : jsval
}.

Record ApiResult : Type := mkApiResult {
  success : jsval;
  message : option string
}.

Record StatusData : Type := mkStatusData {
  st_connected : jsval
}.

(** The page's [aircraftData] object (declared by the page, outside the two
    scripts): the properties the scripts write. *)
Record AircraftData : Type := mkAircraftData {
  ad_latitude : jsval;
  ad_longitude : jsval;
  ad_altitude : jsval;
  ad_heading : jsval;
  ad_groundSpeed : jsval;
  ad_aircraft : jsval;
  ad_callsign : jsval
}.

Inductive Level : Type := log | warn | error.

Inductive LogArg : Type :=
| LNothing
| LVal (v : jsval)
| LPosition (p : PositionReply)
| LPositionData (p : PositionData)
| LExn (e : Exn)
| LResult (r : option ApiResult)
| LStatus (st : StatusData).

Record LogEntry : Type := mkLog {
  level : Level;
  text : string;
  arg : LogArg
}.

Record Request : Type := mkRequest {
  method : string;
  url : string
}.

Record StatusElement : Type := mkStatusElement {
  className : string;
  innerHTML : string
}.

(** The elements of the page the scripts reach through [getElementById].
    The elements a script dereferences without a test are taken to exist;
    those it tests before use are optional. *)
Record DOM : Type := mkDOM {
  status_textContent : string;
  status_dot_background : string;
  status_text_textContent : string;
  mapLayer_value : string;
  connect_btn_disabled : bool;
  connect_btn_innerHTML : string;
  disconnect_btn_disabled : bool;
  realtime_indicator_display : string;
  simconnect_status : option StatusElement;
  auto_update_toggle_active : bool;
  latitude_field : option string;
  longitude_field : option string;
  altitude_field : option string;
  heading_field : option string
}.

Definition dom_set_status_textContent (v : string) (d : DOM) : DOM :=
  mkDOM v (status_dot_background d) (status_text_textContent d)
    (mapLayer_value d) (connect_btn_disabled d) (connect_btn_innerHTML d)
    (disconnect_btn_disabled d) (realtime_indicator_display d)
    (simconnect_status d) (auto_update_toggle_active d) (latitude_field d)
    (longitude_field d) (altitude_field d) (heading_field d).

Definition dom_set_status_dot_background (v : string) (d : DOM) : DOM :=
  mkDOM (status_textContent d) v (status_text_textContent d) (mapLayer_value
    d) (connect_btn_disabled d) (connect_btn_innerHTML d)
    (disconnect_btn_disabled d) (realtime_indicator_display d)
    (simconnect_status d) (auto_update_toggle_active d) (latitude_field d)
    (longitude_field d) (altitude_field d) (heading_field d).

Definition dom_set_status_text_textContent (v : string) (d : DOM) : DOM :=
  mkDOM (status_textContent d) (status_dot_background d) v (mapLayer_value
    d) (connect_btn_disabled d) (connect_btn_innerHTML d)
    (disconnect_btn_disabled d) (realtime_indicator_display d)
    (simconnect_status d) (auto_update_toggle_active d) (latitude_field d)
    (longitude_field d) (altitude_field d) (heading_field d).

Definition dom_set_mapLayer_value (v : string) (d : DOM) : DOM :=
  mkDOM (status_textContent d) (status_dot_background d)
    (status_text_textContent d) v (connect_btn_disabled d)
    (connect_btn_innerHTML d) (disconnect_btn_disabled d)
    (realtime_indicator_display d) (simconnect_status d)
    (auto_update_toggle_active d) (latitude_field d) (longitude_field d)
    (altitude_field d) (heading_field d).

Definition dom_set_connect_btn_disabled (v : bool) (d : DOM) : DOM :=
  mkDOM (status_textContent d) (status_dot_background d)
    (status_text_textContent d) (mapLayer_value d) v (connect_btn_innerHTML
    d) (disconnect_btn_disabled d) (realtime_indicator_display d)
    (simconnect_status d) (auto_update_toggle_active d) (latitude_field d)
    (longitude_field d) (altitude_field d) (heading_field d).

Definition dom_set_connect_btn_innerHTML (v : string) (d : DOM) : DOM :=
  mkDOM (status_textContent d) (status_dot_background d)
    (status_text_textContent d) (mapLayer_value d) (connect_btn_disabled d)
    v (disconnect_btn_disabled d) (realtime_indicator_display d)
    (simconnect_status d) (auto_update_toggle_active d) (latitude_field d)
    (longitude_field d) (altitude_field d) (heading_field d).

Definition dom_set_disconnect_btn_disabled (v : bool) (d : DOM) : DOM :=
  mkDOM (status_textContent d) (status_dot_background d)
    (status_text_textContent d) (mapLayer_value d) (connect_btn_disabled d)
    (connect_btn_innerHTML d) v (realtime_indicator_display d)
    (simconnect_status d) (auto_update_toggle_active d) (latitude_field d)
    (longitude_field d) (altitude_field d) (heading_field d).

Definition dom_set_realtime_indicator_display (v : string) (d : DOM) : DOM :=
  mkDOM (status_textContent d) (status_dot_background d)
    (status_text_textContent d) (mapLayer_value d) (connect_btn_disabled d)
    (connect_btn_innerHTML d) (disconnect_btn_disabled d) v
    (simconnect_status d) (auto_update_toggle_active d) (latitude_field d)
    (longitude_field d) (altitude_field d) (heading_field d).

Definition dom_set_simconnect_status (v : option StatusElement) (d : DOM) : DOM :=
  mkDOM (status_textContent d) (status_dot_background d)
    (status_text_textContent d) (mapLayer_value d) (connect_btn_disabled d)
    (connect_btn_innerHTML d) (disconnect_btn_disabled d)
    (realtime_indicator_display d) v (auto_update_toggle_active d)
    (latitude_field d) (longitude_field d) (altitude_field d) (heading_field
    d).

Definition dom_set_auto_update_toggle_active (v : bool) (d : DOM) : DOM :=
  mkDOM (status_textContent d) (status_dot_background d)
    (status_text_textContent d) (mapLayer_value d) (connect_btn_disabled d)
    (connect_btn_innerHTML d) (disconnect_btn_disabled d)
    (realtime_indicator_display d) (simconnect_status d) v (latitude_field
    d) (longitude_field d) (altitude_field d) (heading_field d).

Definition dom_set_latitude_field (v : option string) (d : DOM) : DOM :=
  mkDOM (status_textContent d) (status_dot_background d)
    (status_text_textContent d) (mapLayer_value d) (connect_btn_disabled d)
    (connect_btn_innerHTML d) (disconnect_btn_disabled d)
    (realtime_indicator_display d) (simconnect_status d)
    (auto_update_toggle_active d) v (longitude_field d) (altitude_field d)
    (heading_field d).

Definition dom_set_longitude_field (v : option string) (d : DOM) : DOM :=
  mkDOM (status_textContent d) (status_dot_background d)
    (status_text_textContent d) (mapLayer_value d) (connect_btn_disabled d)
    (connect_btn_innerHTML d) (disconnect_btn_disabled d)
    (realtime_indicator_display d) (simconnect_status d)
    (auto_update_toggle_active d) (latitude_field d) v (altitude_field d)
    (heading_field d).

Definition dom_set_altitude_field (v : option string) (d : DOM) : DOM :=
  mkDOM (status_textContent d) (status_dot_background d)
    (status_text_textContent d) (mapLayer_value d) (connect_btn_disabled d)
    (connect_btn_innerHTML d) (disconnect_btn_disabled d)
    (realtime_indicator_display d) (simconnect_status d)
    (auto_update_toggle_active d) (latitude_field d) (longitude_field d) v
    (heading_field d).

Definition dom_set_heading_field (v : option string) (d : DOM) : DOM :=
  mkDOM (status_textContent d) (status_dot_background d)
    (status_text_textContent d) (mapLayer_value d) (connect_btn_disabled d)
    (connect_btn_innerHTML d) (disconnect_btn_disabled d)
    (realtime_indicator_display d) (simconnect_status d)
    (auto_update_toggle_active d) (latitude_field d) (longitude_field d)
    (altitude_field d) v.

Section FlyCharts.

(** The page's aircraft info panel and [showAircraftInfo], which the page
    declares outside the two scripts: taken as parameters.  The function
    reads [aircraftData], updates the panel and may throw. *)
Context {Panel : Type}.
Variable showAircraftInfo : AircraftData -> Panel -> option Exn * Panel.

(** The module-level variables of the two scripts, the globals of the page
    they use, the page, the console and the requests issued so far.
    [global_airports] is the global binding named [airports], if the page
    has one; no statement of the two scripts creates it.  [next_oid] is the
    identity the next constructed layer object receives. *)
Record State : Type := mkState {
  map : option LMap;
  currentBaseLayer : option Layer;
  currentOverlayLayer : option Layer;
  airportMarkers : LayerGroupObj;
  global_airports : option (list Airport);
  socket : option Socket;
  autoUpdateEnabled : bool;
  isSimConnectConnected : bool;
  aircraftData : option AircraftData;
  aircraftMarker : option Layer;
  panel : Panel;
  io_available : bool;
  dom : DOM;
  console : list LogEntry;
  requests : list Request;
  next_oid : nat
}.

Definition set_map (v : option LMap) (s : State) : State :=
  mkState v (currentBaseLayer s) (currentOverlayLayer s) (airportMarkers s)
    (global_airports s) (socket s) (autoUpdateEnabled s)
    (isSimConnectConnected s) (aircraftData s) (aircraftMarker s) (panel s)
    (io_available s) (dom s) (console s) (requests s) (next_oid s).

Definition set_currentBaseLayer (v : option Layer) (s : State) : State :=
  mkState (map s) v (currentOverlayLayer s) (airportMarkers s)
    (global_airports s) (socket s) (autoUpdateEnabled s)
    (isSimConnectConnected s) (aircraftData s) (aircraftMarker s) (panel s)
    (io_available s) (dom s) (console s) (requests s) (next_oid s).

Definition set_currentOverlayLayer (v : option Layer) (s : State) : State :=
  mkState (map s) (currentBaseLayer s) v (airportMarkers s) (global_airports
    s) (socket s) (autoUpdateEnabled s) (isSimConnectConnected s)
    (aircraftData s) (aircraftMarker s) (panel s) (io_available s) (dom s)
    (console s) (requests s) (next_oid s).

Definition set_airportMarkers (v : LayerGroupObj) (s : State) : State :=
  mkState (map s) (currentBaseLayer s) (currentOverlayLayer s) v
    (global_airports s) (socket s) (autoUpdateEnabled s)
    (isSimConnectConnected s) (aircraftData s) (aircraftMarker s) (panel s)
    (io_available s) (dom s) (console s) (requests s) (next_oid s).

Definition set_socket (v : option Socket) (s : State) : State :=
  mkState (map s) (currentBaseLayer s) (currentOverlayLayer s)
    (airportMarkers s) (global_airports s) v (autoUpdateEnabled s)
    (isSimConnectConnected s) (aircraftData s) (aircraftMarker s) (panel s)
    (io_available s) (dom s) (console s) (requests s) (next_oid s).

Definition set_autoUpdateEnabled (v : bool) (s : State) : State :=
  mkState (map s) (currentBaseLayer s) (currentOverlayLayer s)
    (airportMarkers s) (global_airports s) (socket s) v
    (isSimConnectConnected s) (aircraftData s) (aircraftMarker s) (panel s)
    (io_available s) (dom s) (console s) (requests s) (next_oid s).

Definition set_isSimConnectConnected (v : bool) (s : State) : State :=
  mkState (map s) (currentBaseLayer s) (currentOverlayLayer s)
    (airportMarkers s) (global_airports s) (socket s) (autoUpdateEnabled s)
    v (aircraftData s) (aircraftMarker s) (panel s) (io_available s) (dom s)
    (console s) (requests s) (next_oid s).

Definition set_aircraftData (v : option AircraftData) (s : State) : State :=
  mkState (map s) (currentBaseLayer s) (currentOverlayLayer s)
    (airportMarkers s) (global_airports s) (socket s) (autoUpdateEnabled s)
    (isSimConnectConnected s) v (aircraftMarker s) (panel s) (io_available
    s) (dom s) (console s) (requests s) (next_oid s).

Definition set_aircraftMarker (v : option Layer) (s : State) : State :=
  mkState (map s) (currentBaseLayer s) (currentOverlayLayer s)
    (airportMarkers s) (global_airports s) (socket s) (autoUpdateEnabled s)
    (isSimConnectConnected s) (aircraftData s) v (panel s) (io_available s)
    (dom s) (console s) (requests s) (next_oid s).

Definition set_panel (v : Panel) (s : State) : State :=
  mkState (map s) (currentBaseLayer s) (currentOverlayLayer s)
    (airportMarkers s) (global_airports s) (socket s) (autoUpdateEnabled s)
    (isSimConnectConnected s) (aircraftData s) (aircraftMarker s) v
    (io_available s) (dom s) (console s) (requests s) (next_oid s).

Definition set_dom (v : DOM) (s : State) : State :=
  mkState (map s) (currentBaseLayer s) (currentOverlayLayer s)
    (airportMarkers s) (global_airports s) (socket s) (autoUpdateEnabled s)
    (isSimConnectConnected s) (aircraftData s) (aircraftMarker s) (panel s)
    (io_available s) v (console s) (requests s) (next_oid s).

Definition set_console (v : list LogEntry) (s : State) : State :=
  mkState (map s) (currentBaseLayer s) (currentOverlayLayer s)
    (airportMarkers s) (global_airports s) (socket s) (autoUpdateEnabled s)
    (isSimConnectConnected s) (aircraftData s) (aircraftMarker s) (panel s)
    (io_available s) (dom s) v (requests s) (next_oid s).

Definition set_requests (v : list Request) (s : State) : State :=
  mkState (map s) (currentBaseLayer s) (currentOverlayLayer s)
    (airportMarkers s) (global_airports s) (socket s) (autoUpdateEnabled s)
    (isSimConnectConnected s) (aircraftData s) (aircraftMarker s) (panel s)
    (io_available s) (dom s) (console s) v (next_oid s).

Definition set_next_oid (v : nat) (s : State) : State :=
  mkState (map s) (currentBaseLayer s) (currentOverlayLayer s)
    (airportMarkers s) (global_airports s) (socket s) (autoUpdateEnabled s)
    (isSimConnectConnected s) (aircraftData s) (aircraftMarker s) (panel s)
    (io_available s) (dom s) (console s) (requests s) v.

(** ** The monad: state and exceptions *)

Definition M (A : Type) : Type := State -> Result A * State.

Definition ret {A} (a : A) : M A := fun s => (Ok a, s).

Definition bind {A B} (c : M A) (k : A -> M B) : M B :=
  fun s =>
    match c s with
    | (Ok a, s') => k a s'
    | (Throw e, s') => (Throw e, s')
    end.

Definition throw {A} (e : Exn) : M A := fun s => (Throw e, s).

(** [try { body } catch (e) { handler e }] *)
Definition try_catch (body : M unit) (handler : Exn -> M unit) : M unit :=
  fun s =>
    match body s with
    | (Ok a, s') => (Ok a, s')
    | (Throw e, s') => handler e s'
    end.

(** [try { body } finally { final }] *)
Definition try_finally (body : M unit) (final : M unit) : M unit :=
  fun s =>
    match body s with
    | (Ok a, s') => final s'
    | (Throw e, s') =>
        match final s' with
        | (Ok _, s'') => (Throw e, s'')
        | (Throw e', s'') => (Throw e', s'')
        end
    end.

Definition get {A} (f : State -> A) : M A := fun s => (Ok (f s), s).
Definition modify (f : State -> State) : M unit := fun s => (Ok tt, f s).
Definition when (b : bool) (c : M unit) : M unit := if b then c else ret tt.

Notation "x <- c ;; k" := (bind c (fun x => k))
  (at level 61, c at next level, right associativity).
Notation "c ;;; k" := (bind c (fun _ => k))
  (at level 61, right associativity).

Fixpoint forEach {A} (l : list A) (f : A -> M unit) : M unit :=
  match l with
  | [] => ret tt
  | x :: rest => f x ;;; forEach rest f
  end.

(** ** The host: console, fetch, the page *)

Definition console_write (lv : Level) (t : string) (a : LogArg) : M unit :=
  modify (fun s => set_console (console s ++ [mkLog lv t a]) s).

(** [await fetch(url, {method})] then [await response.json()].  The request
    is issued whatever the outcome. *)
Definition fetch {A} (meth u : string) (r : Reply A) : M (option A) :=
  modify (fun s => set_requests (requests s ++ [mkRequest meth u]) s) ;;;
  match r with
  | FetchRejects e => throw e
  | JsonRejects e => throw e
  | BodyNull => ret None
  | Body a => ret (Some a)
  end.

(** The first property read on a parsed body: a [TypeError] on [null],
    the object otherwise. *)
Definition read {A} (body : option A) (name : string) : M A :=
  match body with
  | Some a => ret a
  | None =>
      throw (TypeError ("Cannot read properties of null (reading '" ++ name
                          ++ "')"))
  end.

Definition modify_dom (f : DOM -> DOM) : M unit :=
  modify (fun s => set_dom (f (dom s)) s).

(** ** Leaflet *)

Definition same_oid (a b : Layer) : bool := Nat.eqb (l_oid a) (l_oid b).

Definition hasLayer (l : Layer) (ls : list Layer) : bool := existsb (same_oid l) ls.

Definition set_layers (ls : list Layer) (m : LMap) : LMap :=
  mkLMap (m_center m) (m_zoom m) ls (m_panes m) (m_zoomControl_position m)
    (m_zoomend m).

(** [map.addLayer(l)]: nothing when the layer is attached already. *)
Definition addLayer (l : Layer) (m : LMap) : LMap :=
  if hasLayer l (m_layers m) then m else set_layers (m_layers m ++ [l]) m.

(** [map.removeLayer(l)] *)
Definition removeLayer (l : Layer) (m : LMap) : LMap :=
  set_layers (filter (fun x => negb (same_oid l x)) (m_layers m)) m.

(** Constructing a layer object gives it the next identity. *)
Definition new_layer (src : LayerSource) : M Layer :=
  fun s => (Ok (mkLayer (next_oid s) src), set_next_oid (S (next_oid s)) s).

(** Calling a method of [map]: a [TypeError] while [map] is undefined. *)
Definition with_map {A} (meth : string) (f : LMap -> A) : M A :=
  fun s =>
    match map s with
    | Some m => (Ok (f m), s)
    | None =>
        (Throw (TypeError ("Cannot read properties of undefined (reading '"
                             ++ meth ++ "')")), s)
    end.

Definition update_map (meth : string) (f : LMap -> LMap) : M unit :=
  m <- with_map meth f ;; modify (set_map (Some m)).

(** [layer.addTo(map)] *)
Definition addTo_map (l : Layer) : M unit := update_map "addLayer" (addLayer l).

Definition map_removeLayer (l : Layer) : M unit :=
  update_map "removeLayer" (removeLayer l).

Definition group_layer (g : LayerGroupObj) : Layer := mkLayer (g_oid g) LayerGroup.

(** ** The map script *)

Definition updateStatus (msg type : string) : M unit :=
  modify_dom (dom_set_status_textContent msg) ;;;
  if String.eqb type "success" then
    modify_dom (dom_set_status_dot_background "#10b981") ;;;
    modify_dom (dom_set_status_text_textContent "Succeeded")
  else if String.eqb type "error" then
    modify_dom (dom_set_status_dot_background "#ef4444") ;;;
    modify_dom (dom_set_status_text_textContent "Failed")
  else ret tt.

Definition airport_icon : Icon :=
  L_icon "image/airport.svg" (70, 70)%Z (35, 35)%Z (0, -35)%Z.

Definition airport_marker (a : Airport) : Marker :=
  mkMarker (lat a, lng a) airport_icon (Some (code a)).

(** The callback of [airports.filter] in addAirportMarkers. *)
Definition zoom_filter (zoom : Z) (a : Airport) : bool :=
  if (zoom <? 5)%Z then (size a =? 1)%Z
  else if (zoom <=? 8)%Z then (size a <=? 2)%Z
  else true.

Definition clearLayers : M unit :=
  modify (fun s => set_airportMarkers (mkGroup (g_oid (airportMarkers s)) []) s).

Definition airportMarkers_addLayer (l : Layer) : M unit :=
  modify (fun s =>
    set_airportMarkers
      (mkGroup (g_oid (airportMarkers s)) (g_layers (airportMarkers s) ++ [l])) s).

Definition airportMarkers_addTo_map : M unit :=
  g <- get airportMarkers ;; addTo_map (group_layer g).

(** The first two statements of addAirportMarkers. *)
Definition clear_and_getZoom : M Z :=
  clearLayers ;;; with_map "getZoom" m_zoom.

Definition addAirportMarkers (airports : list Airport) : M unit :=
  zoom <- clear_and_getZoom ;;
  let filteredAirports := filter (zoom_filter zoom) airports in
  forEach filteredAirports (fun a =>
    marker <- new_layer (MarkerLayer (airport_marker a)) ;;
    airportMarkers_addLayer marker) ;;;
  airportMarkers_addTo_map.

(** addAirportMarkers on something that is not an array ([null]). *)
Definition addAirportMarkers_null : M unit :=
  _ <- clear_and_getZoom ;;
  throw (TypeError "Cannot read properties of null (reading 'filter')").

Definition tomtom_style : string :=
  "https://api.tomtom.com/style/2/custom/style/dG9tdG9tQEBAQ3NzVldyNW9vRE8xNGM4UjtYzY1cmw1O_KElrrp1-a36.json?key=8c6bwORxaSZca2MW4UclcA8gGYt8lbmE".

Definition tomtom_attribution : string := "© TomTom | © OpenStreetMap contributors".

Definition google_subdomains : Subdomains := SubArray ["mt0"; "mt1"; "mt2"; "mt3"].

(** The variables the [switch] of changeMapLayer sets for the tile sources. *)
Record LayerConfig : Type := mkConfig {
  baseUrl : string;
  baseAttribution : string;
  cfg_maxZoom : Z;
  cfg_subdomains : option Subdomains
}.

Definition stamen_attribution : string :=
  "Map tiles by <a href=" ++ dq ++ "http://stamen.com" ++ dq
  ++ ">Stamen Design</a>, <a href=" ++ dq
  ++ "http://creativecommons.org/licenses/by/3.0" ++ dq
  ++ ">CC BY 3.0</a> &mdash; Map data &copy; <a href=" ++ dq
  ++ "https://www.openstreetmap.org/copyright" ++ dq
  ++ ">OpenStreetMap</a> contributors".

Definition layer_config (selectedLayer : string) : LayerConfig :=
  if String.eqb selectedLayer "satellite" then
    mkConfig "https://{s}.google.com/vt/lyrs=s&x={x}&y={y}&z={z}" "© Google" 19
      (Some google_subdomains)
  else if String.eqb selectedLayer "terrain" then
    mkConfig "https://stamen-tiles-{s}.a.ssl.fastly.net/terrain/{z}/{x}/{y}{r}.png"
      stamen_attribution 18 (Some (SubChars "abcd"))
  else if String.eqb selectedLayer "topo" then
    mkConfig "https://{s}.tile.opentopomap.org/{z}/{x}/{y}.png"
      "© OpenTopoMap contributors" 17 None
  else if String.eqb selectedLayer "dark" then
    mkConfig "https://{s}.basemaps.cartocdn.com/dark_all/{z}/{x}/{y}{r}.png"
      "© CARTO" 19 None
  else if String.eqb selectedLayer "hybrid" then
    mkConfig "https://{s}.google.com/vt/lyrs=y&x={x}&y={y}&z={z}" "© Google" 19
      (Some google_subdomains)
  else
    mkConfig "https://{s}.tile.openstreetmap.org/{z}/{x}/{y}.png"
      "© OpenStreetMap contributors" 19 None.

(** Evaluating the identifier [airports] inside changeMapLayer, where no
    local of that name is in scope. *)
Definition lookup_airports : M (list Airport) :=
  fun s =>
    match global_airports s with
    | Some a => (Ok a, s)
    | None => (Throw (ReferenceError "airports"), s)
    end.

(** The three statements every branch of changeMapLayer ends with, after
    the layers it attaches. *)
Definition recompute_and_report (selectedLayer : string) : M unit :=
  airports <- lookup_airports ;;
  addAirportMarkers airports ;;;
  updateStatus ("Map layer changed to " ++ selectedLayer) "success".

Definition remove_if_set (l : option Layer) : M unit :=
  match l with
  | Some x => map_removeLayer x
  | None => ret tt
  end.

Definition changeMapLayer : M unit :=
  selectedLayer <- get (fun s => mapLayer_value (dom s)) ;;
  b <- get currentBaseLayer ;;
  remove_if_set b ;;;
  o <- get currentOverlayLayer ;;
  remove_if_set o ;;;
  modify (set_currentOverlayLayer None) ;;;
  if String.eqb selectedLayer "darkHybrid" then
    base <- new_layer
      (TileLayer "https://{s}.basemaps.cartocdn.com/dark_all/{z}/{x}/{y}{r}.png"
         (mkTileOptions "© CARTO | © Google" 19 None "tilePane")) ;;
    addTo_map base ;;;
    modify (set_currentBaseLayer (Some base)) ;;;
    overlay <- new_layer
      (TileLayer "https://{s}.google.com/vt/lyrs=h&x={x}&y={y}&z={z}"
         (mkTileOptions "" 20 (Some google_subdomains) "labels")) ;;
    addTo_map overlay ;;;
    modify (set_currentOverlayLayer (Some overlay)) ;;;
    recompute_and_report selectedLayer
  else if String.eqb selectedLayer "tomtom" then
    base <- new_layer (MaplibreGL tomtom_style tomtom_attribution) ;;
    addTo_map base ;;;
    modify (set_currentBaseLayer (Some base)) ;;;
    recompute_and_report selectedLayer
  else
    let cfg := layer_config selectedLayer in
    base <- new_layer
      (TileLayer (baseUrl cfg)
         (mkTileOptions (baseAttribution cfg) (cfg_maxZoom cfg)
            (cfg_subdomains cfg) "tilePane")) ;;
    addTo_map base ;;;
    modify (set_currentBaseLayer (Some base)) ;;;
    recompute_and_report selectedLayer.

(** The listener initMap registers for [zoomend], closed over [airports]. *)
Definition zoomend_listener (airports : list Airport) : M unit :=
  addAirportMarkers airports ;;;
  zoom <- with_map "getZoom" m_zoom ;;
  updateStatus ("Updated airport markers for zoom level " ++ string_of_Z zoom)
    "success".

Definition map_on_zoomend (airports : list Airport) : M unit :=
  update_map "on" (fun m =>
    mkLMap (m_center m) (m_zoom m) (m_layers m) (m_panes m)
      (m_zoomControl_position m) (m_zoomend m ++ [airports])).

(** [L.map('map', ...).setView([39.8283, -98.5795], 4)]: a new map with the
    default panes and no layer. *)
Definition new_map : LMap :=
  mkLMap (398283 # 10000, - (985795 # 10000)) 4 []
    ["mapPane"; "tilePane"; "overlayPane"; "shadowPane"; "markerPane";
     "tooltipPane"; "popupPane"]
    "topleft" [].

(** initMap, with the outcome of [fetch('airports.json')]. *)
Definition initMap (r : Reply (list Airport)) : M unit :=
  modify (set_map (Some new_map)) ;;;
  update_map "createPane" (fun m =>
    mkLMap (m_center m) (m_zoom m) (m_layers m) (m_panes m ++ ["labels"])
      (m_zoomControl_position m) (m_zoomend m)) ;;;
  base <- new_layer (MaplibreGL tomtom_style tomtom_attribution) ;;
  addTo_map base ;;;
  modify (set_currentBaseLayer (Some base)) ;;;
  update_map "zoomControl" (fun m =>
    mkLMap (m_center m) (m_zoom m) (m_layers m) (m_panes m) "bottomright"
      (m_zoomend m)) ;;;
  airportMarkers_addTo_map ;;;
  try_catch
    (airports <- fetch "GET" "airports.json" r ;;
     match airports with
     | Some l => addAirportMarkers l ;;; map_on_zoomend l
     | None => addAirportMarkers_null
     end)
    (fun _ => updateStatus "Failed to load airports.json" "error") ;;;
  updateStatus "Map loaded successfully" "success".

(** The map fires [zoomend] after its zoom became [z]. *)
Definition fire_zoomend (z : Z) : M unit :=
  update_map "setZoom" (fun m =>
    mkLMap (m_center m) z (m_layers m) (m_panes m) (m_zoomControl_position m)
      (m_zoomend m)) ;;;
  ls <- with_map "fire" m_zoomend ;;
  forEach ls zoomend_listener.

(** The legacy poller, for the origin its two URLs start with. *)
Definition fetchAircraftData_at (origin : string) (r1 : Reply PositionReply)
    (r2 : Reply TypeReply) : M unit :=
  try_catch
    (body1 <- fetch "GET" (origin ++ "/aircraft/position") r1 ;;
     positionData <- read body1 "error" ;;
     (if truthy (p_error positionData) then
        console_write error "Position Error:" (LVal (p_error positionData))
      else console_write log "Position:" (LPosition positionData)) ;;;
     body2 <- fetch "GET" (origin ++ "/aircraft/type") r2 ;;
     typeData <- read body2 "error" ;;
     if truthy (t_error typeData) then
       console_write error "Type Error:" (LVal (t_error typeData))
     else console_write log "Aircraft Type:" (LVal (t_type typeData)))
    (fun e => console_write error "Fetch Error:" (LExn e)).

(** The poller of the first listing, against http://localhost:5000. *)
Definition fetchAircraftData_localhost := fetchAircraftData_at "http://localhost:5000".

(** The poller of the last listing, against the page's origin. *)
Definition fetchAircraftData := fetchAircraftData_at "".

(** ** script/simconnect.js *)

Definition modify_socket (f : Socket -> Socket) : M unit :=
  modify (fun s => set_socket (option_map f (socket s)) s).

Definition initWebSocket : M unit :=
  io <- get io_available ;;
  if io then modify (set_socket (Some (mkSocket false [])))
  else
    console_write warn "Socket.IO not available - real-time updates disabled"
      LNothing ;;;
    updateStatus "Real-time updates unavailable" "warning".

Definition status_markup (label : string) : string :=
  "<div class=" ++ dq ++ "status-dot" ++ dq ++ "></div><span>" ++ label
  ++ "</span>".

Definition show_indicator_if_auto : M unit :=
  auto <- get autoUpdateEnabled ;;
  when auto (modify_dom (dom_set_realtime_indicator_display "flex")).

Definition updateSimConnectStatus (statusData : option StatusData) : M unit :=
  statusElement <- get (fun s => simconnect_status (dom s)) ;;
  match statusElement with
  | None => console_write warn "SimConnect status element not found" LNothing
  | Some _ =>
      st <- read statusData "connected" ;;
      (if truthy (st_connected st) then
         modify_dom (dom_set_simconnect_status
           (Some (mkStatusElement "status-indicator status-connected"
                    (status_markup "Connected")))) ;;;
         modify_dom (dom_set_connect_btn_disabled true) ;;;
         modify_dom (dom_set_disconnect_btn_disabled false) ;;;
         modify (set_isSimConnectConnected true) ;;;
         show_indicator_if_auto
       else
         modify_dom (dom_set_simconnect_status
           (Some (mkStatusElement "status-indicator status-disconnected"
                    (status_markup "Disconnected")))) ;;;
         modify_dom (dom_set_connect_btn_disabled false) ;;;
         modify_dom (dom_set_disconnect_btn_disabled true) ;;;
         modify (set_isSimConnectConnected false) ;;;
         modify_dom (dom_set_realtime_indicator_display "none")) ;;;
      console_write log "SimConnect status updated:" (LStatus st)
  end.

Definition button_markup (label : string) : string :=
  "<svg viewBox=" ++ dq ++ "0 0 24 24" ++ dq ++ " fill=" ++ dq ++ "none" ++ dq
  ++ " stroke=" ++ dq ++ "currentColor" ++ dq ++ " stroke-width=" ++ dq ++ "2"
  ++ dq ++ "><path d=" ++ dq ++ "M13 2L3 14h9l-1 8 10-12h-9l1-8z" ++ dq
  ++ "></path></svg>" ++ label.

Definition template_string (v : option string) : string :=
  match v with
  | Some s => s
  | None => "undefined"
  end.

Definition connectSimConnect (r : Reply ApiResult) : M unit :=
  modify_dom (dom_set_connect_btn_disabled true) ;;;
  modify_dom (dom_set_connect_btn_innerHTML (button_markup "Connecting...")) ;;;
  try_finally
    (try_catch
       (body <- fetch "POST" "/api/simconnect/connect" r ;;
        result <- read body "success" ;;
        if truthy (success result) then
          modify (set_isSimConnectConnected true) ;;;
          modify_dom (dom_set_connect_btn_disabled true) ;;;
          modify_dom (dom_set_disconnect_btn_disabled false) ;;;
          updateStatus "Connected to SimConnect successfully" "success" ;;;
          show_indicator_if_auto ;;;
          modify_socket (fun k => mkSocket (connected k)
                                    (emitted k ++ ["request_position"]))
        else
          updateStatus
            ("Failed to connect: " ++ template_string (message result)) "error" ;;;
          console_write error "SimConnect connection failed:"
            (LResult (Some result)))
       (fun e =>
          updateStatus ("Connection error: " ++ error_message e) "error" ;;;
          console_write error "Connection error:" (LExn e)))
    (modify_dom (dom_set_connect_btn_disabled false) ;;;
     modify_dom (dom_set_connect_btn_innerHTML (button_markup "Connect"))).

Definition disconnectSimConnect (r : Reply ApiResult) : M unit :=
  try_catch
    (result <- fetch "POST" "/api/simconnect/disconnect" r ;;
     modify (set_isSimConnectConnected false) ;;;
     modify_dom (dom_set_connect_btn_disabled false) ;;;
     modify_dom (dom_set_disconnect_btn_disabled true) ;;;
     modify_dom (dom_set_realtime_indicator_display "none") ;;;
     updateStatus "Disconnected from SimConnect" "success" ;;;
     console_write log "SimConnect disconnected:" (LResult result))
    (fun e =>
       updateStatus ("Disconnect error: " ++ error_message e) "error" ;;;
       console_write error "Disconnect error:" (LExn e)).

Definition toggleAutoUpdate : M unit :=
  modify (fun s => set_autoUpdateEnabled (negb (autoUpdateEnabled s)) s) ;;;
  auto <- get autoUpdateEnabled ;;
  if auto then
    modify_dom (dom_set_auto_update_toggle_active true) ;;;
    c <- get isSimConnectConnected ;;
    when c (modify_dom (dom_set_realtime_indicator_display "flex")) ;;;
    updateStatus "Real-time updates enabled" "success"
  else
    modify_dom (dom_set_auto_update_toggle_active false) ;;;
    modify_dom (dom_set_realtime_indicator_display "none") ;;;
    updateStatus "Real-time updates disabled" "warning".

(** [v.toFixed(digits)]: a [TypeError] when [v] is undefined. *)
Definition call_toFixed (digits : nat) (v : option Q) : M string :=
  match v with
  | Some q => ret (toFixed digits q)
  | None =>
      throw (TypeError "Cannot read properties of undefined (reading 'toFixed')")
  end.

(** [L.marker([lat, lng], ...)]: Leaflet's LatLng refuses a coordinate that
    is not a number. *)
Definition toLatLng (lat lng : option Q) : M (Q * Q) :=
  match lat, lng with
  | Some a, Some b => ret (a, b)
  | _, _ => throw (Error "Invalid LatLng object")
  end.

Definition aircraft_icon (heading : option Q) : Icon :=
  L_divIcon (number_sub (ToNumber heading) (Num 90)) "aircraft-marker"
    (40, 40)%Z (20, 20)%Z.

Definition updateAircraftMarkerPosition (lat lng heading : option Q) : M unit :=
  try_catch
    (old <- get aircraftMarker ;;
     m <- get map ;;
     match old, m with
     | Some l, Some _ => map_removeLayer l
     | _, _ => ret tt
     end ;;;
     let aircraftIcon := aircraft_icon heading in
     match m with
     | Some _ =>
         ll <- toLatLng lat lng ;;
         marker <- new_layer (MarkerLayer (mkMarker ll aircraftIcon None)) ;;
         addTo_map marker ;;;
         modify (set_aircraftMarker (Some marker))
     | None => ret tt
     end)
    (fun e => console_write error "Error updating aircraft marker:" (LExn e)).

(** The seven assignments to the properties of [aircraftData]. *)
Definition store_aircraftData (p : PositionData) : M unit :=
  fun s =>
    match aircraftData s with
    | Some _ =>
        (Ok tt,
         set_aircraftData
           (Some (mkAircraftData (of_number (latitude p)) (of_number (longitude p))
                    (of_number (altitude p)) (of_number (heading p))
                    (ground_speed p) (aircraft_title p)
                    (js_or (atc_id p) (JString "")))) s)
    | None => (Throw (ReferenceError "aircraftData"), s)
    end.

Definition call_showAircraftInfo : M unit :=
  fun s =>
    match aircraftData s with
    | Some ad =>
        match showAircraftInfo ad (panel s) with
        | (None, p) => (Ok tt, set_panel p s)
        | (Some e, p) => (Throw e, set_panel p s)
        end
    | None => (Throw (ReferenceError "aircraftData"), s)
    end.

(** [if (field) field.value = v]: [v] is evaluated only when the field is
    there. *)
Definition set_field (field : DOM -> option string)
    (setter : option string -> DOM -> DOM) (v : M string) : M unit :=
  f <- get (fun s => field (dom s)) ;;
  match f with
  | Some _ => x <- v ;; modify_dom (setter (Some x))
  | None => ret tt
  end.

Definition handleRealtimePositionUpdate (positionData : PositionData) : M unit :=
  auto <- get autoUpdateEnabled ;;
  if negb auto then ret tt
  else
    console_write log "Received position update:" (LPositionData positionData) ;;;
    try_catch
      (set_field latitude_field dom_set_latitude_field
         (call_toFixed 6 (latitude positionData)) ;;;
       set_field longitude_field dom_set_longitude_field
         (call_toFixed 6 (longitude positionData)) ;;;
       set_field altitude_field dom_set_altitude_field
         (ret (number_to_string (Math_round (ToNumber (altitude positionData))))) ;;;
       set_field heading_field dom_set_heading_field
         (ret (number_to_string (Math_round (ToNumber (heading positionData))))) ;;;
       store_aircraftData positionData ;;;
       updateAircraftMarkerPosition (latitude positionData)
         (longitude positionData) (heading positionData) ;;;
       call_showAircraftInfo ;;;
       la <- call_toFixed 4 (latitude positionData) ;;
       lo <- call_toFixed 4 (longitude positionData) ;;
       updateStatus
         ("Live: " ++ la ++ ", " ++ lo ++ ", "
          ++ number_to_string (Math_round (ToNumber (altitude positionData)))
          ++ "ft")
         "success")
      (fun e =>
         console_write error "Error handling position update:" (LExn e) ;;;
         updateStatus "Error processing position data" "error").

(** The listeners initWebSocket registers, and what the socket library does
    to [socket.connected] before it calls them. *)
Inductive SocketEvent : Type :=
| ev_connect
| ev_disconnect
| ev_simconnect_status (data : option StatusData)
| ev_aircraft_position_update (data : option PositionData)
| ev_error (e : Exn).

Definition socket_on (ev : SocketEvent) : M unit :=
  match ev with
  | ev_connect =>
      modify_socket (fun k => mkSocket true (emitted k)) ;;;
      console_write log "Connected to FlyCharts server" LNothing ;;;
      updateStatus "Connected to server" "success"
  | ev_disconnect =>
      modify_socket (fun k => mkSocket false (emitted k)) ;;;
      console_write log "Disconnected from FlyCharts server" LNothing ;;;
      updateStatus "Disconnected from server" "warning"
  | ev_simconnect_status data => updateSimConnectStatus data
  | ev_aircraft_position_update data =>
      auto <- get autoUpdateEnabled ;;
      match auto, data with
      | true, Some d => handleRealtimePositionUpdate d
      | _, _ => ret tt
      end
  | ev_error e =>
      console_write error "Socket error:" (LExn e) ;;;
      updateStatus "Connection error" "error"
  end.

Definition socket_is_connected (s : State) : bool :=
  match socket s with
  | Some k => connected k
  | None => false
  end.

Definition assign_aircraft (v : jsval) : M unit :=
  fun s =>
    match aircraftData s with
    | Some ad =>
        (Ok tt,
         set_aircraftData
           (Some (mkAircraftData (ad_latitude ad) (ad_longitude ad)
                    (ad_altitude ad) (ad_heading ad) (ad_groundSpeed ad) v
                    (ad_callsign ad))) s)
    | None => (Throw (ReferenceError "aircraftData"), s)
    end.

Definition fetchAircraftDataEnhanced (r1 : Reply PositionReply)
    (r2 : Reply TypeReply) : M unit :=
  up <- get socket_is_connected ;;
  if up then ret tt
  else
    sim <- get isSimConnectConnected ;;
    if negb sim then ret tt
    else
      try_catch
        (body1 <- fetch "GET" "/aircraft/position" r1 ;;
         positionData <- read body1 "error" ;;
         (if truthy (p_error positionData) then
            console_write error "Position Error:" (LVal (p_error positionData))
          else
            console_write log "Position (legacy):" (LPosition positionData) ;;;
            auto <- get autoUpdateEnabled ;;
            when auto (handleRealtimePositionUpdate (p_data positionData))) ;;;
         body2 <- fetch "GET" "/aircraft/type" r2 ;;
         typeData <- read body2 "error" ;;
         if truthy (t_error typeData) then
           console_write error "Type Error:" (LVal (t_error typeData))
         else
           console_write log "Aircraft Type (legacy):" (LVal (t_type typeData)) ;;;
           assign_aircraft (t_type typeData))
        (fun e => console_write error "Legacy fetch error:" (LExn e)).

Definition checkSimConnectStatus (r : Reply StatusData) : M unit :=
  try_catch
    (result <- fetch "GET" "/api/simconnect/status" r ;;
     updateSimConnectStatus result)
    (fun e => console_write error "Error checking SimConnect status:" (LExn e)).

(** The state once both scripts are loaded and before any of their
    functions ran: [airportMarkers = L.layerGroup()] is the first layer
    object, auto-update is on, nothing is connected.  The page supplies its
    elements, whether Socket.IO is loaded, [aircraftData] and the panel. *)
Definition page_load (d : DOM) (io : bool) (ad : option AircraftData)
    (p : Panel) : State :=
  mkState None None None (mkGroup 0 []) None None true false ad None p io d
    [] [] 1.

End FlyCharts.

Arguments State : clear implicits.
Arguments M : clear implicits.

(** * Properties of the scripts *)

Open Scope nat_scope.

(** ** Definitions the statements use *)

(** The band rule of the specification, with the thresholds of the script *)
Definition band_rule (zoom : Z) (a : Airport) : Prop :=
  (zoom < 5 /\ size a = 1)%Z \/
  (5 <= zoom <= 8 /\ size a <= 2)%Z \/
  (8 < zoom)%Z.

Fixpoint number_layers (n : nat) (l : list Airport) : list Layer :=
  match l with
  | [] => []
  | a :: rest => mkLayer n (MarkerLayer (airport_marker a)) :: number_layers (S n) rest
  end.

Definition removed (cur : option Layer) (m : LMap) : LMap :=
  match cur with
  | Some l => removeLayer l m
  | None => m
  end.

Definition example_position : PositionData :=
  mkPositionData (Some (476 # 10)%Q) (Some (- (1223 # 10))%Q) (Some 1000%Q)
    (Some 90%Q) JUndefined JUndefined JUndefined.

Definition marker_rotation (l : Layer) : option number :=
  match l_src l with
  | MarkerLayer mk =>
      match m_icon mk with
      | L_divIcon rotation _ _ _ => Some rotation
      | L_icon _ _ _ _ => None
      end
  | _ => None
  end.

(** How a poll cycle reports one response: as an error when its error
    property is truthy, as data otherwise. *)
Definition outcome_entry (error_text ok_text : string) (err : jsval)
    (data : LogArg) : LogEntry :=
  if truthy err then mkLog error error_text (LVal err) else mkLog log ok_text data.

(** The exception a reply raises inside the poller's [try], if any. *)
Definition failure {A} (r : Reply A) : option Exn :=
  match r with
  | FetchRejects e => Some e
  | JsonRejects e => Some e
  | BodyNull => Some (TypeError "Cannot read properties of null (reading 'error')")
  | Body _ => None
  end.

(** The requests of one poll cycle: the position, then the type unless the
    first reply raised. *)
Definition poll_requests {A} (origin : string) (r1 : Reply A) : list Request :=
  mkRequest "GET" (origin ++ "/aircraft/position")
  :: match failure r1 with
     | None => [mkRequest "GET" (origin ++ "/aircraft/type")]
     | Some _ => []
     end.

(** The console entries of one cycle of the legacy poller. *)
Definition poll_entries (r1 : Reply PositionReply) (r2 : Reply TypeReply)
    : list LogEntry :=
  match r1 with
  | Body p =>
      outcome_entry "Position Error:" "Position:" (p_error p) (LPosition p)
      :: match r2 with
         | Body t =>
             [outcome_entry "Type Error:" "Aircraft Type:" (t_error t)
                (LVal (t_type t))]
         | _ =>
             match failure r2 with
             | Some e => [mkLog error "Fetch Error:" (LExn e)]
             | None => []
             end
         end
  | _ =>
      match failure r1 with
      | Some e => [mkLog error "Fetch Error:" (LExn e)]
      | None => []
      end
  end.

(** The entries of a console listing that carry a given text. *)
Definition entries_with (txt : string) (l : list LogEntry) : list LogEntry :=
  filter (fun e => String.eqb (text e) txt) l.

(** A response was reported as exactly one of error and data, by the
    truthiness of its error property. *)
Definition reported_once (error_text ok_text : string) (err : jsval)
    (data : LogArg) (new : list LogEntry) : Prop :=
  entries_with error_text new
  = (if truthy err then [mkLog error error_text (LVal err)] else []) /\
  entries_with ok_text new
  = (if truthy err then [] else [mkLog log ok_text data]).

(** What one cycle of the enhanced poller leaves on the console. *)
Definition enhanced_report (r1 : Reply PositionReply) (r2 : Reply TypeReply)
    (new : list LogEntry) : Prop :=
  match r1 with
  | Body p =>
      reported_once "Position Error:" "Position (legacy):" (p_error p)
        (LPosition p) new /\
      match r2 with
      | Body t =>
          reported_once "Type Error:" "Aircraft Type (legacy):" (t_error t)
            (LVal (t_type t)) new
      | _ =>
          forall e, failure r2 = Some e ->
            entries_with "Legacy fetch error:" new
            = [mkLog error "Legacy fetch error:" (LExn e)]
      end
  | _ =>
      forall e, failure r1 = Some e ->
        new = [mkLog error "Legacy fetch error:" (LExn e)]
  end.




(** The source changeMapLayer gives the base layer for a selection. *)
Definition base_source (selectedLayer : string) : LayerSource :=
  if String.eqb selectedLayer "darkHybrid" then
    TileLayer "https://{s}.basemaps.cartocdn.com/dark_all/{z}/{x}/{y}{r}.png"
      (mkTileOptions "© CARTO | © Google" 19 None "tilePane")
  else if String.eqb selectedLayer "tomtom" then
    MaplibreGL tomtom_style tomtom_attribution
  else
    TileLayer (baseUrl (layer_config selectedLayer))
      (mkTileOptions (baseAttribution (layer_config selectedLayer))
         (cfg_maxZoom (layer_config selectedLayer))
         (cfg_subdomains (layer_config selectedLayer)) "tilePane").

(** The labels overlay of the darkHybrid selection. *)
Definition labels_source : LayerSource :=
  TileLayer "https://{s}.google.com/vt/lyrs=h&x={x}&y={y}&z={z}"
    (mkTileOptions "" 20 (Some google_subdomains) "labels").

(** What happens on the page once the scripts are loaded.  Each event is one
    run, to its end, of a function of the scripts: the call of initMap, the
    map firing zoomend, a choice in the layer selector followed by
    changeMapLayer, a tick of one of the timers with the replies its requests
    receive, the call of initWebSocket, an event of the socket, a click on
    one of the buttons. *)
Inductive Event : Type :=
| LoadMap (r : Reply (list Airport))
| ZoomEnd (z : Z)
| SelectLayer (selectedLayer : string)
| LegacyTick (origin : string) (r1 : Reply PositionReply) (r2 : Reply TypeReply)
| OpenSocket
| FromSocket (ev : SocketEvent)
| ClickConnect (r : Reply ApiResult)
| ClickDisconnect (r : Reply ApiResult)
| ClickToggle
| EnhancedTick (r1 : Reply PositionReply) (r2 : Reply TypeReply)
| StatusTick (r : Reply StatusData).

(** The events whose function assigns to the connection flag, to
    autoUpdateEnabled, to a button or to the indicator. *)
Definition touches_controls (ev : Event) : bool :=
  match ev with
  | ClickConnect _ | ClickDisconnect _ | ClickToggle | StatusTick _
  | FromSocket (ev_simconnect_status _) => true
  | _ => false
  end.

(** The events whose function calls fetch. *)
Definition fetches (ev : Event) : bool :=
  match ev with
  | LoadMap _ | LegacyTick _ _ _ | ClickConnect _ | ClickDisconnect _
  | EnhancedTick _ _ | StatusTick _ => true
  | _ => false
  end.

(** The events whose function touches the map, a layer variable, the marker
    group or constructs a layer. *)
Definition touches_scene (ev : Event) : bool :=
  match ev with
  | LoadMap _ | ZoomEnd _ | SelectLayer _ | EnhancedTick _ _
  | FromSocket (ev_aircraft_position_update _) => true
  | _ => false
  end.

(** The events that create the map anew or put a new aircraft marker. *)
Definition may_replace_marker (ev : Event) : bool :=
  match ev with
  | LoadMap _ | EnhancedTick _ _
  | FromSocket (ev_aircraft_position_update _) => true
  | _ => false
  end.

(** *** Concrete inputs *)

Definition example_dom : DOM :=
  mkDOM "" "" "" "street" false "" true "none"
    (Some (mkStatusElement "" "")) true (Some "") (Some "") (Some "") (Some "").

Definition example_aircraftData : AircraftData :=
  mkAircraftData JNull JNull JNull JNull JNull JNull JNull.

(** A page whose info panel holds nothing and whose showAircraftInfo does
    nothing. *)
Definition no_panel (ad : AircraftData) (p : unit) : option Exn * unit := (None, p).

Definition example_page : State unit :=
  page_load example_dom true (Some example_aircraftData) tt.

Definition example_airports : list Airport :=
  [mkAirport "KSEA" (4745 # 100)%Q (- (12231 # 100))%Q 1;
   mkAirport "KBFI" (4753 # 100)%Q (- (12230 # 100))%Q 2;
   mkAirport "S50" (4733 # 100)%Q (- (12223 # 100))%Q 3].

(** The page after initMap ran to its end with airports.json loaded. *)
Definition example_loaded : State unit :=
  Eval vm_compute in snd (initMap (Body example_airports) example_page).

(** The same page once initWebSocket ran, the socket connected and
    connectSimConnect was answered with success. *)
Definition example_connected : State unit :=
  Eval vm_compute in
    snd (connectSimConnect (Body (mkApiResult (JBool true) None))
           (snd (socket_on no_panel ev_connect
                   (snd (initWebSocket example_loaded))))).

(** The connected page after the user switched auto-update off. *)
Definition example_auto_off : State unit :=
  Eval vm_compute in snd (toggleAutoUpdate example_connected).

(** The page with SimConnect connected and no socket (Socket.IO missing). *)
Definition example_polling : State unit :=
  Eval vm_compute in
    snd (connectSimConnect (Body (mkApiResult (JBool true) None)) example_loaded).

Definition example_position_reply : PositionReply :=
  mkPositionReply JUndefined example_position.

Definition example_type_reply : TypeReply :=
  mkTypeReply JUndefined (JString "Cessna 172").

(** A position body whose error property is present and [null]. *)
Definition null_error_reply : PositionReply :=
  mkPositionReply JNull example_position.

(** The connected page without the element [simconnect-status]. *)
Definition example_no_status_element : State unit :=
  Eval vm_compute in
    set_dom (dom_set_simconnect_status None (dom example_connected))
      example_connected.

(** A reading that lost its latitude. *)
Definition example_no_latitude : PositionData :=
  mkPositionData None (Some (- (1223 # 10))%Q) (Some 1000%Q) (Some 90%Q)
    JUndefined JUndefined JUndefined.


(** A session: the map loads, a position arrives over the socket, the user
    picks the satellite layer, zooms in, and a second position arrives. *)
Definition example_session : list Event :=
  [LoadMap (Body example_airports);
   OpenSocket;
   FromSocket ev_connect;
   FromSocket (ev_aircraft_position_update (Some example_position));
   SelectLayer "satellite";
   ZoomEnd 6;
   FromSocket (ev_aircraft_position_update (Some example_position))].

(** The start of a session, up to the first position. *)
Definition example_first_position : list Event :=
  [LoadMap (Body example_airports);
   OpenSocket;
   FromSocket ev_connect;
   FromSocket (ev_aircraft_position_update (Some example_position))].

Section Properties.

Context {Panel : Type}.
Variable showAircraftInfo : AircraftData -> Panel -> option Exn * Panel.

Definition attached (s : State Panel) : list Layer :=
  match map s with
  | Some m => m_layers m
  | None => []
  end.

Definition base_layers (s : State Panel) : list Layer := filter is_base (attached s).
Definition overlay_layers (s : State Panel) : list Layer := filter is_overlay (attached s).

(** The user picks an entry of the layer selector. *)
Definition select_mapLayer (sel : string) (s : State Panel) : State Panel :=
  set_dom (dom_set_mapLayer_value sel (dom s)) s.

Definition layer_view (s : State Panel) :=
  (base_layers s, overlay_layers s, currentBaseLayer s, currentOverlayLayer s).

(** Every attached base layer is the one [currentBaseLayer] holds, and the
    same for the overlay. *)
Definition tracked (s : State Panel) : Prop :=
  (forall l, In l (base_layers s) ->
     exists b, currentBaseLayer s = Some b /\ same_oid b l = true) /\
  (forall l, In l (overlay_layers s) ->
     exists o, currentOverlayLayer s = Some o /\ same_oid o l = true) /\
  List.length (base_layers s) <= 1 /\
  List.length (overlay_layers s) <= 1.

Definition preserves {A} (I : State Panel -> Prop) (c : M Panel A) : Prop :=
  forall s, I s -> I (snd (c s)).

Definition attach_base (src : LayerSource) (k : M Panel unit) : M Panel unit :=
  bind (new_layer src) (fun base =>
  bind (addTo_map base) (fun _ =>
  bind (modify (set_currentBaseLayer (Some base))) (fun _ => k))).

Definition attach_overlay (src : LayerSource) (k : M Panel unit) : M Panel unit :=
  bind (new_layer src) (fun overlay =>
  bind (addTo_map overlay) (fun _ =>
  bind (modify (set_currentOverlayLayer (Some overlay))) (fun _ => k))).

(** The tail of changeMapLayer after the two removals. *)
Definition attach_selected (selectedLayer : string) : M Panel unit :=
  if String.eqb selectedLayer "darkHybrid" then
    attach_base
      (TileLayer "https://{s}.basemaps.cartocdn.com/dark_all/{z}/{x}/{y}{r}.png"
         (mkTileOptions "© CARTO | © Google" 19 None "tilePane"))
      (attach_overlay
         (TileLayer "https://{s}.google.com/vt/lyrs=h&x={x}&y={y}&z={z}"
            (mkTileOptions "" 20 (Some google_subdomains) "labels"))
         (recompute_and_report selectedLayer))
  else if String.eqb selectedLayer "tomtom" then
    attach_base (MaplibreGL tomtom_style tomtom_attribution)
      (recompute_and_report selectedLayer)
  else
    let cfg := layer_config selectedLayer in
    attach_base
      (TileLayer (baseUrl cfg)
         (mkTileOptions (baseAttribution cfg) (cfg_maxZoom cfg)
            (cfg_subdomains cfg) "tilePane"))
      (recompute_and_report selectedLayer).

Definition no_map (s : State Panel) : Prop := map s = None.

Definition change_layer_to (st : State Panel) (sel : string) : State Panel :=
  snd (changeMapLayer (select_mapLayer sel st)).

Definition form_fields (s : State Panel) :=
  (latitude_field (dom s), longitude_field (dom s), altitude_field (dom s),
   heading_field (dom s)).

Definition stored (s : State Panel) := (form_fields s, aircraftData s).

Definition marker_state (s : State Panel) := (aircraftMarker s, map s, next_oid s).

Definition markers_on_map (s : State Panel) : list LayerSource :=
  List.map l_src (filter is_marker (attached s)).

(** What a position update is about: the four form fields, the stored
    aircraftData, the aircraft marker and the markers attached to the map
    (objects compared by content). *)
Definition aircraft_view (s : State Panel) :=
  (form_fields s, aircraftData s, option_map l_src (aircraftMarker s),
   markers_on_map s).

Definition core (s : State Panel) :=
  (autoUpdateEnabled s, stored s, marker_state s).

(** Every layer attached to the map was constructed before the next one. *)
Definition fresh (s : State Panel) : Prop :=
  Forall (fun l => l_oid l < next_oid s) (attached s).

(** The statements of handleRealtimePositionUpdate up to the assignments to
    aircraftData. *)
Definition fill_and_store (p : PositionData) : M Panel unit :=
  bind (set_field latitude_field dom_set_latitude_field
          (call_toFixed 6 (latitude p))) (fun _ =>
  bind (set_field longitude_field dom_set_longitude_field
          (call_toFixed 6 (longitude p))) (fun _ =>
  bind (set_field altitude_field dom_set_altitude_field
          (ret (number_to_string (Math_round (ToNumber (altitude p)))))) (fun _ =>
  bind (set_field heading_field dom_set_heading_field
          (ret (number_to_string (Math_round (ToNumber (heading p)))))) (fun _ =>
  store_aircraftData p)))).

Definition move_marker (p : PositionData) : M Panel unit :=
  updateAircraftMarkerPosition (latitude p) (longitude p) (heading p).

(** The statements after the marker update. *)
Definition show_and_report (p : PositionData) : M Panel unit :=
  bind (call_showAircraftInfo showAircraftInfo) (fun _ =>
  bind (call_toFixed 4 (latitude p)) (fun la =>
  bind (call_toFixed 4 (longitude p)) (fun lo =>
  updateStatus
    ("Live: " ++ la ++ ", " ++ lo ++ ", "
     ++ number_to_string (Math_round (ToNumber (altitude p))) ++ "ft")
    "success"))).

Definition report_failure (e : Exn) : M Panel unit :=
  bind (console_write error "Error handling position update:" (LExn e)) (fun _ =>
  updateStatus "Error processing position data" "error").

Definition log_update (p : PositionData) : M Panel unit :=
  console_write log "Received position update:" (LPositionData p).

Definition marker_view (s : State Panel) :=
  (option_map l_src (aircraftMarker s), markers_on_map s).

(** The texts handleRealtimePositionUpdate and its helper write. *)
Definition handler_entry (e : LogEntry) : bool :=
  String.eqb (text e) "Received position update:"
  || String.eqb (text e) "Error handling position update:"
  || String.eqb (text e) "Error updating aircraft marker:".

(** The console grew by entries of the handler and no request was issued. *)
Definition handler_trace (c0 : list LogEntry) (r0 : list Request)
    (s : State Panel) : Prop :=
  requests s = r0 /\
  exists new, console s = (c0 ++ new)%list /\ forallb handler_entry new = true.

(** The second half of a cycle of the enhanced poller, and its [catch]. *)
Definition enhanced_type_half (r2 : Reply TypeReply) : M Panel unit :=
  bind (fetch "GET" "/aircraft/type" r2) (fun body2 =>
  bind (read body2 "error") (fun typeData =>
  if truthy (t_error typeData) then
    console_write error "Type Error:" (LVal (t_error typeData))
  else
    bind (console_write log "Aircraft Type (legacy):" (LVal (t_type typeData)))
      (fun _ => assign_aircraft (t_type typeData)))).

Definition enhanced_catch (e : Exn) : M Panel unit :=
  console_write error "Legacy fetch error:" (LExn e).

Definition type_half_entry (e : LogEntry) : bool :=
  String.eqb (text e) "Type Error:"
  || String.eqb (text e) "Aircraft Type (legacy):"
  || String.eqb (text e) "Legacy fetch error:".

(** What the enhanced poller does with a position response. *)
Definition enhanced_position_branch (positionData : PositionReply) : M Panel unit :=
  if truthy (p_error positionData) then
    console_write error "Position Error:" (LVal (p_error positionData))
  else
    bind (console_write log "Position (legacy):" (LPosition positionData)) (fun _ =>
    bind (get autoUpdateEnabled) (fun auto =>
    when auto (handleRealtimePositionUpdate showAircraftInfo (p_data positionData)))).

(** The page has stored aircraft data. *)
Definition has_aircraftData (s : State Panel) : Prop := aircraftData s <> None.


(** The state initMap reaches before it requests airports.json: the new
    map with the labels pane, the TomTom base layer and the marker group. *)
Definition map_ready (s : State Panel) : State Panel :=
  let base := mkLayer (next_oid s) (MaplibreGL tomtom_style tomtom_attribution) in
  set_map
    (Some (addLayer (group_layer (airportMarkers s))
             (mkLMap (m_center new_map) 4 [base] (m_panes new_map ++ ["labels"])
                "bottomright" [])))
    (set_currentBaseLayer (Some base) (set_next_oid (S (next_oid s)) s)).

(** The [try] block of initMap. *)
Definition load_airports (r : Reply (list Airport)) : M Panel unit :=
  bind (fetch "GET" "airports.json" r) (fun airports =>
  match airports with
  | Some l => bind (addAirportMarkers l) (fun _ => map_on_zoomend l)
  | None => addAirportMarkers_null
  end).

(** The map fires [zoomend] for each zoom of a list, in order. *)
Definition zoom_through (zs : list Z) (s : State Panel) : State Panel :=
  fold_left (fun st z => snd (fire_zoomend z st)) zs s.

(** The markers of the group, by content. *)
Definition shown_markers (s : State Panel) : list LayerSource :=
  List.map l_src (g_layers (airportMarkers s)).

Definition markers_of (l : list Airport) : list LayerSource :=
  List.map (fun a => MarkerLayer (airport_marker a)) l.

(** The map listens to [zoomend] with exactly the given closures. *)
Definition listening (ls : list (list Airport)) (s : State Panel) : Prop :=
  exists m, map s = Some m /\ m_zoomend m = ls.

(** The function an event runs.  The listeners of the socket exist once
    initWebSocket created it. *)
Definition handle (ev : Event) : M Panel unit :=
  match ev with
  | LoadMap r => initMap r
  | ZoomEnd z => fire_zoomend z
  | SelectLayer sel => bind (modify (select_mapLayer sel)) (fun _ => changeMapLayer)
  | LegacyTick origin r1 r2 => fetchAircraftData_at origin r1 r2
  | OpenSocket => initWebSocket
  | FromSocket ev =>
      bind (get socket) (fun k =>
        match k with
        | Some _ => socket_on showAircraftInfo ev
        | None => ret tt
        end)
  | ClickConnect r => connectSimConnect r
  | ClickDisconnect r => disconnectSimConnect r
  | ClickToggle => toggleAutoUpdate
  | EnhancedTick r1 r2 => fetchAircraftDataEnhanced showAircraftInfo r1 r2
  | StatusTick r => checkSimConnectStatus r
  end.

(** The page after an event; an exception that leaves the function ends
    that run only. *)
Definition step (s : State Panel) (ev : Event) : State Panel := snd (handle ev s).

Definition run (evs : list Event) (s : State Panel) : State Panel :=
  fold_left step evs s.

(** The connection flag, the auto-update flag and the elements that show
    them. *)
Definition controls (s : State Panel) :=
  (autoUpdateEnabled s, isSimConnectConnected s,
   realtime_indicator_display (dom s), connect_btn_disabled (dom s),
   disconnect_btn_disabled (dom s), auto_update_toggle_active (dom s),
   simconnect_status (dom s)).

(** What the two invariants below are about. *)
Definition link (s : State Panel) :=
  (autoUpdateEnabled s, isSimConnectConnected s,
   realtime_indicator_display (dom s), disconnect_btn_disabled (dom s)).

(** The indicator is shown exactly when auto-update is on and SimConnect is
    connected. *)
Definition indicator_consistent (s : State Panel) : Prop :=
  realtime_indicator_display (dom s) = "flex" <->
  autoUpdateEnabled s = true /\ isSimConnectConnected s = true.

(** The disconnect button is enabled exactly when SimConnect is connected. *)
Definition disconnect_consistent (s : State Panel) : Prop :=
  disconnect_btn_disabled (dom s) = negb (isSimConnectConnected s).

(** The layers, the counter of object identities and the variables that
    hold layers. *)
Definition scene (s : State Panel) :=
  (map s, currentBaseLayer s, currentOverlayLayer s, aircraftMarker s,
   g_oid (airportMarkers s), next_oid s).

(** The object identities are consistent: every attached layer was
    constructed before the next one, no two attached layers are the same
    object, an attached base layer, overlay or marker is the object its
    variable holds, the aircraft marker was constructed after the marker
    group and is the only attached layer with its identity, and the overlay
    is another object than the aircraft marker. *)
Definition stamped_at (ls : list Layer) (n g : nat) (b o k : option Layer) : Prop :=
  Forall (fun l => l_oid l < n) ls /\
  g < n /\
  NoDup (List.map l_oid ls) /\
  (forall l, In l ls -> is_base l = true -> b = Some l) /\
  (forall l, In l ls -> is_overlay l = true -> o = Some l) /\
  (forall l, In l ls -> is_marker l = true -> k = Some l) /\
  (forall x, k = Some x ->
     is_marker x = true /\ g < l_oid x < n /\
     forall l, In l ls -> l_oid l = l_oid x -> l = x) /\
  (forall x, o = Some x ->
     l_oid x < n /\ forall y, k = Some y -> l_oid x <> l_oid y).

Definition stamped (s : State Panel) : Prop :=
  stamped_at (attached s) (next_oid s) (g_oid (airportMarkers s))
    (currentBaseLayer s) (currentOverlayLayer s) (aircraftMarker s).

(** Once the map exists, the layer currentBaseLayer holds is a base layer
    and is attached. *)
Definition based (s : State Panel) : Prop :=
  forall m, map s = Some m ->
    exists b, currentBaseLayer s = Some b /\ In b (m_layers m) /\ is_base b = true.

Definition coherent (s : State Panel) : Prop := stamped s /\ based s.

(** The message of the warning an event shows in a state, if it shows one:
    the three calls of updateStatus with the type 'warning'. *)
Definition warning_of (s : State Panel) (ev : Event) : option string :=
  match ev with
  | FromSocket ev_disconnect =>
      match socket s with
      | Some _ => Some "Disconnected from server"
      | None => None
      end
  | ClickToggle =>
      if autoUpdateEnabled s then Some "Real-time updates disabled" else None
  | OpenSocket =>
      if io_available s then None else Some "Real-time updates unavailable"
  | _ => None
  end.

(** ** Lemmas and theorems *)

(** *** The monad *)

Lemma bind_get {A B} (f : State Panel -> A) (k : A -> M Panel B) s :
  bind (get f) k s = k (f s) s.
Proof. reflexivity. Qed.

Lemma bind_modify {B} (f : State Panel -> State Panel) (k : unit -> M Panel B) s :
  bind (modify f) k s = k tt (f s).
Proof. reflexivity. Qed.

Lemma bind_ok {A B} (c : M Panel A) (k : A -> M Panel B) s a s' :
  c s = (Ok a, s') -> bind c k s = k a s'.
Proof. intros H. unfold bind. now rewrite H. Qed.

Lemma try_catch_bind_ok {A} (c : M Panel A) k h s a s' :
  c s = (Ok a, s') -> try_catch (bind c k) h s = try_catch (k a) h s'.
Proof. intros H. unfold try_catch, bind. now rewrite H. Qed.

Lemma updateStatus_total msg type (s : State Panel) :
  fst (updateStatus msg type s) = Ok tt.
Proof.
  unfold updateStatus, modify_dom, bind, modify.
  destruct (String.eqb type "success"); [reflexivity|].
  destruct (String.eqb type "error"); reflexivity.
Qed.

(** *** Invariants kept by a computation *)

Lemma preserves_ret {A} I (a : A) : preserves I (ret a).
Proof. intros s H. exact H. Qed.

Lemma preserves_throw {A} I e : preserves I (@throw Panel A e).
Proof. intros s H. exact H. Qed.

Lemma preserves_get {A} I (f : State Panel -> A) : preserves I (get f).
Proof. intros s H. exact H. Qed.

Lemma preserves_modify I (f : State Panel -> State Panel) :
  (forall s, I s -> I (f s)) -> preserves I (modify f).
Proof. intros Hf s H. apply Hf, H. Qed.

Lemma preserves_bind {A B} I (c : M Panel A) (k : A -> M Panel B) :
  preserves I c -> (forall a, preserves I (k a)) -> preserves I (bind c k).
Proof.
  intros Hc Hk s H. unfold bind. specialize (Hc s H).
  destruct (c s) as [[a|e] s1]; simpl in *; [apply Hk, Hc | exact Hc].
Qed.

Lemma preserves_try_catch I (c : M Panel unit) h :
  preserves I c -> (forall e, preserves I (h e)) -> preserves I (try_catch c h).
Proof.
  intros Hc Hh s H. unfold try_catch. specialize (Hc s H).
  destruct (c s) as [[a|e] s1]; simpl in *; [exact Hc | apply Hh, Hc].
Qed.

Lemma preserves_forEach {A} I (l : list A) (f : A -> M Panel unit) :
  (forall a, preserves I (f a)) -> preserves I (forEach l f).
Proof.
  intros Hf. induction l as [|a l IH]; simpl.
  - apply preserves_ret.
  - apply preserves_bind; [apply Hf | intros _; exact IH].
Qed.

Lemma preserves_when I b (c : M Panel unit) :
  preserves I c -> preserves I (when b c).
Proof. intros Hc. destruct b; simpl; [exact Hc | apply preserves_ret]. Qed.

Lemma preserves_with_map {A} I meth (f : LMap -> A) : preserves I (with_map meth f).
Proof. intros s H. unfold with_map. destruct (map s); exact H. Qed.

(** *** Lists of layers *)

Lemma filter_all_false {A} (p : A -> bool) ls :
  (forall x, In x ls -> p x = false) -> filter p ls = [].
Proof.
  induction ls as [|x ls IH]; simpl; intros H; [reflexivity|].
  rewrite (H x (or_introl eq_refl)). apply IH. intros y Hy. apply H. now right.
Qed.

Lemma filter_twice {A} (f : A -> bool) ls : filter f (filter f ls) = filter f ls.
Proof.
  induction ls as [|x ls IH]; simpl; [reflexivity|].
  destruct (f x) eqn:E; simpl; rewrite ?E, IH; reflexivity.
Qed.

Lemma filter_addLayer (p : Layer -> bool) l m :
  p l = false -> filter p (m_layers (addLayer l m)) = filter p (m_layers m).
Proof.
  intros Hp. unfold addLayer. destruct (hasLayer l (m_layers m)); [reflexivity|].
  simpl. rewrite filter_app. simpl. rewrite Hp. apply app_nil_r.
Qed.

Lemma filter_removeLayer (p : Layer -> bool) l m :
  filter p (m_layers (removeLayer l m))
  = filter (fun x => negb (same_oid l x)) (filter p (m_layers m)).
Proof.
  unfold removeLayer. simpl. generalize (m_layers m) as ls.
  induction ls as [|x ls IH]; simpl; [reflexivity|].
  destruct (same_oid l x) eqn:E, (p x) eqn:F; simpl; rewrite ?E, ?F, IH; reflexivity.
Qed.

Lemma In_filter_removeLayer (p : Layer -> bool) b m l :
  In l (filter p (m_layers (removeLayer b m))) -> In l (filter p (m_layers m)).
Proof.
  rewrite filter_removeLayer. intros H. apply filter_In in H. apply H.
Qed.

Lemma filter_addLayer_new (p : Layer -> bool) l m :
  filter p (m_layers m) = [] ->
  forall x, In x (filter p (m_layers (addLayer l m))) -> x = l.
Proof.
  intros H x. unfold addLayer. destruct (hasLayer l (m_layers m)).
  - rewrite H. intros [].
  - simpl. rewrite filter_app, H. simpl. destruct (p l); simpl; intuition.
Qed.

Lemma filter_addLayer_length (p : Layer -> bool) l m :
  filter p (m_layers m) = [] ->
  List.length (filter p (m_layers (addLayer l m))) <= 1.
Proof.
  intros H. unfold addLayer. destruct (hasLayer l (m_layers m)).
  - rewrite H. simpl. lia.
  - simpl. rewrite filter_app, H. simpl. destruct (p l); simpl; lia.
Qed.

Lemma same_oid_refl l : same_oid l l = true.
Proof. apply Nat.eqb_refl. Qed.

Lemma hasLayer_fresh l ls :
  Forall (fun x => l_oid x < l_oid l) ls -> hasLayer l ls = false.
Proof.
  intros H. unfold hasLayer. induction H as [|x ls Hx _ IH]; simpl; [reflexivity|].
  rewrite IH, orb_false_r. unfold same_oid. apply Nat.eqb_neq. lia.
Qed.

Lemma remove_fresh l ls :
  Forall (fun x => l_oid x < l_oid l) ls ->
  filter (fun x => negb (same_oid l x)) ls = ls.
Proof.
  intros H. induction H as [|x ls Hx _ IH]; simpl; [reflexivity|].
  rewrite IH. unfold same_oid.
  destruct (Nat.eqb_spec (l_oid l) (l_oid x)); [lia | reflexivity].
Qed.

Lemma Forall_removed (P : Layer -> Prop) cur m :
  Forall P (m_layers m) -> Forall P (m_layers (removed cur m)).
Proof.
  intros H. destruct cur as [l|]; simpl; [|exact H].
  apply Forall_forall. intros x Hx. apply filter_In in Hx.
  now apply (proj1 (Forall_forall _ _) H).
Qed.

Lemma addLayer_fresh l m :
  Forall (fun x => l_oid x < l_oid l) (m_layers m) ->
  m_layers (addLayer l m) = (m_layers m ++ [l])%list.
Proof.
  intros F. unfold addLayer. now rewrite (hasLayer_fresh _ _ F).
Qed.

Lemma Forall_removeLayer (P : Layer -> Prop) l m :
  Forall P (m_layers m) -> Forall P (m_layers (removeLayer l m)).
Proof. apply (Forall_removed P (Some l)). Qed.

(** Replacing the marker constructed last by one constructed next. *)
Lemma replace_last_marker src n m :
  Forall (fun x => l_oid x < n) (m_layers m) ->
  m_layers (addLayer (mkLayer (S n) src)
              (removeLayer (mkLayer n src) (addLayer (mkLayer n src) m)))
  = (m_layers m ++ [mkLayer (S n) src])%list.
Proof.
  intros F.
  assert (E : m_layers (removeLayer (mkLayer n src) (addLayer (mkLayer n src) m))
              = m_layers m).
  { unfold removeLayer. cbn [m_layers set_layers].
    rewrite (addLayer_fresh (mkLayer n src) m F), filter_app.
    rewrite (remove_fresh (mkLayer n src) _ F). simpl.
    unfold same_oid. simpl. rewrite Nat.eqb_refl. simpl. apply app_nil_r. }
  rewrite addLayer_fresh; rewrite E; [reflexivity|].
  eapply Forall_impl; [|exact F]. simpl. intros; lia.
Qed.

Lemma marker_sources_last ls l l' :
  l_src l = l_src l' -> is_marker l = true ->
  List.map l_src (filter is_marker (ls ++ [l]))
  = List.map l_src (filter is_marker (ls ++ [l'])).
Proof.
  intros E M. rewrite !filter_app, !map_app. f_equal. simpl.
  assert (M' : is_marker l' = true) by (unfold is_marker in *; now rewrite <- E).
  rewrite M, M'. simpl. now rewrite E.
Qed.

(** Removing the tracked layer leaves none of its kind attached. *)
Lemma removed_tracked (p : Layer -> bool) (cur : option Layer) m :
  (forall l, In l (filter p (m_layers m)) ->
     exists b, cur = Some b /\ same_oid b l = true) ->
  filter p (m_layers (removed cur m)) = [].
Proof.
  intros H. destruct cur as [b|]; unfold removed.
  - rewrite filter_removeLayer. apply filter_all_false. intros x Hx.
    destruct (H x Hx) as (b' & Hb & Hs). injection Hb as <-. now rewrite Hs.
  - destruct (filter p (m_layers m)) as [|x ls] eqn:E; [reflexivity|].
    destruct (H x (or_introl eq_refl)) as (b & Hb & _). discriminate.
Qed.

(** *** Airport markers and the zoom bands *)

Lemma zoom_filter_band_rule :
  forall zoom a, zoom_filter zoom a = true <-> band_rule zoom a.
Proof.
  intros zoom a. unfold zoom_filter, band_rule.
  destruct (Z.ltb_spec zoom 5); [|destruct (Z.leb_spec zoom 8)].
  - rewrite Z.eqb_eq. lia.
  - rewrite Z.leb_le. lia.
  - split; [lia | reflexivity].
Qed.

Lemma number_layers_src :
  forall l n, List.map l_src (number_layers n l)
              = List.map (fun a => MarkerLayer (airport_marker a)) l.
Proof.
  induction l as [|a l IH]; intros n; simpl; [reflexivity|].
  now rewrite IH.
Qed.

Lemma number_layers_oid :
  forall l n, Forall (fun x => n <= l_oid x) (number_layers n l).
Proof.
  induction l as [|a l IH]; intros n; simpl; constructor.
  - simpl. lia.
  - eapply Forall_impl; [|apply (IH (S n))]. simpl. intros; lia.
Qed.

Lemma forEach_new_markers :
  forall (l : list Airport) (s : State Panel),
    forEach l (fun a =>
      bind (new_layer (MarkerLayer (airport_marker a)))
           (fun marker => airportMarkers_addLayer marker)) s
    = (Ok tt,
       set_next_oid (next_oid s + List.length l)
         (set_airportMarkers
            (mkGroup (g_oid (airportMarkers s))
               (g_layers (airportMarkers s) ++ number_layers (next_oid s) l)) s)).
Proof.
  induction l as [|a l IH]; intros s.
  - destruct s as [? ? ? [gid gl] ? ? ? ? ? ? ? ? ? ? ? n]. simpl.
    unfold ret, set_next_oid, set_airportMarkers. simpl.
    now rewrite app_nil_r, Nat.add_0_r.
  - simpl. unfold bind at 1. unfold bind at 1. simpl.
    unfold airportMarkers_addLayer, modify. rewrite IH.
    destruct s as [? ? ? [gid gl] ? ? ? ? ? ? ? ? ? ? ? n]. simpl.
    unfold set_next_oid, set_airportMarkers. simpl.
    now rewrite <- app_assoc, Nat.add_succ_r.
Qed.

(** What addAirportMarkers does once the map exists: the group holds the
    markers of the filtered airports, numbered from the next identity, and
    is attached to the map. *)
Lemma addAirportMarkers_run airports (s : State Panel) m :
  map s = Some m ->
  exists s',
    addAirportMarkers airports s = (Ok tt, s') /\
    g_layers (airportMarkers s')
    = number_layers (next_oid s) (filter (zoom_filter (m_zoom m)) airports) /\
    g_oid (airportMarkers s') = g_oid (airportMarkers s) /\
    map s' = Some (addLayer (group_layer (airportMarkers s)) m).
Proof.
  intros Hm.
  unfold addAirportMarkers, clear_and_getZoom, clearLayers.
  unfold bind at 1. unfold bind at 1. unfold modify at 1.
  unfold with_map at 1. simpl. rewrite Hm.
  unfold bind at 1. rewrite forEach_new_markers. simpl.
  unfold airportMarkers_addTo_map, addTo_map, update_map, with_map, bind, get, modify.
  simpl. rewrite Hm.
  eexists. split; [reflexivity|]. simpl. repeat split; reflexivity.
Qed.

(** C1: with the map initialised, addAirportMarkers returns normally and the
    markers of the airportMarkers group are then those of the airports the
    zoom filter keeps, in order; the airports kept are exactly those of the
    list that satisfy the three-band rule at the current zoom; every marker
    of the group is an object constructed by this call, so none attached
    before remains; and the group is attached to the map. *)
Theorem addAirportMarkers_band_rule :
  forall (airports : list Airport) (s : State Panel) (m : LMap),
    map s = Some m ->
    exists s',
      addAirportMarkers airports s = (Ok tt, s') /\
      let shown := filter (zoom_filter (m_zoom m)) airports in
      List.map l_src (g_layers (airportMarkers s'))
        = List.map (fun a => MarkerLayer (airport_marker a)) shown /\
      (forall a, In a shown <-> In a airports /\ band_rule (m_zoom m) a) /\
      Forall (fun x => next_oid s <= l_oid x) (g_layers (airportMarkers s')) /\
      (exists m', map s' = Some m' /\
                  hasLayer (group_layer (airportMarkers s')) (m_layers m') = true).
Proof.
  intros airports s m Hm.
  destruct (addAirportMarkers_run airports s m Hm) as (s' & E & Hg & Hid & Hm').
  exists s'. split; [exact E|]. cbv zeta. rewrite Hg.
  split; [apply number_layers_src|].
  split.
  { intros a. rewrite filter_In, zoom_filter_band_rule. reflexivity. }
  split; [apply number_layers_oid|].
  eexists. split; [exact Hm'|].
  unfold addLayer, group_layer. rewrite Hid.
  destruct (hasLayer _ (m_layers m)) eqn:H; [exact H|].
  simpl. unfold hasLayer. rewrite existsb_app. simpl.
  unfold same_oid. simpl. rewrite Nat.eqb_refl. now rewrite orb_true_r.
Qed.

(** *** One base layer, one overlay *)

Lemma preserves_modify_dom v (f : DOM -> DOM) :
  preserves (fun s => layer_view s = v) (modify_dom f).
Proof. apply preserves_modify. intros s H. exact H. Qed.

Lemma preserves_updateStatus v msg type :
  preserves (fun s => layer_view s = v) (updateStatus msg type).
Proof.
  unfold updateStatus.
  apply preserves_bind; [apply preserves_modify_dom | intros _].
  destruct (String.eqb type "success");
    [|destruct (String.eqb type "error")];
    repeat first [apply preserves_ret | apply preserves_modify_dom
                 | apply preserves_bind; [|intros _]].
Qed.

Lemma preserves_addTo_map v l :
  is_base l = false -> is_overlay l = false ->
  preserves (fun s => layer_view s = v) (addTo_map l).
Proof.
  intros Hb Ho s H. unfold addTo_map, update_map, with_map, bind, modify.
  destruct (map s) as [m|] eqn:E; simpl; [|exact H].
  rewrite <- H. unfold layer_view, base_layers, overlay_layers, attached.
  simpl. rewrite E. now rewrite !filter_addLayer.
Qed.

Lemma preserves_addAirportMarkers v airports :
  preserves (fun s => layer_view s = v) (addAirportMarkers airports).
Proof.
  unfold addAirportMarkers, clear_and_getZoom, clearLayers.
  apply preserves_bind.
  - apply preserves_bind;
      [apply preserves_modify; intros s H; exact H
      | intros _; apply preserves_with_map].
  - intros zoom. apply preserves_bind.
    + apply preserves_forEach. intros a. apply preserves_bind.
      * intros s H. exact H.
      * intros mk. apply preserves_modify. intros s H. exact H.
    + intros _. unfold airportMarkers_addTo_map.
      apply preserves_bind; [apply preserves_get|].
      intros g. apply preserves_addTo_map; reflexivity.
Qed.

Lemma preserves_recompute_and_report v sel :
  preserves (fun s => layer_view s = v) (recompute_and_report sel).
Proof.
  unfold recompute_and_report. apply preserves_bind.
  - intros s H. unfold lookup_airports. destruct (global_airports s); exact H.
  - intros airports. apply preserves_bind;
      [apply preserves_addAirportMarkers | intros _; apply preserves_updateStatus].
Qed.

Lemma preserves_update_map_view v meth (f : LMap -> LMap) :
  (forall m, m_layers (f m) = m_layers m) ->
  preserves (fun s => layer_view s = v) (update_map meth f).
Proof.
  intros Hf s H. unfold update_map, with_map, bind, modify.
  destruct (map s) as [m|] eqn:E; simpl; [|exact H].
  rewrite <- H. unfold layer_view, base_layers, overlay_layers, attached.
  simpl. now rewrite E, Hf.
Qed.

Lemma preserves_fetch_view {A} v meth u (r : Reply A) :
  preserves (fun s => layer_view s = v) (fetch meth u r).
Proof.
  unfold fetch. apply preserves_bind.
  - apply preserves_modify. intros s H. exact H.
  - intros _. destruct r; first [apply preserves_throw | apply preserves_ret].
Qed.

Lemma tracked_view s t : layer_view s = layer_view t -> tracked s -> tracked t.
Proof.
  unfold layer_view, tracked. intros H. injection H as Hb Ho Hcb Hco.
  now rewrite Hb, Ho, Hcb, Hco.
Qed.

Lemma tracked_cleared s :
  base_layers s = [] -> overlay_layers s = [] -> tracked s.
Proof.
  intros Hb Ho. unfold tracked. rewrite Hb, Ho. simpl.
  repeat split; try lia; intros l [].
Qed.

Lemma tracked_no_map s : map s = None -> tracked s.
Proof.
  intros E. apply tracked_cleared; unfold base_layers, overlay_layers, attached;
    rewrite E; reflexivity.
Qed.

Lemma attach_base_tracked src k s :
  base_layers s = [] -> overlay_layers s = [] ->
  (forall n, is_overlay (mkLayer n src) = false) ->
  (forall s', tracked s' -> overlay_layers s' = [] -> tracked (snd (k s'))) ->
  tracked (snd (attach_base src k s)).
Proof.
  intros Hb Ho Hsrc Hk. unfold attach_base, bind, new_layer, addTo_map, update_map,
    with_map, modify, bind.
  simpl. destruct (map s) as [m|] eqn:E; simpl.
  - unfold base_layers, overlay_layers, attached in Hb, Ho. rewrite E in Hb, Ho.
    assert (Ho' : overlay_layers
              (set_currentBaseLayer (Some (mkLayer (next_oid s) src))
                 (set_map (Some (addLayer (mkLayer (next_oid s) src) m))
                    (set_next_oid (S (next_oid s)) s))) = []).
    { unfold overlay_layers, attached. simpl.
      rewrite filter_addLayer; [exact Ho | apply Hsrc]. }
    apply Hk; [|exact Ho'].
    unfold tracked. rewrite Ho'. unfold base_layers, attached. simpl.
    split; [|split; [|split]].
    + intros l Hl. apply filter_addLayer_new in Hl; [|exact Hb]. subst l.
      eexists. split; [reflexivity | apply same_oid_refl].
    + intros l [].
    + now apply filter_addLayer_length.
    + lia.
  - apply tracked_cleared; unfold base_layers, overlay_layers, attached in *;
      simpl; rewrite E in *; reflexivity.
Qed.

Lemma attach_overlay_tracked src k s :
  tracked s -> overlay_layers s = [] ->
  (forall n, is_base (mkLayer n src) = false) ->
  (forall v, preserves (fun s => layer_view s = v) k) ->
  tracked (snd (attach_overlay src k s)).
Proof.
  intros T Ho Hsrc Hk. unfold attach_overlay, bind, new_layer, addTo_map, update_map,
    with_map, modify, bind.
  simpl. destruct (map s) as [m|] eqn:E; simpl.
  - match goal with |- tracked (snd (k ?t)) =>
      apply (tracked_view t); [symmetry; now apply Hk|] end.
    destruct T as (Tb & _ & Lb & _).
    unfold base_layers, overlay_layers, attached in *. rewrite E in *.
    unfold tracked, base_layers, overlay_layers, attached. simpl.
    rewrite (filter_addLayer is_base) by apply Hsrc.
    split; [|split; [|split]].
    + exact Tb.
    + intros l Hl. apply filter_addLayer_new in Hl; [|exact Ho]. subst l.
      eexists. split; [reflexivity | apply same_oid_refl].
    + exact Lb.
    + now apply filter_addLayer_length.
  - eapply tracked_view; [|exact T].
    unfold layer_view, base_layers, overlay_layers, attached. simpl. reflexivity.
Qed.

Lemma recompute_tracked sel s :
  tracked s -> tracked (snd (recompute_and_report sel s)).
Proof.
  intros T. apply (tracked_view s); [|exact T].
  symmetry. now apply preserves_recompute_and_report.
Qed.

Lemma remove_if_set_run cur (s : State Panel) m :
  map s = Some m ->
  exists s', remove_if_set cur s = (Ok tt, s') /\
             map s' = Some (removed cur m) /\
             currentBaseLayer s' = currentBaseLayer s /\
             currentOverlayLayer s' = currentOverlayLayer s /\
             dom s' = dom s /\
             global_airports s' = global_airports s.
Proof.
  intros E. destruct cur as [l|]; simpl.
  - unfold map_removeLayer, update_map, with_map, bind, modify. rewrite E.
    eexists. split; [reflexivity|]. simpl. repeat split; reflexivity.
  - exists s. unfold ret. repeat split; try reflexivity. exact E.
Qed.

Lemma remove_if_set_no_map cur (s : State Panel) :
  map s = None -> map (snd (remove_if_set cur s)) = None.
Proof.
  intros E. destruct cur as [l|]; simpl; [|exact E].
  unfold map_removeLayer, update_map, with_map, bind. rewrite E. exact E.
Qed.

Lemma changeMapLayer_unfold (s : State Panel) :
  changeMapLayer s =
  bind (remove_if_set (currentBaseLayer s)) (fun _ =>
  bind (get currentOverlayLayer) (fun o =>
  bind (remove_if_set o) (fun _ =>
  bind (modify (set_currentOverlayLayer None)) (fun _ =>
  attach_selected (mapLayer_value (dom s)))))) s.
Proof.
  unfold changeMapLayer, attach_selected, attach_base, attach_overlay.
  rewrite bind_get, bind_get.
  destruct (String.eqb _ "darkHybrid"); [reflexivity|].
  destruct (String.eqb _ "tomtom"); reflexivity.
Qed.

Lemma attach_selected_tracked sel s :
  base_layers s = [] -> overlay_layers s = [] ->
  tracked (snd (attach_selected sel s)).
Proof.
  intros Hb Ho. unfold attach_selected.
  destruct (String.eqb sel "darkHybrid"); [|destruct (String.eqb sel "tomtom")].
  - apply attach_base_tracked; try assumption; [reflexivity|].
    intros s' T' Ho'. apply attach_overlay_tracked; try assumption; [reflexivity|].
    intros v. apply preserves_recompute_and_report.
  - apply attach_base_tracked; try assumption; [reflexivity|].
    intros s' T' _. now apply recompute_tracked.
  - apply attach_base_tracked; try assumption; [reflexivity|].
    intros s' T' _. now apply recompute_tracked.
Qed.

Lemma no_map_update_map meth f : preserves no_map (update_map meth f).
Proof.
  intros s H. unfold update_map, with_map, bind. rewrite H. exact H.
Qed.

Ltac keeps_no_map :=
  repeat first
    [ apply preserves_ret | apply preserves_throw | apply preserves_get
    | apply preserves_with_map | apply no_map_update_map
    | apply preserves_modify; intros ? H; exact H
    | apply preserves_forEach; intros ?
    | apply preserves_bind; [|intros ?] ].

Lemma no_map_updateStatus msg type : preserves no_map (updateStatus msg type).
Proof.
  unfold updateStatus, modify_dom.
  destruct (String.eqb type "success"); [|destruct (String.eqb type "error")];
    keeps_no_map.
Qed.

Lemma no_map_addAirportMarkers airports :
  preserves no_map (addAirportMarkers airports).
Proof.
  unfold addAirportMarkers, clear_and_getZoom, clearLayers,
    airportMarkers_addLayer, airportMarkers_addTo_map, addTo_map.
  keeps_no_map.
Qed.

Lemma no_map_recompute sel : preserves no_map (recompute_and_report sel).
Proof.
  unfold recompute_and_report. apply preserves_bind.
  - intros s H. unfold lookup_airports. destruct (global_airports s); exact H.
  - intros a. apply preserves_bind;
      [apply no_map_addAirportMarkers | intros _; apply no_map_updateStatus].
Qed.

Lemma no_map_changeMapLayer : preserves no_map changeMapLayer.
Proof.
  unfold changeMapLayer.
  apply preserves_bind; [apply preserves_get | intros sel].
  apply preserves_bind; [apply preserves_get | intros b].
  apply preserves_bind; [intros s H; now apply remove_if_set_no_map | intros _].
  apply preserves_bind; [apply preserves_get | intros o].
  apply preserves_bind; [intros s H; now apply remove_if_set_no_map | intros _].
  apply preserves_bind; [apply preserves_modify; intros s H; exact H | intros _].
  destruct (String.eqb sel "darkHybrid"); [|destruct (String.eqb sel "tomtom")];
    unfold addTo_map;
    repeat first
      [ apply no_map_recompute | apply no_map_update_map
      | apply preserves_modify; intros ? H; exact H
      | apply preserves_bind; [|intros ?]
      | (intros s H; exact H) ].
Qed.

Lemma changeMapLayer_tracked s : tracked s -> tracked (snd (changeMapLayer s)).
Proof.
  intros T. rewrite changeMapLayer_unfold.
  destruct (map s) as [m|] eqn:E.
  - destruct T as (Tb & To & _ & _).
    unfold base_layers, overlay_layers, attached in Tb, To. rewrite E in Tb, To.
    destruct (remove_if_set_run (currentBaseLayer s) s m E)
      as (s1 & R1 & M1 & _ & O1 & _).
    rewrite (bind_ok _ _ _ _ _ R1), bind_get.
    destruct (remove_if_set_run (currentOverlayLayer s1) s1 _ M1)
      as (s2 & R2 & M2 & _ & _ & _).
    rewrite (bind_ok _ _ _ _ _ R2), bind_modify.
    apply attach_selected_tracked;
      unfold base_layers, overlay_layers, attached; simpl; rewrite M2.
    + unfold removed at 1. destruct (currentOverlayLayer s1);
        [rewrite filter_removeLayer|];
        rewrite (removed_tracked is_base (currentBaseLayer s) m Tb); reflexivity.
    + rewrite O1. apply removed_tracked. intros l Hl. apply To.
      unfold removed in Hl. destruct (currentBaseLayer s); [|exact Hl].
      now apply In_filter_removeLayer in Hl.
  - rewrite <- changeMapLayer_unfold. apply tracked_no_map.
    now apply no_map_changeMapLayer.
Qed.

Lemma initMap_tracked r (s : State Panel) : tracked (snd (initMap r s)).
Proof.
  unfold initMap. rewrite bind_modify.
  unfold update_map at 1. unfold with_map at 1. unfold bind at 1. unfold bind at 1.
  cbn [map set_map]. unfold modify at 1.
  apply (attach_base_tracked (MaplibreGL tomtom_style tomtom_attribution)).
  - reflexivity.
  - reflexivity.
  - reflexivity.
  - intros s' T _. match goal with |- tracked (snd (?k s')) =>
      apply (tracked_view s'); [symmetry|exact T];
      assert (P : preserves (fun x => layer_view x = layer_view s') k);
      [|now apply P] end.
    apply preserves_bind;
      [apply preserves_update_map_view; reflexivity | intros _].
    apply preserves_bind.
    { unfold airportMarkers_addTo_map.
      apply preserves_bind; [apply preserves_get | intros g].
      apply preserves_addTo_map; reflexivity. }
    intros _. apply preserves_bind; [|intros _; apply preserves_updateStatus].
    apply preserves_try_catch; [|intros e; apply preserves_updateStatus].
    apply preserves_bind; [apply preserves_fetch_view | intros [l|]].
    + apply preserves_bind; [apply preserves_addAirportMarkers | intros _].
      apply preserves_update_map_view. reflexivity.
    + unfold addAirportMarkers_null, clear_and_getZoom, clearLayers.
      apply preserves_bind; [|intros ?; apply preserves_throw].
      apply preserves_bind; [|intros ?; apply preserves_with_map].
      apply preserves_modify. intros x H. exact H.
Qed.

Lemma fold_change_tracked sels :
  forall s, tracked s -> tracked (fold_left change_layer_to sels s).
Proof.
  induction sels as [|sel sels IH]; intros s T; simpl; [exact T|].
  apply IH. unfold change_layer_to. apply changeMapLayer_tracked.
  apply (tracked_view s); [reflexivity | exact T].
Qed.

(** C3: after initMap, from any state and whatever airports.json returned,
    and any finite sequence of layer selections each followed by
    changeMapLayer, the map has at most one base layer and at most one
    overlay layer attached. *)
Theorem at_most_one_base_and_overlay :
  forall (s0 : State Panel) (r : Reply (list Airport)) (selections : list string),
    let s := fold_left change_layer_to selections (snd (initMap r s0)) in
    List.length (base_layers s) <= 1 /\ List.length (overlay_layers s) <= 1.
Proof.
  intros s0 r selections s.
  assert (T : tracked s) by (apply fold_change_tracked, initMap_tracked).
  destruct T as (_ & _ & Hb & Ho). split; assumption.
Qed.

(** *** changeMapLayer and the identifier airports *)

(** With the map initialised and no global named [airports], changeMapLayer
    ends by a ReferenceError, whatever the selection. *)
Lemma changeMapLayer_without_airports (s : State Panel) m :
  map s = Some m ->
  global_airports s = None ->
  fst (changeMapLayer s) = Throw (ReferenceError "airports").
Proof.
  destruct s as [mp cb co am ga sock auto sim adt amk pnl io d con req oid].
  cbn [map global_airports]. intros -> ->.
  unfold changeMapLayer. rewrite bind_get. cbn [dom].
  destruct (String.eqb (mapLayer_value d) "darkHybrid");
    [|destruct (String.eqb (mapLayer_value d) "tomtom")];
    destruct cb, co; reflexivity.
Qed.

Lemma markers_then_status_ok l msg type (t : State Panel) mt :
  map t = Some mt ->
  fst (bind (addAirportMarkers l) (fun _ => updateStatus msg type) t) = Ok tt.
Proof.
  intros Ht. destruct (addAirportMarkers_run l t mt Ht) as (t' & E & _).
  unfold bind. rewrite E. apply updateStatus_total.
Qed.

Lemma attach_selected_ok sel (t : State Panel) mt l :
  map t = Some mt -> global_airports t = Some l ->
  fst (attach_selected sel t) = Ok tt.
Proof.
  destruct t as [mp cb co am ga sock auto sim adt amk pnl io d con req oid].
  cbn [map global_airports]. intros -> ->.
  unfold attach_selected, attach_base, attach_overlay, new_layer, addTo_map,
    update_map, with_map, bind, modify.
  destruct (String.eqb sel "darkHybrid"); [|destruct (String.eqb sel "tomtom")];
    cbn; eapply markers_then_status_ok; reflexivity.
Qed.

(** With a global [airports], it returns normally. *)
Lemma changeMapLayer_with_airports (s : State Panel) m l :
  map s = Some m ->
  global_airports s = Some l ->
  fst (changeMapLayer s) = Ok tt.
Proof.
  intros Hm Hg. rewrite changeMapLayer_unfold.
  destruct (remove_if_set_run (currentBaseLayer s) s m Hm)
    as (s1 & R1 & M1 & _ & _ & _ & G1).
  rewrite (bind_ok _ _ _ _ _ R1), bind_get.
  destruct (remove_if_set_run (currentOverlayLayer s1) s1 _ M1)
    as (s2 & R2 & M2 & _ & _ & _ & G2).
  rewrite (bind_ok _ _ _ _ _ R2), bind_modify.
  eapply attach_selected_ok with (l := l); cbn; [exact M2 | congruence].
Qed.

(** *** The live link *)

(** C2, as amended: disconnectSimConnect returns normally; when the request
    is answered with a body that parses, the state is disconnected
    (isSimConnectConnected false, disconnect button disabled, connect button
    enabled); when the request or the parsing of its body fails, the
    connection flag and both buttons stay as they were and the status shows
    a failure. *)
Theorem disconnect_outcome :
  forall (s : State Panel) (r : Reply ApiResult),
    let s' := snd (disconnectSimConnect r s) in
    fst (disconnectSimConnect r s) = Ok tt /\
    match r with
    | FetchRejects _ | JsonRejects _ =>
        isSimConnectConnected s' = isSimConnectConnected s /\
        disconnect_btn_disabled (dom s') = disconnect_btn_disabled (dom s) /\
        connect_btn_disabled (dom s') = connect_btn_disabled (dom s) /\
        status_text_textContent (dom s') = "Failed"
    | BodyNull | Body _ =>
        isSimConnectConnected s' = false /\
        disconnect_btn_disabled (dom s') = true /\
        connect_btn_disabled (dom s') = false
    end.
Proof.
  intros s r. destruct r; cbn; repeat split; reflexivity.
Qed.

(** C4, as amended: while the socket is connected, a tick of the enhanced
    fallback poller issues no request and changes nothing. *)
Theorem enhanced_poll_silent_when_socket_connected :
  forall (s : State Panel) k r1 r2,
    socket s = Some k -> connected k = true ->
    fetchAircraftDataEnhanced showAircraftInfo r1 r2 s = (Ok tt, s).
Proof.
  intros s k r1 r2 Hs Hc.
  unfold fetchAircraftDataEnhanced, bind, get, socket_is_connected.
  rewrite Hs, Hc. reflexivity.
Qed.

(** C10: while isSimConnectConnected is false, fetchAircraftDataEnhanced
    returns without a request and leaves the whole state as it was. *)
Theorem enhanced_poll_noop_when_sim_disconnected :
  forall (s : State Panel) r1 r2,
    isSimConnectConnected s = false ->
    fetchAircraftDataEnhanced showAircraftInfo r1 r2 s = (Ok tt, s).
Proof.
  intros s r1 r2 H.
  unfold fetchAircraftDataEnhanced, bind, get.
  destruct (socket_is_connected s); [reflexivity|].
  rewrite H. reflexivity.
Qed.

(** C5: while auto-update is off, an aircraft_position_update event changes
    nothing at all: the fields, aircraftData, the marker and the connection
    state are those of before. *)
Theorem position_update_ignored_when_auto_update_off :
  forall (s : State Panel) (data : option PositionData),
    autoUpdateEnabled s = false ->
    socket_on showAircraftInfo (ev_aircraft_position_update data) s = (Ok tt, s).
Proof.
  intros s data Hoff.
  unfold socket_on, bind, get. rewrite Hoff. reflexivity.
Qed.

(** *** A position update *)

(** C7: for the payload latitude 47.6, longitude -122.3, altitude 1000,
    heading 90, with auto-update on, the map and aircraftData defined and the
    altitude field on the page, handleRealtimePositionUpdate leaves 1000 in
    the altitude field and an aircraft marker whose icon is rotated by 0
    degrees. *)
Theorem example_update_altitude_and_rotation :
  forall (s : State Panel) (m : LMap) (ad : AircraftData) (shown : string),
    autoUpdateEnabled s = true ->
    map s = Some m ->
    aircraftData s = Some ad ->
    altitude_field (dom s) = Some shown ->
    let s' := snd (handleRealtimePositionUpdate showAircraftInfo example_position s) in
    altitude_field (dom s') = Some "1000" /\
    exists marker,
      aircraftMarker s' = Some marker /\
      marker_rotation marker = Some (Num 0) /\
      l_src marker
      = MarkerLayer (mkMarker ((476 # 10)%Q, (- (1223 # 10))%Q)
                       (aircraft_icon (Some 90%Q)) None).
Proof.
  intros s m ad shown Hauto Hmap Had Halt s'. subst s'.
  destruct s as [mp cb co am ga sock auto sim adt amk pnl io d con req oid].
  destruct d as [d1 d2 d3 d4 d5 d6 d7 d8 d9 d10 flat flng falt fhdg].
  cbn in Hauto, Hmap, Had, Halt. subst auto mp adt falt.
  destruct flat, flng, fhdg, amk; vm_compute;
  match goal with
  | |- context [showAircraftInfo ?a ?p] =>
      destruct (showAircraftInfo a p) as [[?|] ?]
  end;
  (split; [reflexivity|]; eexists; split; [reflexivity|]; split; reflexivity).
Qed.

Lemma handler_staged p s :
  handleRealtimePositionUpdate showAircraftInfo p s =
  if negb (autoUpdateEnabled s) then (Ok tt, s)
  else
    bind (log_update p) (fun _ =>
      try_catch
        (bind (fill_and_store p) (fun _ =>
         bind (move_marker p) (fun _ => show_and_report p)))
        report_failure) s.
Proof.
  unfold handleRealtimePositionUpdate. rewrite bind_get.
  destruct (autoUpdateEnabled s); [|reflexivity]. cbn [negb].
  unfold log_update, console_write. rewrite !bind_modify.
  unfold try_catch, fill_and_store, bind.
  repeat match goal with
  | |- context [set_field ?f ?g ?v ?s] =>
      destruct (set_field f g v s) as [[[]|?] ?]; try reflexivity
  end.
Qed.

Ltac frame :=
  repeat first
    [ apply preserves_ret | apply preserves_throw | apply preserves_get
    | apply preserves_with_map | apply preserves_when
    | apply preserves_modify; intros ? H; exact H
    | apply preserves_try_catch; [|intros ?]
    | apply preserves_bind; [|intros ?]
    | match goal with
      | |- preserves _ (match ?x with _ => _ end) => destruct x
      end ].

Lemma core_updateStatus v msg type :
  preserves (fun s : State Panel => core s = v) (updateStatus msg type).
Proof. unfold updateStatus, modify_dom. frame. Qed.

Lemma core_log_update v p : preserves (fun s : State Panel => core s = v) (log_update p).
Proof. unfold log_update, console_write. frame. Qed.

Lemma core_report_failure v e :
  preserves (fun s : State Panel => core s = v) (report_failure e).
Proof.
  unfold report_failure, console_write.
  apply preserves_bind; [frame | intros _; apply core_updateStatus].
Qed.

Lemma core_show_and_report v p :
  preserves (fun s : State Panel => core s = v) (show_and_report p).
Proof.
  unfold show_and_report. apply preserves_bind.
  - intros s H. unfold call_showAircraftInfo.
    destruct (aircraftData s); [|exact H].
    destruct (showAircraftInfo _ _) as [[e|] q]; exact H.
  - intros _. unfold call_toFixed.
    apply preserves_bind; [frame | intros la].
    apply preserves_bind; [frame | intros lo].
    apply core_updateStatus.
Qed.

Lemma fill_and_store_frame v p :
  preserves (fun s : State Panel => (autoUpdateEnabled s, marker_state s) = v)
    (fill_and_store p).
Proof.
  unfold fill_and_store, set_field, call_toFixed, modify_dom. frame.
  intros s H. unfold store_aircraftData. destruct (aircraftData s); exact H.
Qed.

Lemma move_marker_frame v p :
  preserves (fun s : State Panel => (autoUpdateEnabled s, stored s) = v)
    (move_marker p).
Proof.
  unfold move_marker, updateAircraftMarkerPosition, map_removeLayer, addTo_map,
    update_map, toLatLng, console_write.
  frame; intros s H; exact H.
Qed.

Lemma move_marker_total p (s : State Panel) : fst (move_marker p s) = Ok tt.
Proof.
  unfold move_marker, updateAircraftMarkerPosition, try_catch.
  match goal with |- fst (let (_, _) := ?c in _) = _ => destruct c as [[[]|e] s'] end;
    reflexivity.
Qed.

Lemma fill_and_store_determined p (s t : State Panel) :
  stored s = stored t ->
  fst (fill_and_store p s) = fst (fill_and_store p t) /\
  stored (snd (fill_and_store p s)) = stored (snd (fill_and_store p t)).
Proof.
  destruct s as [mp cb co am ga sock auto sim adt amk pnl io d con req oid].
  destruct d as [d1 d2 d3 d4 d5 d6 d7 d8 d9 d10 flat flng falt fhdg].
  destruct t as [mp' cb' co' am' ga' sock' auto' sim' adt' amk' pnl' io' d' con' req' oid'].
  destruct d' as [e1 e2 e3 e4 e5 e6 e7 e8 e9 e10 flat' flng' falt' fhdg'].
  unfold stored at 1 2, form_fields. cbn. intros H. injection H as <- <- <- <- <-.
  destruct p as [la lo al hd gs ti at_]. 
  destruct flat, flng, falt, fhdg, la, lo, adt; split; reflexivity.
Qed.

Lemma fill_and_store_settles p (s : State Panel) :
  fst (fill_and_store p (snd (fill_and_store p s))) = fst (fill_and_store p s) /\
  stored (snd (fill_and_store p (snd (fill_and_store p s))))
  = stored (snd (fill_and_store p s)).
Proof.
  destruct s as [mp cb co am ga sock auto sim adt amk pnl io d con req oid].
  destruct d as [d1 d2 d3 d4 d5 d6 d7 d8 d9 d10 flat flng falt fhdg].
  destruct p as [la lo al hd gs ti at_]. 
  destruct flat, flng, falt, fhdg, la, lo, adt; split; reflexivity.
Qed.

Lemma fill_and_store_keeps p (s : State Panel) :
  autoUpdateEnabled (snd (fill_and_store p s)) = autoUpdateEnabled s /\
  marker_state (snd (fill_and_store p s)) = marker_state s.
Proof.
  pose proof (fill_and_store_frame _ p s eq_refl) as H. cbv beta in H.
  split; [exact (f_equal fst H) | exact (f_equal snd H)].
Qed.

Lemma move_marker_keeps p (s : State Panel) :
  autoUpdateEnabled (snd (move_marker p s)) = autoUpdateEnabled s /\
  stored (snd (move_marker p s)) = stored s.
Proof.
  pose proof (move_marker_frame _ p s eq_refl) as H. cbv beta in H.
  split; [exact (f_equal fst H) | exact (f_equal snd H)].
Qed.

Ltac run_marker :=
  cbv [move_marker updateAircraftMarkerPosition toLatLng console_write
       map_removeLayer addTo_map update_map with_map new_layer try_catch bind get
       modify ret throw].

Lemma move_marker_settles p (s t : State Panel) :
  fresh s ->
  marker_state t = marker_state (snd (move_marker p s)) ->
  marker_view (snd (move_marker p t)) = marker_view (snd (move_marker p s)).
Proof.
  destruct s as [mp cb co am ga sock auto sim adt amk pnl io d con req oid].
  destruct t as [mp' cb' co' am' ga' sock' auto' sim' adt' amk' pnl' io' d' con' req' oid'].
  destruct p as [la lo al hd gs ti at_].
  unfold fresh, attached, marker_state. cbn [map next_oid aircraftMarker].
  intros F.
  destruct mp as [m|].
  - destruct amk as [old|], la as [la|], lo as [lo|]; run_marker; cbn; 
    intros H; injection H as -> -> ->; cbn.
    all: unfold marker_view, markers_on_map, attached; cbn.
    all: try reflexivity.
    all: try (rewrite filter_twice; reflexivity).
    + rewrite replace_last_marker by now apply Forall_removeLayer.
      rewrite addLayer_fresh by now apply Forall_removeLayer.
      f_equal. now apply marker_sources_last.
    + rewrite replace_last_marker by exact F.
      rewrite addLayer_fresh by exact F.
      f_equal. now apply marker_sources_last.
  - destruct amk as [old|]; run_marker; cbn; intros H; injection H as -> -> ->;
      reflexivity.
Qed.

(** Freshness of the attached layers is kept by the marker update, hence by
    a position update. *)
Lemma move_marker_fresh p (s : State Panel) :
  fresh s -> fresh (snd (move_marker p s)).
Proof.
  destruct s as [mp cb co am ga sock auto sim adt amk pnl io d con req oid].
  destruct p as [la lo al hd gs ti at_].
  unfold fresh, attached. cbn [map next_oid]. intros F.
  destruct mp as [m|]; [|destruct amk; exact F].
  assert (G : forall l, Forall (fun x => l_oid x < oid) (m_layers (removeLayer l m)))
    by (intros l; now apply Forall_removeLayer).
  assert (W : forall (ls : list Layer),
             Forall (fun x => l_oid x < oid) ls ->
             Forall (fun x => l_oid x < S oid) ls)
    by (intros ls H; eapply Forall_impl; [|exact H]; cbn; intros; lia).
  destruct amk as [old|], la as [la|], lo as [lo|]; run_marker; cbn;
    try exact F; try apply G.
  - rewrite addLayer_fresh by apply G. apply Forall_app. split; [apply W, G|].
    repeat constructor.
  - rewrite addLayer_fresh by exact F. apply Forall_app. split; [now apply W|].
    repeat constructor.
Qed.

Lemma core_parts (s t : State Panel) :
  core s = core t ->
  autoUpdateEnabled s = autoUpdateEnabled t /\ stored s = stored t /\
  marker_state s = marker_state t.
Proof.
  intros H. split; [exact (f_equal (fun c => fst (fst c)) H)|].
  split; [exact (f_equal (fun c => snd (fst c)) H) | exact (f_equal snd H)].
Qed.

Lemma marker_view_state (s t : State Panel) :
  marker_state s = marker_state t -> marker_view s = marker_view t.
Proof.
  unfold marker_state, marker_view, markers_on_map, attached.
  intros H. injection H as H1 H2 _. now rewrite H1, H2.
Qed.

Lemma fresh_state (s t : State Panel) :
  marker_state s = marker_state t -> fresh s -> fresh t.
Proof.
  unfold marker_state, fresh, attached. intros H. injection H as _ H2 H3.
  now rewrite H2, H3.
Qed.

Lemma aircraft_view_parts (s t : State Panel) :
  stored s = stored t -> marker_view s = marker_view t ->
  aircraft_view s = aircraft_view t.
Proof.
  intros H1 H2.
  change (aircraft_view s)
    with (fst (stored s), snd (stored s), fst (marker_view s), snd (marker_view s)).
  rewrite H1, H2. reflexivity.
Qed.

Lemma aircraft_view_core (s t : State Panel) :
  core s = core t -> aircraft_view s = aircraft_view t.
Proof.
  intros H. destruct (core_parts _ _ H) as (_ & Hs & Hm).
  apply aircraft_view_parts; [exact Hs | now apply marker_view_state].
Qed.

(** What one update does to the core of the state, by stages. *)
Lemma handler_effect p (s : State Panel) :
  autoUpdateEnabled s = true ->
  exists s0 : State Panel,
    core s0 = core s /\
    core (snd (handleRealtimePositionUpdate showAircraftInfo p s))
    = match fst (fill_and_store p s0) with
      | Ok _ => core (snd (move_marker p (snd (fill_and_store p s0))))
      | Throw _ => core (snd (fill_and_store p s0))
      end.
Proof.
  intros Hauto. rewrite handler_staged, Hauto. cbn [negb].
  exists (snd (log_update p s)). split.
  { now apply (core_log_update (core s) p s). }
  unfold bind at 1. destruct (log_update p s) as [[[]|e0] s0] eqn:E0.
  2:{ unfold log_update, console_write, modify in E0. discriminate. }
  cbn [snd]. unfold try_catch. unfold bind at 1.
  destruct (fill_and_store p s0) as [[[]|e1] s1]; cbn [fst snd].
  - unfold bind at 1. pose proof (move_marker_total p s1) as Hu.
    destruct (move_marker p s1) as [[[]|e2] s2]; [|discriminate]. cbn [snd].
    pose proof (core_show_and_report (core s2) p s2 eq_refl) as Ht.
    destruct (show_and_report p s2) as [[[]|e3] s3]; cbn [snd] in *.
    + exact Ht.
    + rewrite <- Ht. now apply (core_report_failure (core s3) e3 s3).
  - now apply (core_report_failure (core s1) e1 s1).
Qed.

(** C8: a position update applied twice leaves the form fields, the stored
    aircraftData and the aircraft marker as one application leaves them. *)
Theorem position_update_idempotent :
  forall (s : State Panel) (p : PositionData),
    fresh s ->
    aircraft_view
      (snd (handleRealtimePositionUpdate showAircraftInfo p
              (snd (handleRealtimePositionUpdate showAircraftInfo p s))))
    = aircraft_view (snd (handleRealtimePositionUpdate showAircraftInfo p s)).
Proof.
  intros s p F.
  destruct (autoUpdateEnabled s) eqn:Ha.
  2:{ assert (E : handleRealtimePositionUpdate showAircraftInfo p s = (Ok tt, s))
        by (rewrite handler_staged, Ha; reflexivity).
      rewrite E. cbn [snd]. now rewrite E. }
  destruct (handler_effect p s Ha) as (s0 & C0 & Ht).
  set (t := snd (handleRealtimePositionUpdate showAircraftInfo p s)) in *.
  destruct (core_parts _ _ C0) as (A0 & _ & Mk0).
  destruct (fill_and_store_keeps p s0) as (A1 & Mk1).
  destruct (fill_and_store_settles p s0) as (R1 & St1).
  set (s1 := snd (fill_and_store p s0)) in *.
  assert (F1 : fresh s1).
  { apply (fresh_state s); [|exact F]. now rewrite Mk1, Mk0. }
  destruct (fst (fill_and_store p s0)) as [[]|e] eqn:E0.
  - (* the fields and aircraftData were written, the marker replaced *)
    destruct (move_marker_keeps p s1) as (A2 & St2).
    set (s2 := snd (move_marker p s1)) in *.
    destruct (core_parts _ _ Ht) as (At & Stt & Mkt).
    assert (Hat : autoUpdateEnabled t = true) by congruence.
    destruct (handler_effect p t Hat) as (t0 & Ct & Htt).
    destruct (core_parts _ _ Ct) as (_ & St0 & Mkt0).
    destruct (fill_and_store_determined p t0 s1) as (Rt & Stt1); [congruence|].
    destruct (fill_and_store_keeps p t0) as (_ & Mkt1).
    rewrite Rt, R1 in Htt.
    destruct (move_marker_keeps p (snd (fill_and_store p t0))) as (_ & Stt2).
    rewrite (aircraft_view_core _ _ Htt), (aircraft_view_core _ _ Ht).
    apply aircraft_view_parts.
    + congruence.
    + apply move_marker_settles; [exact F1 | now rewrite Mkt1, Mkt0, Mkt].
  - (* an exception before the marker update *)
    destruct (core_parts _ _ Ht) as (At & Stt & Mkt).
    assert (Hat : autoUpdateEnabled t = true) by congruence.
    destruct (handler_effect p t Hat) as (t0 & Ct & Htt).
    destruct (core_parts _ _ Ct) as (_ & St0 & Mkt0).
    destruct (fill_and_store_determined p t0 s1) as (Rt & Stt1); [congruence|].
    destruct (fill_and_store_keeps p t0) as (_ & Mkt1).
    rewrite Rt, R1 in Htt.
    rewrite (aircraft_view_core _ _ Htt), (aircraft_view_core _ _ Ht).
    apply aircraft_view_parts; [congruence|].
    apply marker_view_state. congruence.
Qed.

Lemma handler_fresh p (s : State Panel) :
  fresh s -> fresh (snd (handleRealtimePositionUpdate showAircraftInfo p s)).
Proof.
  intros F. destruct (autoUpdateEnabled s) eqn:Ha.
  2:{ rewrite handler_staged, Ha. exact F. }
  destruct (handler_effect p s Ha) as (s0 & C0 & Ht).
  destruct (core_parts _ _ C0) as (_ & _ & Mk0).
  destruct (fill_and_store_keeps p s0) as (_ & Mk1).
  assert (F1 : fresh (snd (fill_and_store p s0))).
  { apply (fresh_state s); [|exact F]. now rewrite Mk1, Mk0. }
  destruct (fst (fill_and_store p s0)) as [[]|e];
    destruct (core_parts _ _ Ht) as (_ & _ & Mkt).
  - apply (fresh_state (snd (move_marker p (snd (fill_and_store p s0)))));
      [now symmetry | now apply move_marker_fresh].
  - apply (fresh_state (snd (fill_and_store p s0))); [now symmetry | exact F1].
Qed.

(** *** The console and the requests under a position update *)

Lemma handler_trace_refl (s : State Panel) : handler_trace (console s) (requests s) s.
Proof.
  split; [reflexivity|]. exists []. split; [now rewrite app_nil_r | reflexivity].
Qed.

Lemma handler_trace_write c0 r0 lv t a :
  handler_entry (mkLog lv t a) = true ->
  preserves (handler_trace c0 r0) (console_write lv t a).
Proof.
  intros Ht s (Hr & new & Hc & Hn). split; [exact Hr|].
  exists (new ++ [mkLog lv t a])%list. cbn. rewrite Hc, <- app_assoc.
  split; [reflexivity|]. rewrite forallb_app, Hn. cbn. now rewrite Ht.
Qed.

Ltac trace_frame :=
  repeat first
    [ apply preserves_ret | apply preserves_throw | apply preserves_get
    | apply preserves_with_map | apply preserves_when
    | apply handler_trace_write; reflexivity
    | apply preserves_modify; intros ? H; exact H
    | apply preserves_try_catch; [|intros ?]
    | apply preserves_bind; [|intros ?]
    | match goal with
      | |- preserves _ (match ?x with _ => _ end) => destruct x
      | |- preserves _ (if ?x then _ else _) => destruct x
      end ].

Lemma handler_trace_updateStatus c0 r0 msg type :
  preserves (handler_trace c0 r0) (@updateStatus Panel msg type).
Proof. unfold updateStatus, modify_dom. trace_frame. Qed.

Lemma handler_trace_handler c0 r0 p :
  preserves (handler_trace c0 r0)
    (handleRealtimePositionUpdate showAircraftInfo p).
Proof.
  unfold handleRealtimePositionUpdate.
  apply preserves_bind; [apply preserves_get | intros auto].
  destruct (negb auto); [apply preserves_ret|].
  apply preserves_bind; [apply handler_trace_write; reflexivity | intros _].
  apply preserves_try_catch.
  2:{ intros e. apply preserves_bind;
        [apply handler_trace_write; reflexivity
        | intros _; apply handler_trace_updateStatus]. }
  unfold set_field, call_toFixed, modify_dom.
  do 4 (apply preserves_bind; [trace_frame | intros _]).
  apply preserves_bind.
  { intros s H. unfold store_aircraftData. destruct (aircraftData s); exact H. }
  intros _. apply preserves_bind.
  { unfold updateAircraftMarkerPosition, map_removeLayer, addTo_map, update_map,
      toLatLng.
    trace_frame; intros s H; exact H. }
  intros _. apply preserves_bind.
  { intros s H. unfold call_showAircraftInfo. destruct (aircraftData s); [|exact H].
    destruct (showAircraftInfo _ _) as [[e|] q]; exact H. }
  intros _. apply preserves_bind; [trace_frame | intros la].
  apply preserves_bind; [trace_frame | intros lo].
  apply handler_trace_updateStatus.
Qed.

(** A position update never lets an exception out. *)
Lemma handler_total p (s : State Panel) :
  fst (handleRealtimePositionUpdate showAircraftInfo p s) = Ok tt.
Proof.
  rewrite handler_staged. destruct (negb (autoUpdateEnabled s)); [reflexivity|].
  unfold bind at 1, log_update, console_write, modify. unfold try_catch.
  match goal with
  | |- fst (let (_, _) := ?c in _) = _ => destruct c as [[[]|e] s1]
  end; [reflexivity|].
  unfold report_failure, bind, console_write, modify. apply updateStatus_total.
Qed.

Lemma handler_summary p (s : State Panel) :
  exists s',
    handleRealtimePositionUpdate showAircraftInfo p s = (Ok tt, s') /\
    requests s' = requests s /\
    exists new, console s' = (console s ++ new)%list /\
                forallb handler_entry new = true.
Proof.
  pose proof (handler_total p s) as Ht.
  pose proof (handler_trace_handler _ _ p s (handler_trace_refl s)) as (Hr & Hc).
  destruct (handleRealtimePositionUpdate showAircraftInfo p s) as [r s'].
  cbn in *. subst r. exists s'. auto.
Qed.

(** *** The poll cycles *)

Lemma legacy_poll_cycle origin r1 r2 (s : State Panel) :
  fetchAircraftData_at origin r1 r2 s
  = (Ok tt,
     set_console (console s ++ poll_entries r1 r2)
       (set_requests (requests s ++ poll_requests origin r1) s)).
Proof.
  destruct s as [mp cb co am ga sock auto sim adt amk pnl io d con req oid].
  unfold fetchAircraftData_at, try_catch, bind, fetch, read, console_write, modify,
    throw, ret, poll_entries, poll_requests, outcome_entry.
  destruct r1 as [e1|e1| |p]; cbn; try reflexivity.
  destruct (truthy (p_error p)); cbn;
    destruct r2 as [e2|e2| |t]; cbn; rewrite <- ?app_assoc; try reflexivity;
    destruct (truthy (t_error t)); cbn; rewrite <- ?app_assoc; reflexivity.
Qed.

Lemma entries_with_absent (P : LogEntry -> bool) txt new :
  (forall e, P e = true -> String.eqb (text e) txt = false) ->
  forallb P new = true ->
  entries_with txt new = [].
Proof.
  intros HP Hn. unfold entries_with. apply filter_all_false. intros e He.
  apply HP. now apply (proj1 (forallb_forall _ _) Hn).
Qed.

Ltac other_text :=
  let e := fresh "e" in
  let H := fresh "H" in
  let E := fresh "E" in
  intros e H;
  match goal with
  | |- String.eqb (text e) ?txt = false =>
      destruct (String.eqb_spec (text e) txt) as [E|E]; [|reflexivity];
      destruct e; cbn in *; subst; discriminate
  end.

Lemma entries_with_app txt a b :
  entries_with txt (a ++ b) = (entries_with txt a ++ entries_with txt b)%list.
Proof. apply filter_app. Qed.

Lemma enhanced_type_half_run r2 (s : State Panel) :
  exists s' new,
    try_catch (enhanced_type_half r2) enhanced_catch s = (Ok tt, s') /\
    requests s' = (requests s ++ [mkRequest "GET" "/aircraft/type"])%list /\
    console s' = (console s ++ new)%list /\
    forallb type_half_entry new = true /\
    match r2 with
    | Body t =>
        reported_once "Type Error:" "Aircraft Type (legacy):" (t_error t)
          (LVal (t_type t)) new
    | _ =>
        forall e, failure r2 = Some e ->
          entries_with "Legacy fetch error:" new
          = [mkLog error "Legacy fetch error:" (LExn e)]
    end.
Proof.
  unfold enhanced_type_half, enhanced_catch, try_catch, bind, fetch, read,
    console_write, modify, throw, ret, reported_once.
  destruct r2 as [e2|e2| |t]; cbn.
  1-3: do 2 eexists; split; [reflexivity|]; cbn;
       split; [reflexivity|]; split; [reflexivity|]; split; [reflexivity|];
       intros e He; injection He as <-; reflexivity.
  destruct (truthy (t_error t)) eqn:Et; cbn.
  - do 2 eexists. split; [reflexivity|]. cbn.
    split; [reflexivity|]. split; [reflexivity|]. split; [reflexivity|].
    split; reflexivity.
  - unfold assign_aircraft. cbn. destruct (aircraftData s); cbn.
    + do 2 eexists. split; [reflexivity|]. cbn.
      split; [reflexivity|]. split; [reflexivity|]. split; [reflexivity|].
      split; reflexivity.
    + do 2 eexists. split; [reflexivity|]. cbn.
      split; [reflexivity|]. split; [now rewrite <- app_assoc|].
      split; [reflexivity|]. split; reflexivity.
Qed.

Lemma enhanced_unfold r1 r2 (s : State Panel) :
  fetchAircraftDataEnhanced showAircraftInfo r1 r2 s
  = if socket_is_connected s then (Ok tt, s)
    else if negb (isSimConnectConnected s) then (Ok tt, s)
    else
      try_catch
        (bind (fetch "GET" "/aircraft/position" r1) (fun body1 =>
         bind (read body1 "error") (fun positionData =>
         bind (enhanced_position_branch positionData) (fun _ =>
         enhanced_type_half r2))))
        enhanced_catch s.
Proof.
  unfold fetchAircraftDataEnhanced. rewrite bind_get.
  destruct (socket_is_connected s); [reflexivity|]. rewrite bind_get.
  destruct (negb (isSimConnectConnected s)); reflexivity.
Qed.

Lemma enhanced_position_branch_run p (s : State Panel) :
  exists s' new,
    enhanced_position_branch p s = (Ok tt, s') /\
    requests s' = requests s /\
    console s' = (console s ++ new)%list /\
    reported_once "Position Error:" "Position (legacy):" (p_error p)
      (LPosition p) new /\
    entries_with "Type Error:" new = [] /\
    entries_with "Aircraft Type (legacy):" new = [] /\
    entries_with "Legacy fetch error:" new = [].
Proof.
  unfold enhanced_position_branch, reported_once.
  destruct (truthy (p_error p)) eqn:Ep.
  - do 2 eexists. split; [reflexivity|]. cbn. repeat split; reflexivity.
  - unfold console_write. rewrite bind_modify, bind_get.
    cbn [autoUpdateEnabled set_console].
    destruct (autoUpdateEnabled s); cbn [when].
    + match goal with |- context [handleRealtimePositionUpdate _ _ ?s1] =>
        destruct (handler_summary (p_data p) s1) as (s' & E & Hr & new & Hc & Hn)
      end.
      exists s', (mkLog log "Position (legacy):" (LPosition p) :: new).
      split; [exact E|]. split; [exact Hr|].
      split; [rewrite Hc; cbn; now rewrite <- app_assoc|].
      change (mkLog log "Position (legacy):" (LPosition p) :: new)
        with ([mkLog log "Position (legacy):" (LPosition p)] ++ new)%list.
      rewrite !entries_with_app.
      rewrite !(entries_with_absent handler_entry _ new) by (try exact Hn; other_text).
      repeat split; reflexivity.
    + do 2 eexists. split; [reflexivity|]. cbn. repeat split; reflexivity.
Qed.

Lemma enhanced_poll_cycle r1 r2 (s : State Panel) :
  socket_is_connected s = false ->
  isSimConnectConnected s = true ->
  exists s' new,
    fetchAircraftDataEnhanced showAircraftInfo r1 r2 s = (Ok tt, s') /\
    requests s' = (requests s ++ poll_requests "" r1)%list /\
    console s' = (console s ++ new)%list /\
    enhanced_report r1 r2 new.
Proof.
  intros Hsock Hsim. rewrite enhanced_unfold, Hsock, Hsim. cbn [negb].
  destruct r1 as [e1|e1| |p].
  1-3: do 2 eexists; split; [reflexivity|]; cbn; split; [reflexivity|];
       split; [reflexivity|]; intros e He; injection He as <-; reflexivity.
  erewrite try_catch_bind_ok by reflexivity.
  erewrite try_catch_bind_ok by reflexivity.
  match goal with |- context [try_catch _ _ ?s1] =>
    destruct (enhanced_position_branch_run p s1)
      as (s2 & new1 & E1 & R1 & C1 & P1 & T1 & T1' & L1)
  end.
  erewrite try_catch_bind_ok by exact E1.
  destruct (enhanced_type_half_run r2 s2) as (s3 & new2 & E2 & R2 & C2 & F2 & P2).
  exists s3, (new1 ++ new2)%list. split; [exact E2|].
  split; [rewrite R2, R1; cbn; now rewrite <- app_assoc|].
  split; [rewrite C2, C1; cbn; now rewrite <- app_assoc|].
  unfold enhanced_report, reported_once in *. rewrite !entries_with_app.
  destruct P1 as (P1a & P1b).
  rewrite P1a, P1b.
  rewrite !(entries_with_absent type_half_entry _ new2) by (try exact F2; other_text).
  rewrite !app_nil_r. split; [split; reflexivity|].
  destruct r2 as [e2|e2| |t].
  4:{ destruct P2 as (P2a & P2b). rewrite P2a, P2b, T1, T1'. split; reflexivity. }
  all: intros e He; rewrite L1; now apply P2.
Qed.

(** C9: in every poll cycle each response is reported as exactly one of
    error and data, by the truthiness of its error property; a failure of a
    request is caught and logged, no request is repeated, and the poller
    returns normally.  For fetchAircraftData the final state is given in
    full; for fetchAircraftDataEnhanced, when it polls, the requests and the
    entries of the cycle. *)
Theorem poll_cycle_outcomes :
  forall (origin : string) (r1 : Reply PositionReply) (r2 : Reply TypeReply)
         (s : State Panel),
    fetchAircraftData_at origin r1 r2 s
    = (Ok tt,
       set_console (console s ++ poll_entries r1 r2)
         (set_requests (requests s ++ poll_requests origin r1) s)) /\
    (socket_is_connected s = false ->
     isSimConnectConnected s = true ->
     exists s' new,
       fetchAircraftDataEnhanced showAircraftInfo r1 r2 s = (Ok tt, s') /\
       requests s' = (requests s ++ poll_requests "" r1)%list /\
       console s' = (console s ++ new)%list /\
       enhanced_report r1 r2 new).
Proof.
  intros origin r1 r2 s. split.
  - apply legacy_poll_cycle.
  - apply enhanced_poll_cycle.
Qed.

(** *** Connecting, and the status of the connection *)


(** X2: with the status element on the page, updateSimConnectStatus makes
    the connection flag and the two buttons mirror the connected property of
    the payload; the indicator is hidden when disconnected and shown when
    connected with auto-update on. *)
Theorem status_update_mirrors_payload :
  forall (s : State Panel) (st : StatusData) (el : StatusElement),
    simconnect_status (dom s) = Some el ->
    let s' := snd (updateSimConnectStatus (Some st) s) in
    let c := truthy (st_connected st) in
    fst (updateSimConnectStatus (Some st) s) = Ok tt /\
    isSimConnectConnected s' = c /\
    connect_btn_disabled (dom s') = c /\
    disconnect_btn_disabled (dom s') = negb c /\
    realtime_indicator_display (dom s')
    = (if c then
         if autoUpdateEnabled s then "flex" else realtime_indicator_display (dom s)
       else "none") /\
    autoUpdateEnabled s' = autoUpdateEnabled s /\
    requests s' = requests s.
Proof.
  intros s st el Hel.
  unfold updateSimConnectStatus. rewrite bind_get, Hel.
  unfold show_indicator_if_auto, modify_dom, console_write, read, when, bind, get,
    modify, ret.
  destruct (truthy (st_connected st)); cbn.
  - destruct (autoUpdateEnabled s) eqn:Ha; cbn; rewrite ?Ha;
      repeat split; reflexivity.
  - repeat split; reflexivity.
Qed.

(** X3: without the status element, updateSimConnectStatus only writes a
    warning to the console: the connection flag and the buttons are not
    brought in line with the payload, whatever it says, and a null payload
    raises nothing. *)
Theorem status_update_without_element :
  forall (s : State Panel) (data : option StatusData),
    simconnect_status (dom s) = None ->
    updateSimConnectStatus data s
    = (Ok tt,
       set_console
         (console s ++ [mkLog warn "SimConnect status element not found" LNothing])
         s).
Proof.
  intros s data Hel.
  unfold updateSimConnectStatus. rewrite bind_get, Hel. reflexivity.
Qed.

(** X4: checkSimConnectStatus returns normally and issues its one request;
    when the request or the parsing fails, or the body is null, the
    connection flag, the buttons and the indicator stay as they were; on a
    body, they mirror it if the status element is on the page. *)
Theorem status_check_outcome :
  forall (s : State Panel) (r : Reply StatusData),
    let s' := snd (checkSimConnectStatus r s) in
    fst (checkSimConnectStatus r s) = Ok tt /\
    requests s' = (requests s ++ [mkRequest "GET" "/api/simconnect/status"])%list /\
    match r, simconnect_status (dom s) with
    | Body st, Some _ =>
        isSimConnectConnected s' = truthy (st_connected st) /\
        disconnect_btn_disabled (dom s') = negb (truthy (st_connected st))
    | _, _ =>
        isSimConnectConnected s' = isSimConnectConnected s /\
        dom s' = dom s
    end.
Proof.
  intros s r.
  unfold checkSimConnectStatus, try_catch, bind, fetch, modify, throw, ret,
    console_write.
  destruct r as [e|e| |st]; cbn.
  1-2: repeat split; reflexivity.
  - unfold updateSimConnectStatus, bind, get, read, throw, console_write, modify.
    cbn. destruct (simconnect_status (dom s)); cbn; repeat split; reflexivity.
  - unfold updateSimConnectStatus, show_indicator_if_auto, modify_dom, when, bind,
      get, read, ret, console_write, modify.
    cbn. destruct (simconnect_status (dom s)) eqn:E; cbn.
    + destruct (truthy (st_connected st)); cbn;
        [destruct (autoUpdateEnabled s); cbn|]; repeat split; reflexivity.
    + repeat split; reflexivity.
Qed.

(** *** What a position update writes *)

Ltac run_update :=
  cbv -[toFixed number_to_string Math_round ToNumber append aircraft_icon addLayer
        removeLayer of_number js_or showAircraftInfo app].


(** X6: a payload without latitude, on a page that has the latitude field,
    stops at the first statement of the [try]: the fields, aircraftData, the
    marker and the map are untouched; the console receives the update and the
    error, the status shows the failure. *)
Theorem position_update_without_latitude :
  forall (s : State Panel) (p : PositionData) (shown : string),
    autoUpdateEnabled s = true ->
    latitude p = None ->
    latitude_field (dom s) = Some shown ->
    handleRealtimePositionUpdate showAircraftInfo p s
    = (Ok tt,
       set_dom
         (dom_set_status_text_textContent "Failed"
            (dom_set_status_dot_background "#ef4444"
               (dom_set_status_textContent "Error processing position data"
                  (dom s))))
         (set_console
            (console s
             ++ [mkLog log "Received position update:" (LPositionData p);
                 mkLog error "Error handling position update:"
                   (LExn (TypeError
                      "Cannot read properties of undefined (reading 'toFixed')"))])
            s)).
Proof.
  intros s p shown Hauto Hla Hf.
  destruct s as [mp cb co am ga sock auto sim adt amk pnl io d con req oid].
  destruct d as [d1 d2 d3 d4 d5 d6 d7 d8 d9 d10 flat flng falt fhdg].
  destruct p as [pla plo al hd gs ti at_].
  cbn in Hauto, Hla, Hf. subst auto pla flat.
  run_update. now rewrite <- app_assoc.
Qed.



(** *** The aircraft type read by the fallback poller *)

Lemma has_aircraftData_handler p :
  preserves has_aircraftData (handleRealtimePositionUpdate showAircraftInfo p).
Proof.
  unfold handleRealtimePositionUpdate.
  apply preserves_bind; [apply preserves_get | intros auto].
  destruct (negb auto); [apply preserves_ret|].
  unfold console_write, updateStatus, modify_dom.
  apply preserves_bind; [frame | intros _].
  apply preserves_try_catch; [|intros e; frame].
  unfold set_field, call_toFixed, modify_dom.
  do 4 (apply preserves_bind; [frame | intros _]).
  apply preserves_bind.
  { intros s H. unfold store_aircraftData, has_aircraftData in *.
    destruct (aircraftData s) eqn:E; cbn; [discriminate | congruence]. }
  intros _. apply preserves_bind.
  { unfold updateAircraftMarkerPosition, map_removeLayer, addTo_map, update_map,
      toLatLng, console_write.
    frame; intros s H; exact H. }
  intros _. apply preserves_bind.
  { intros s H. unfold call_showAircraftInfo, has_aircraftData in *.
    destruct (aircraftData s) eqn:E; [|congruence].
    destruct (showAircraftInfo _ _) as [[e|] q]; cbn; congruence. }
  intros _. frame.
Qed.

(** X8: when the enhanced poller polls, aircraftData is defined and both
    responses are reported as data, the aircraft type of the second response
    ends up in aircraftData.aircraft, whatever aircraft_title the position
    carried: the assignment after the type response is the last write. *)
Theorem enhanced_poll_type_is_last_write :
  forall (s : State Panel) (p : PositionReply) (t : TypeReply) (ad : AircraftData),
    socket_is_connected s = false ->
    isSimConnectConnected s = true ->
    aircraftData s = Some ad ->
    truthy (p_error p) = false ->
    truthy (t_error t) = false ->
    exists ad',
      aircraftData (snd (fetchAircraftDataEnhanced showAircraftInfo (Body p)
                           (Body t) s))
      = Some ad' /\
      ad_aircraft ad' = t_type t.
Proof.
  intros s p t ad Hsock Hsim Had Hp Ht.
  rewrite enhanced_unfold, Hsock, Hsim. cbn [negb].
  erewrite try_catch_bind_ok by reflexivity.
  erewrite try_catch_bind_ok by reflexivity.
  match goal with |- context [try_catch _ _ ?s1] =>
    assert (H1 : has_aircraftData s1) by (unfold has_aircraftData; cbn; congruence);
    assert (H2 : has_aircraftData (snd (enhanced_position_branch p s1)));
    [|destruct (enhanced_position_branch_run p s1) as (s2 & new & E & _)]
  end.
  { unfold enhanced_position_branch. rewrite Hp. unfold console_write.
    rewrite bind_modify, bind_get.
    match goal with |- context [when ?b _ ?s1] => destruct b; cbn [when] end;
      [apply has_aircraftData_handler | ]; exact H1. }
  rewrite E in H2. cbn [snd] in H2.
  erewrite try_catch_bind_ok by exact E.
  unfold enhanced_type_half, enhanced_catch, try_catch, bind, fetch, read,
    console_write, modify, ret, assign_aircraft.
  cbn. rewrite Ht. cbn. unfold has_aircraftData in H2.
  destruct (aircraftData s2) as [ad2|]; [|congruence].
  cbn. eexists. split; reflexivity.
Qed.

(** *** Loading the map and zooming *)

Lemma initMap_unfold r (s : State Panel) :
  initMap r s
  = bind (try_catch (load_airports r)
            (fun _ => updateStatus "Failed to load airports.json" "error"))
      (fun _ => updateStatus "Map loaded successfully" "success") (map_ready s).
Proof.
  destruct s as [mp cb co am ga sock auto sim adt amk pnl io d con req oid].
  reflexivity.
Qed.

(** addAirportMarkers in full, the map being there. *)
Lemma addAirportMarkers_state l (s : State Panel) m :
  map s = Some m ->
  addAirportMarkers l s
  = (Ok tt,
     set_map (Some (addLayer (group_layer (airportMarkers s)) m))
       (set_next_oid
          (next_oid s + List.length (filter (zoom_filter (m_zoom m)) l))
          (set_airportMarkers
             (mkGroup (g_oid (airportMarkers s))
                (number_layers (next_oid s) (filter (zoom_filter (m_zoom m)) l)))
             s))).
Proof.
  intros Hm.
  destruct s as [mp cb co [gid gl] ga sock auto sim adt amk pnl io d con req oid].
  cbn in Hm. subst mp.
  unfold addAirportMarkers, clear_and_getZoom, clearLayers.
  unfold bind at 1. unfold bind at 1. unfold modify at 1.
  unfold with_map at 1. cbn [map set_airportMarkers fst snd].
  unfold bind at 1. rewrite forEach_new_markers.
  reflexivity.
Qed.

Lemma updateStatus_success msg (s : State Panel) :
  updateStatus msg "success" s
  = (Ok tt,
     set_dom (dom_set_status_text_textContent "Succeeded"
                (dom_set_status_dot_background "#10b981"
                   (dom_set_status_textContent msg (dom s)))) s).
Proof. reflexivity. Qed.

Lemma fetch_body {A} meth u (a : A) (s : State Panel) :
  fetch meth u (Body a) s
  = (Ok (Some a), set_requests (requests s ++ [mkRequest meth u]) s).
Proof. reflexivity. Qed.

Lemma load_airports_run l (s : State Panel) m :
  map s = Some m ->
  exists s',
    load_airports (Body l) s = (Ok tt, s') /\
    shown_markers s' = markers_of (filter (zoom_filter (m_zoom m)) l) /\
    (exists m', map s' = Some m' /\ m_zoom m' = m_zoom m /\
                m_zoomend m' = (m_zoomend m ++ [l])%list) /\
    dom s' = dom s /\
    requests s' = (requests s ++ [mkRequest "GET" "airports.json"])%list.
Proof.
  intros Hm. unfold load_airports.
  rewrite (bind_ok _ _ _ _ _ (fetch_body "GET" "airports.json" l s)).
  unfold bind.
  rewrite (addAirportMarkers_state l _ m) by exact Hm.
  unfold map_on_zoomend, update_map, with_map, bind, modify. cbn.
  eexists. split; [reflexivity|]. cbn. unfold shown_markers. cbn.
  split; [apply number_layers_src|]. split.
  - eexists. split; [reflexivity|]. unfold addLayer.
    destruct (hasLayer _ _); split; reflexivity.
  - split; reflexivity.
Qed.

Lemma load_airports_caught r (s : State Panel) m :
  map s = Some m ->
  exists s',
    try_catch (load_airports r)
      (fun _ => updateStatus "Failed to load airports.json" "error") s
    = (Ok tt, s') /\
    requests s' = (requests s ++ [mkRequest "GET" "airports.json"])%list /\
    match r with
    | Body l =>
        shown_markers s' = markers_of (filter (zoom_filter (m_zoom m)) l) /\
        listening (m_zoomend m ++ [l]) s' /\ dom s' = dom s
    | BodyNull =>
        g_layers (airportMarkers s') = [] /\ map s' = map s /\
        status_textContent (dom s') = "Failed to load airports.json"
    | _ =>
        airportMarkers s' = airportMarkers s /\ map s' = map s /\
        status_textContent (dom s') = "Failed to load airports.json"
    end.
Proof.
  intros Hm. destruct r as [e|e| |l].
  - eexists. split; [reflexivity|]. cbn. repeat split; reflexivity.
  - eexists. split; [reflexivity|]. cbn. repeat split; reflexivity.
  - unfold try_catch, load_airports, fetch, addAirportMarkers_null,
      clear_and_getZoom, clearLayers, with_map, bind, modify, ret, throw.
    cbn. rewrite Hm. cbn.
    eexists. split; [reflexivity|]. cbn. rewrite Hm. repeat split; reflexivity.
  - destruct (load_airports_run l s m Hm) as (s' & E & Hs & (m' & Hm' & _ & Hz) & Hd & Hr).
    exists s'. unfold try_catch. rewrite E. split; [reflexivity|].
    split; [exact Hr|]. split; [exact Hs|]. split; [|exact Hd].
    exists m'. split; assumption.
Qed.

Lemma map_ready_map (s : State Panel) :
  exists m, map (map_ready s) = Some m /\ m_zoom m = 4%Z /\ m_zoomend m = [].
Proof.
  unfold map_ready. cbn. eexists. split; [reflexivity|].
  unfold addLayer. destruct (hasLayer _ _); split; reflexivity.
Qed.


Lemma initMap_loaded (s : State Panel) (l : list Airport) :
  shown_markers (snd (initMap (Body l) s))
  = markers_of (filter (fun a => (size a =? 1)%Z) l) /\
  listening [l] (snd (initMap (Body l) s)).
Proof.
  rewrite initMap_unfold.
  destruct (map_ready_map s) as (m & Hm & Hz & Hl).
  destruct (load_airports_caught (Body l) (map_ready s) m Hm)
    as (s1 & E & _ & Hs & (m1 & Hm1 & Hl1) & _).
  unfold bind. rewrite E, updateStatus_success. cbn.
  unfold shown_markers in *. cbn. rewrite Hs, Hz. split; [reflexivity|].
  exists m1. cbn. split; [exact Hm1|]. now rewrite Hl1, Hl.
Qed.


Lemma addLayer_view l m :
  m_zoom (addLayer l m) = m_zoom m /\ m_zoomend (addLayer l m) = m_zoomend m.
Proof. unfold addLayer. destruct (hasLayer l (m_layers m)); split; reflexivity. Qed.

Lemma fire_zoomend_listening l z (s : State Panel) :
  listening [l] s ->
  exists s',
    fire_zoomend z s = (Ok tt, s') /\
    listening [l] s' /\
    shown_markers s' = markers_of (filter (zoom_filter z) l) /\
    status_textContent (dom s')
    = "Updated airport markers for zoom level " ++ string_of_Z z.
Proof.
  intros (m & Hm & Hl).
  unfold fire_zoomend, update_map. unfold with_map at 1. unfold bind at 1.
  unfold bind at 1. rewrite Hm. unfold modify at 1. unfold bind at 1.
  unfold with_map at 1. cbn [map set_map]. rewrite Hl.
  cbn [forEach m_zoomend]. unfold zoomend_listener.
  unfold bind at 1. unfold bind at 1.
  erewrite addAirportMarkers_state by reflexivity.
  unfold with_map, bind. cbn -[addLayer string_of_Z append].
  eexists. split; [reflexivity|]. cbn -[addLayer string_of_Z append]. split.
  - eexists. split; [reflexivity|]. now rewrite (proj2 (addLayer_view _ _)).
  - unfold shown_markers. cbn -[addLayer string_of_Z append].
    split; [apply number_layers_src|]. now rewrite (proj1 (addLayer_view _ _)).
Qed.

Lemma zoom_through_listening l zs :
  forall s : State Panel, listening [l] s -> listening [l] (zoom_through zs s).
Proof.
  induction zs as [|z zs IH]; intros s H; [exact H|]. cbn. apply IH.
  destruct (fire_zoomend_listening l z s H) as (s' & E & H' & _).
  now rewrite E.
Qed.

Lemma zoom_through_last zs z (s : State Panel) :
  zoom_through (zs ++ [z]) s = snd (fire_zoomend z (zoom_through zs s)).
Proof. unfold zoom_through. now rewrite fold_left_app. Qed.

(** X11: after a list was loaded, whatever zooms the map goes through, the
    markers shown are those the band rule keeps at the last zoom, and the
    status names that zoom: every zoomend recomputes from the whole list. *)
Theorem markers_follow_last_zoom :
  forall (s : State Panel) (l : list Airport) (zs : list Z) (z : Z),
    let s' := zoom_through (zs ++ [z]) (snd (initMap (Body l) s)) in
    shown_markers s' = markers_of (filter (zoom_filter z) l) /\
    status_textContent (dom s')
    = "Updated airport markers for zoom level " ++ string_of_Z z.
Proof.
  intros s l zs z. cbv zeta. rewrite zoom_through_last.
  assert (H : listening [l] (zoom_through zs (snd (initMap (Body l) s)))).
  { apply zoom_through_listening. apply initMap_loaded. }
  destruct (fire_zoomend_listening l z _ H) as (s' & E & _ & Hs & Ht).
  rewrite E. split; assumption.
Qed.

Lemma fire_zoomend_no_listener z (s : State Panel) :
  listening [] s ->
  listening [] (snd (fire_zoomend z s)) /\
  airportMarkers (snd (fire_zoomend z s)) = airportMarkers s /\
  dom (snd (fire_zoomend z s)) = dom s /\
  requests (snd (fire_zoomend z s)) = requests s.
Proof.
  intros (m & Hm & Hl).
  unfold fire_zoomend, update_map, with_map, bind, modify. rewrite Hm. cbn.
  rewrite Hl. cbn. split; [|repeat split; reflexivity].
  eexists. split; reflexivity.
Qed.

Lemma zoom_through_no_listener zs :
  forall s : State Panel,
    listening [] s ->
    airportMarkers (zoom_through zs s) = airportMarkers s /\
    dom (zoom_through zs s) = dom s /\
    requests (zoom_through zs s) = requests s.
Proof.
  induction zs as [|z zs IH]; intros s H; [repeat split; reflexivity|]. cbn.
  destruct (fire_zoomend_no_listener z s H) as (H' & Ha & Hd & Hr).
  destruct (IH _ H') as (Ha' & Hd' & Hr').
  fold (zoom_through zs (snd (fire_zoomend z s))).
  rewrite Ha', Hd', Hr'. auto.
Qed.

(** X12: when airports.json could not be loaded (the request or the parsing
    failed, or the body was null), initMap registers no zoomend listener:
    whatever zooms follow, the airport markers are never recomputed, no new
    request is made, and the status keeps reading "Map loaded
    successfully". *)
Theorem failed_load_is_never_retried :
  forall (s : State Panel) (r : Reply (list Airport)) (e : Exn) (zs : list Z),
    failure r = Some e ->
    let s1 := snd (initMap r s) in
    let s' := zoom_through zs s1 in
    airportMarkers s' = airportMarkers s1 /\
    requests s' = requests s1 /\
    status_textContent (dom s') = "Map loaded successfully".
Proof.
  intros s r e zs Hf. cbv zeta.
  assert (H : listening [] (snd (initMap r s))).
  { rewrite initMap_unfold.
    destruct (map_ready_map s) as (m & Hm & _ & Hl).
    destruct (load_airports_caught r (map_ready s) m Hm) as (s1 & E & _ & Hc).
    unfold bind. rewrite E, updateStatus_success. cbn.
    destruct r as [x|x| |l]; try discriminate;
      destruct Hc as (_ & Hm1 & _); exists m; cbn; rewrite Hm1; auto. }
  destruct (zoom_through_no_listener zs _ H) as (Ha & Hd & Hr).
  rewrite Ha, Hd, Hr. repeat split.
  rewrite initMap_unfold.
  destruct (map_ready_map s) as (m & Hm & _).
  destruct (load_airports_caught r (map_ready s) m Hm) as (s1 & E & _).
  unfold bind. rewrite E, updateStatus_success. reflexivity.
Qed.

(** *** Changing the layer *)

(** X13: called before initMap created the map, changeMapLayer ends by a
    TypeError and has changed nothing the page shows: no layer is attached,
    the layer variables, the page, the marker group, the console and the
    requests are those of before. *)
Theorem changeMapLayer_before_initMap :
  forall s : State Panel,
    map s = None ->
    let s' := snd (changeMapLayer s) in
    (exists msg, fst (changeMapLayer s) = Throw (TypeError msg)) /\
    map s' = None /\
    currentBaseLayer s' = currentBaseLayer s /\
    currentOverlayLayer s' = currentOverlayLayer s /\
    airportMarkers s' = airportMarkers s /\
    dom s' = dom s /\ console s' = console s /\ requests s' = requests s.
Proof.
  intros s Hm.
  destruct s as [mp cb co am ga sock auto sim adt amk pnl io d con req oid].
  cbn in Hm. subst mp.
  unfold changeMapLayer. rewrite bind_get. cbn [dom].
  destruct (String.eqb (mapLayer_value d) "darkHybrid");
    [|destruct (String.eqb (mapLayer_value d) "tomtom")];
    destruct cb, co; cbn; (split; [eexists; reflexivity | repeat split; reflexivity]).
Qed.

Lemma attach_base_run src k (s : State Panel) m :
  map s = Some m ->
  attach_base src k s
  = k (set_currentBaseLayer (Some (mkLayer (next_oid s) src))
         (set_map (Some (addLayer (mkLayer (next_oid s) src) m))
            (set_next_oid (S (next_oid s)) s))).
Proof.
  intros Hm. unfold attach_base, new_layer, addTo_map, update_map, with_map, bind,
    modify. cbn. rewrite Hm. reflexivity.
Qed.

Lemma attach_overlay_run src k (s : State Panel) m :
  map s = Some m ->
  attach_overlay src k s
  = k (set_currentOverlayLayer (Some (mkLayer (next_oid s) src))
         (set_map (Some (addLayer (mkLayer (next_oid s) src) m))
            (set_next_oid (S (next_oid s)) s))).
Proof.
  intros Hm. unfold attach_overlay, new_layer, addTo_map, update_map, with_map, bind,
    modify. cbn. rewrite Hm. reflexivity.
Qed.

Lemma remove_if_set_next_oid cur (s : State Panel) :
  next_oid (snd (remove_if_set cur s)) = next_oid s.
Proof.
  destruct cur as [l|]; [|reflexivity].
  unfold remove_if_set, map_removeLayer, update_map, with_map, bind, modify.
  destruct (map s); reflexivity.
Qed.

Lemma layer_view_recompute sel (s : State Panel) :
  layer_view (snd (recompute_and_report sel s)) = layer_view s.
Proof. now apply (preserves_recompute_and_report (layer_view s) sel s). Qed.

(** What changeMapLayer leaves attached, the map being there. *)
Lemma changeMapLayer_selection :
  forall (s : State Panel) (m : LMap),
    map s = Some m ->
    tracked s ->
    fresh s ->
    let sel := mapLayer_value (dom s) in
    let s' := snd (changeMapLayer s) in
    let base := mkLayer (next_oid s) (base_source sel) in
    let labels := mkLayer (S (next_oid s)) labels_source in
    base_layers s' = [base] /\
    currentBaseLayer s' = Some base /\
    overlay_layers s'
    = (if String.eqb sel "darkHybrid" then [labels] else []) /\
    currentOverlayLayer s'
    = (if String.eqb sel "darkHybrid" then Some labels else None).
Proof.
  intros s m Hm T F. cbv zeta. rewrite changeMapLayer_unfold.
  destruct T as (Tb & To & _ & _).
  unfold base_layers, overlay_layers, attached in Tb, To. rewrite Hm in Tb, To.
  unfold fresh, attached in F. rewrite Hm in F.
  destruct (remove_if_set_run (currentBaseLayer s) s m Hm)
    as (s1 & R1 & M1 & _ & O1 & D1 & _).
  rewrite (bind_ok _ _ _ _ _ R1), bind_get.
  destruct (remove_if_set_run (currentOverlayLayer s1) s1 _ M1)
    as (s2 & R2 & M2 & _ & _ & D2 & _).
  rewrite (bind_ok _ _ _ _ _ R2), bind_modify.
  set (m2 := removed (currentOverlayLayer s1) (removed (currentBaseLayer s) m)) in *.
  assert (Hb : filter is_base (m_layers m2) = []).
  { subst m2. unfold removed at 1. destruct (currentOverlayLayer s1);
      [rewrite filter_removeLayer|];
      rewrite (removed_tracked is_base (currentBaseLayer s) m Tb); reflexivity. }
  assert (Ho : filter is_overlay (m_layers m2) = []).
  { subst m2. rewrite O1. apply removed_tracked. intros l Hl. apply To.
    unfold removed in Hl. destruct (currentBaseLayer s); [|exact Hl].
    now apply In_filter_removeLayer in Hl. }
  assert (F2 : Forall (fun l => l_oid l < next_oid s) (m_layers m2)).
  { subst m2. now do 2 apply Forall_removed. }
  assert (N1 : next_oid s1 = next_oid s).
  { rewrite <- (remove_if_set_next_oid (currentBaseLayer s) s), R1. reflexivity. }
  assert (N2 : next_oid s2 = next_oid s).
  { rewrite <- N1, <- (remove_if_set_next_oid (currentOverlayLayer s1) s1), R2.
    reflexivity. }
  set (s3 := set_currentOverlayLayer None s2).
  assert (M3 : map s3 = Some m2) by exact M2.
  assert (N3 : next_oid s3 = next_oid s) by exact N2.
  assert (C3 : currentOverlayLayer s3 = None) by reflexivity.
  clearbody s3.
  set (base := mkLayer (next_oid s) (base_source (mapLayer_value (dom s)))).
  set (labels := mkLayer (S (next_oid s)) labels_source).
  assert (Lb : m_layers (addLayer base m2) = (m_layers m2 ++ [base])%list).
  { apply addLayer_fresh. exact F2. }
  assert (Ll : m_layers (addLayer labels (addLayer base m2))
               = (m_layers m2 ++ [base; labels])%list).
  { rewrite addLayer_fresh, Lb, <- app_assoc; [reflexivity|].
    rewrite Lb. apply Forall_app. split.
    - eapply Forall_impl; [|exact F2]. cbn. intros; lia.
    - constructor; [cbn; lia | constructor]. }
  assert (Bb : is_base base = true).
  { subst base. unfold base_source.
    destruct (String.eqb _ "darkHybrid"); [reflexivity|].
    destruct (String.eqb _ "tomtom"); reflexivity. }
  assert (Bo : is_overlay base = false).
  { subst base. unfold base_source.
    destruct (String.eqb _ "darkHybrid"); [reflexivity|].
    destruct (String.eqb _ "tomtom"); reflexivity. }
  assert (V : layer_view (snd (attach_selected (mapLayer_value (dom s)) s3))
              = ([base],
                 (if String.eqb (mapLayer_value (dom s)) "darkHybrid"
                  then [labels] else []),
                 Some base,
                 (if String.eqb (mapLayer_value (dom s)) "darkHybrid"
                  then Some labels else None))).
  { unfold attach_selected. subst base labels. unfold base_source, labels_source in *.
    destruct (String.eqb (mapLayer_value (dom s)) "darkHybrid").
    - rewrite (attach_base_run _ _ s3 m2 M3), N3.
      erewrite attach_overlay_run by reflexivity.
      rewrite layer_view_recompute.
      unfold layer_view, base_layers, overlay_layers, attached.
      cbn [map currentBaseLayer currentOverlayLayer next_oid set_map
           set_currentBaseLayer set_currentOverlayLayer set_next_oid].
      rewrite ?N3, Ll, !filter_app, Hb, Ho. reflexivity.
    - destruct (String.eqb (mapLayer_value (dom s)) "tomtom");
        rewrite (attach_base_run _ _ s3 m2 M3), N3, layer_view_recompute;
        unfold layer_view, base_layers, overlay_layers, attached;
        cbn [map currentBaseLayer currentOverlayLayer next_oid set_map
             set_currentBaseLayer set_currentOverlayLayer set_next_oid];
        rewrite Lb, !filter_app, Hb, Ho, C3; cbn [filter app];
        rewrite Bb, Bo; reflexivity. }
  unfold layer_view in V. injection V as V1 V2 V3 V4. auto.
Qed.

(** X14: on a map whose attached layers are the tracked ones and were
    constructed earlier, changeMapLayer leaves exactly one base layer
    attached, a newly constructed one with the source of the selection (the
    OpenStreetMap tiles for a selection that is none of the seven named in
    the switch), and an overlay exactly for the darkHybrid selection; this
    holds also when the call ends by the exception on [airports]. *)
Theorem changeMapLayer_attaches_selection :
  forall (s : State Panel) (m : LMap),
    map s = Some m ->
    tracked s ->
    fresh s ->
    let sel := mapLayer_value (dom s) in
    let s' := snd (changeMapLayer s) in
    let base := mkLayer (next_oid s) (base_source sel) in
    let labels := mkLayer (S (next_oid s)) labels_source in
    base_layers s' = [base] /\
    currentBaseLayer s' = Some base /\
    overlay_layers s'
    = (if String.eqb sel "darkHybrid" then [labels] else []) /\
    currentOverlayLayer s'
    = (if String.eqb sel "darkHybrid" then Some labels else None).
Proof. exact changeMapLayer_selection. Qed.

(** *** Events *)

Lemma run_app evs1 evs2 (s : State Panel) :
  run (evs1 ++ evs2) s = run evs2 (run evs1 s).
Proof. apply fold_left_app. Qed.

Lemma run_invariant (I : State Panel -> Prop) :
  (forall ev, preserves I (handle ev)) ->
  forall evs s, I s -> I (run evs s).
Proof.
  intros H evs. induction evs as [|ev evs IH]; intros s Hs; [exact Hs|].
  cbn. apply IH. apply H, Hs.
Qed.

(** Computations built from the primitives that leave [I] alone. *)
Ltac keeps :=
  repeat first
    [ apply preserves_ret | apply preserves_throw | apply preserves_get
    | apply preserves_with_map | apply preserves_when
    | apply preserves_forEach; intros ?
    | apply preserves_try_catch; [|intros ?]
    | apply preserves_bind; [|intros ?]
    | apply preserves_modify; (let K := fresh in intros ? K; exact K)
    | match goal with
      | |- preserves _ (match ?x with _ => _ end) => destruct x
      | |- preserves _ (if ?x then _ else _) => destruct x
      | |- preserves _ lookup_airports =>
          (let s := fresh "s" in let K := fresh in intros s K; unfold lookup_airports;
           destruct (global_airports s); exact K)
      | |- preserves _ (store_aircraftData _) =>
          (let s := fresh "s" in let K := fresh in intros s K; unfold store_aircraftData;
           destruct (aircraftData s); exact K)
      | |- preserves _ (assign_aircraft _) =>
          (let s := fresh "s" in let K := fresh in intros s K; unfold assign_aircraft;
           destruct (aircraftData s); exact K)
      | |- preserves _ (call_showAircraftInfo _) =>
          (let s := fresh "s" in let K := fresh in intros s K; unfold call_showAircraftInfo;
           destruct (aircraftData s);
           [destruct (showAircraftInfo _ _) as [[?|] ?]|]; exact K)
      | |- preserves _ (new_layer _) => (let s := fresh "s" in let K := fresh in intros s K; exact K)
      end ].

Ltac open_map_script :=
  unfold initMap, fire_zoomend, zoomend_listener, map_on_zoomend, changeMapLayer,
    recompute_and_report, remove_if_set, addAirportMarkers, addAirportMarkers_null,
    clear_and_getZoom, clearLayers, airportMarkers_addLayer,
    airportMarkers_addTo_map, map_removeLayer, addTo_map, update_map, fetch,
    read, updateStatus, modify_dom, console_write.

Ltac open_live_link :=
  unfold fetchAircraftData_at, fetchAircraftDataEnhanced, initWebSocket,
    handleRealtimePositionUpdate, updateAircraftMarkerPosition, set_field,
    call_toFixed, toLatLng, modify_socket, map_removeLayer, addTo_map, update_map,
    fetch, read, updateStatus, modify_dom, console_write.

Lemma controls_kept ev v :
  touches_controls ev = false ->
  preserves (fun s : State Panel => controls s = v) (handle ev).
Proof.
  intros H. destruct ev as [r|z|sel|o r1 r2| |e|r|r| |r1 r2|r];
    try discriminate H; unfold handle.
  - open_map_script. keeps.
  - open_map_script. keeps.
  - open_map_script. keeps.
  - open_live_link. keeps.
  - open_live_link. keeps.
  - destruct e as [| |d|d|x]; try discriminate H; unfold socket_on;
      open_live_link; keeps.
  - open_live_link. keeps.
Qed.

(** The four ways an event acts on the flags, the indicator and the
    disconnect button. *)
Lemma link_step ev (s : State Panel) :
  let auto := autoUpdateEnabled s in
  let sim := isSimConnectConnected s in
  let shown := realtime_indicator_display (dom s) in
  link (step s ev) = link s \/
  link (step s ev) = (auto, true, if auto then "flex" else shown, false) \/
  link (step s ev) = (auto, false, "none", true) \/
  link (step s ev)
  = (negb auto, sim,
     (if auto then "none" else if sim then "flex" else shown),
     disconnect_btn_disabled (dom s)).
Proof.
  cbv zeta. destruct (touches_controls ev) eqn:T.
  2:{ left. pose proof (controls_kept ev (controls s) T s eq_refl) as H.
      unfold controls in H. unfold link, step.
      injection H as H1 H2 H3 _ H5 _ _. now rewrite H1, H2, H3, H5. }
  unfold step, link.
  destruct s as [mp cb co am ga sock auto sim adt amk pnl io d con req oid].
  destruct d as [d1 d2 d3 d4 d5 d6 d7 d8 el d10 flat flng falt fhdg].
  destruct ev as [r|z|sel|o r1 r2| |e|r|r| |r1 r2|r]; try discriminate T;
    unfold handle.
  - destruct e as [| |st|p|x]; try discriminate T.
    unfold socket_on, updateSimConnectStatus, show_indicator_if_auto, modify_dom,
      console_write, read, when, bind, get, modify, throw, ret.
    destruct sock; [|left; reflexivity].
    cbv -[truthy st_connected append].
    destruct el; [|left; reflexivity].
    destruct st as [st|]; [|left; reflexivity].
    destruct (truthy (st_connected st)); [destruct auto|]; cbn; auto.
  - unfold connectSimConnect, try_finally, try_catch, show_indicator_if_auto,
      modify_socket, updateStatus, modify_dom, console_write, fetch, read, when,
      bind, get, modify, throw, ret.
    destruct r as [e|e| |result]; cbv beta iota zeta; auto.
    destruct (truthy (success result)); [destruct auto|]; cbn; auto.
  - unfold disconnectSimConnect, try_catch, updateStatus, modify_dom,
      console_write, fetch, bind, get, modify, throw, ret.
    destruct r as [e|e| |result]; cbv beta iota zeta; cbn; auto.
  - unfold toggleAutoUpdate, updateStatus, modify_dom, when, bind, get, modify,
      ret.
    do 3 right. destruct auto, sim; reflexivity.
  - unfold checkSimConnectStatus, try_catch, updateSimConnectStatus,
      show_indicator_if_auto, modify_dom, console_write, fetch, read, when, bind,
      get, modify, throw, ret.
    destruct r as [e|e| |st]; cbv -[truthy st_connected append app];
      destruct el; auto.
    destruct (truthy (st_connected st)); [destruct auto|]; cbn; auto.
Qed.

Lemma indicator_consistent_step ev :
  preserves indicator_consistent (handle ev).
Proof.
  intros s H. fold (step s ev). unfold indicator_consistent in *.
  pose proof (link_step ev s) as L. cbv zeta in L. unfold link in L.
  destruct L as [L|[L|[L|L]]]; injection L as -> -> -> _.
  - exact H.
  - destruct (autoUpdateEnabled s); [tauto|]. rewrite H. intuition discriminate.
  - intuition discriminate.
  - destruct (autoUpdateEnabled s), (isSimConnectConnected s); cbn;
      intuition discriminate.
Qed.

(** X15: the indicator of live updates is shown exactly when auto-update is
    on and SimConnect is connected; once that holds, it holds after every
    sequence of events. *)
Theorem indicator_follows_the_flags :
  forall (evs : list Event) (s : State Panel),
    indicator_consistent s -> indicator_consistent (run evs s).
Proof. apply run_invariant, indicator_consistent_step. Qed.

Lemma disconnect_consistent_step ev :
  preserves disconnect_consistent (handle ev).
Proof.
  intros s H. fold (step s ev). unfold disconnect_consistent in *.
  pose proof (link_step ev s) as L. cbv zeta in L. unfold link in L.
  destruct L as [L|[L|[L|L]]]; injection L as _ -> _ ->;
    first [exact H | reflexivity].
Qed.

(** X16: the disconnect button is enabled exactly when the connection flag
    is set; once that holds, it holds after every sequence of events. *)
Theorem disconnect_button_follows_connection :
  forall (evs : list Event) (s : State Panel),
    disconnect_consistent s -> disconnect_consistent (run evs s).
Proof. apply run_invariant, disconnect_consistent_step. Qed.

(** X17: an event other than a click on one of the three controls, a status
    tick or a simconnect_status message leaves the two flags, the indicator,
    the buttons, the toggle and the status element as they are. *)
Theorem controls_only_move_on_control_events :
  forall (ev : Event) (s : State Panel),
    touches_controls ev = false -> controls (step s ev) = controls s.
Proof. intros ev s T. exact (controls_kept ev (controls s) T s eq_refl). Qed.

Lemma requests_kept ev v :
  fetches ev = false ->
  preserves (fun s : State Panel => requests s = v) (handle ev).
Proof.
  intros H. destruct ev as [r|z|sel|o r1 r2| |e|r|r| |r1 r2|r];
    try discriminate H; unfold handle.
  - open_map_script. keeps.
  - open_map_script. keeps.
  - open_live_link. keeps.
  - destruct e as [| |d|d|x]; unfold socket_on, updateSimConnectStatus,
      show_indicator_if_auto; open_live_link; keeps.
  - unfold toggleAutoUpdate. open_live_link. keeps.
Qed.

(** X18: only the functions that call fetch issue requests: a zoom, a layer
    change, the opening of the socket, any event of the socket (a position
    update included) and the auto-update toggle leave the list of requests
    as it is. *)
Theorem no_request_without_fetch :
  forall (ev : Event) (s : State Panel),
    fetches ev = false -> requests (step s ev) = requests s.
Proof. intros ev s T. exact (requests_kept ev (requests s) T s eq_refl). Qed.

(** *** The identities of the attached layers *)

Lemma In_removeLayer x m l :
  In l (m_layers (removeLayer x m)) -> In l (m_layers m) /\ l_oid l <> l_oid x.
Proof.
  unfold removeLayer. cbn. intros H. apply filter_In in H. destruct H as (H & E).
  split; [exact H|]. unfold same_oid in E.
  destruct (Nat.eqb_spec (l_oid x) (l_oid l)); [discriminate | congruence].
Qed.

Lemma In_removed cur m l :
  In l (m_layers (removed cur m)) -> In l (m_layers m).
Proof. destruct cur; cbn; [|auto]. intros H. now apply In_removeLayer in H. Qed.

Lemma In_removed_oid x m l :
  In l (m_layers (removed (Some x) m)) -> l_oid l <> l_oid x.
Proof. cbn. intros H. now apply In_removeLayer in H. Qed.

Lemma NoDup_map_filter {A B} (f : A -> B) (p : A -> bool) ls :
  NoDup (List.map f ls) -> NoDup (List.map f (filter p ls)).
Proof.
  induction ls as [|a ls IH]; cbn; intros H; [constructor|].
  inversion H as [|? ? Hn Hd]; subst. destruct (p a); cbn; [|auto].
  constructor; [|auto]. intros Hi. apply Hn.
  apply in_map_iff in Hi. destruct Hi as (y & Hy & Hy').
  apply filter_In in Hy'. apply in_map_iff. exists y. tauto.
Qed.

Lemma In_addLayer x m l :
  In l (m_layers (addLayer x m)) -> In l (m_layers m) \/ l = x.
Proof.
  unfold addLayer. destruct (hasLayer x (m_layers m)); cbn; [auto|].
  intros H. apply in_app_or in H. destruct H as [H|[H|[]]]; auto.
Qed.

Lemma In_addLayer_old x m l : In l (m_layers m) -> In l (m_layers (addLayer x m)).
Proof.
  unfold addLayer. destruct (hasLayer x (m_layers m)); cbn; [auto|].
  intros H. apply in_or_app. now left.
Qed.

Lemma hasLayer_false x ls :
  hasLayer x ls = false -> forall l, In l ls -> l_oid l <> l_oid x.
Proof.
  unfold hasLayer. intros H l Hl E.
  assert (existsb (same_oid x) ls = true); [|congruence].
  apply existsb_exists. exists l. split; [exact Hl|].
  unfold same_oid. rewrite E. apply Nat.eqb_refl.
Qed.

Lemma NoDup_addLayer x m :
  NoDup (List.map l_oid (m_layers m)) ->
  NoDup (List.map l_oid (m_layers (addLayer x m))).
Proof.
  intros H. unfold addLayer. destruct (hasLayer x (m_layers m)) eqn:E; cbn; [exact H|].
  rewrite map_app. cbn. apply NoDup_app; [exact H | repeat constructor; intros [] |].
  intros a Ha [Hx|[]]. apply in_map_iff in Ha. destruct Ha as (l & <- & Hl).
  now apply (hasLayer_false _ _ E l Hl).
Qed.

Lemma base_not_overlay l : is_base l = true -> is_overlay l = false.
Proof.
  unfold is_base, is_overlay. intros H. apply String.eqb_eq in H. now rewrite H.
Qed.

Lemma marker_pane l : is_marker l = true -> is_base l = false /\ is_overlay l = false.
Proof.
  unfold is_marker, is_base, is_overlay, layer_pane.
  destruct (l_src l); try discriminate. intros _. split; reflexivity.
Qed.

Lemma base_not_marker l : is_base l = true -> is_marker l = false.
Proof.
  intros H. destruct (is_marker l) eqn:E; [|reflexivity].
  apply marker_pane in E. destruct E. congruence.
Qed.

Lemma overlay_not_marker l : is_overlay l = true -> is_marker l = false.
Proof.
  intros H. destruct (is_marker l) eqn:E; [|reflexivity].
  apply marker_pane in E. destruct E. congruence.
Qed.

(** Detaching a layer keeps the identities consistent. *)
Lemma stamped_removeLayer x m n g b o k :
  stamped_at (m_layers m) n g b o k ->
  stamped_at (m_layers (removeLayer x m)) n g b o k.
Proof.
  intros (F & G & D & B & O & M & K & V). repeat split.
  - unfold removeLayer. cbn. apply Forall_forall. intros l Hl.
    apply filter_In in Hl. now apply (proj1 (Forall_forall _ _) F).
  - exact G.
  - unfold removeLayer. cbn. now apply NoDup_map_filter.
  - intros l Hl. apply In_removeLayer in Hl. now apply B.
  - intros l Hl. apply In_removeLayer in Hl. now apply O.
  - intros l Hl. apply In_removeLayer in Hl. now apply M.
  - now apply K.
  - now apply K.
  - now apply K.
  - intros l Hl. apply In_removeLayer in Hl. destruct (K x0 H) as (_ & _ & U).
    now apply U.
  - now apply V.
  - now apply V.
Qed.

Lemma stamped_removed cur m n g b o k :
  stamped_at (m_layers m) n g b o k ->
  stamped_at (m_layers (removed cur m)) n g b o k.
Proof. destruct cur; cbn; [apply stamped_removeLayer | auto]. Qed.

(** Attaching the marker group. *)
Lemma stamped_add_group m n g b o k :
  stamped_at (m_layers m) n g b o k ->
  stamped_at (m_layers (addLayer (mkLayer g LayerGroup) m)) n g b o k.
Proof.
  intros (F & G & D & B & O & M & K & V). repeat split.
  - apply Forall_forall. intros l Hl. apply In_addLayer in Hl.
    destruct Hl as [Hl| ->]; [now apply (proj1 (Forall_forall _ _) F) | exact G].
  - exact G.
  - now apply NoDup_addLayer.
  - intros l Hl. apply In_addLayer in Hl.
    destruct Hl as [Hl| ->]; [now apply B | discriminate].
  - intros l Hl. apply In_addLayer in Hl.
    destruct Hl as [Hl| ->]; [now apply O | discriminate].
  - intros l Hl. apply In_addLayer in Hl.
    destruct Hl as [Hl| ->]; [now apply M | discriminate].
  - now apply K.
  - now apply K.
  - now apply K.
  - intros l Hl E. destruct (K x H) as (_ & Hg & U). apply In_addLayer in Hl.
    destruct Hl as [Hl| ->]; [now apply U | cbn in E; lia].
  - now apply V.
  - now apply V.
Qed.

(** Constructing objects without attaching them. *)
Lemma stamped_bump ls n n' g b o k :
  n <= n' -> stamped_at ls n g b o k -> stamped_at ls n' g b o k.
Proof.
  intros Hn (F & G & D & B & O & M & K & V). repeat split; auto; try lia.
  - eapply Forall_impl; [|exact F]. cbn. intros; lia.
  - now apply K.
  - apply K. exact H.
  - destruct (K x H) as (_ & Hg & _). lia.
  - now apply K.
  - destruct (V x H) as (Hx & _). lia.
  - now apply V.
Qed.

(** Attaching a layer just constructed which is no marker. *)
Lemma stamped_attach x m n g b o k b' o' :
  stamped_at (m_layers m) n g b o k ->
  l_oid x = n ->
  is_marker x = false ->
  (forall l, In l (m_layers m) \/ l = x -> is_base l = true -> b' = Some l) ->
  (forall l, In l (m_layers m) \/ l = x -> is_overlay l = true -> o' = Some l) ->
  o' = o \/ o' = None \/ o' = Some x ->
  stamped_at (m_layers (addLayer x m)) (S n) g b' o' k.
Proof.
  intros (F & G & D & B & O & M & K & V) Hx Hm Hb Ho Ho'. repeat split.
  - apply Forall_forall. intros l Hl. apply In_addLayer in Hl.
    destruct Hl as [Hl| ->]; [|lia].
    pose proof (proj1 (Forall_forall _ _) F l Hl). cbn in *. lia.
  - lia.
  - now apply NoDup_addLayer.
  - intros l Hl. apply In_addLayer in Hl. now apply Hb.
  - intros l Hl. apply In_addLayer in Hl. now apply Ho.
  - intros l Hl. apply In_addLayer in Hl.
    destruct Hl as [Hl| ->]; [now apply M | congruence].
  - now apply K.
  - now apply K.
  - destruct (K x0 H) as (_ & Hg & _). lia.
  - intros l Hl E. destruct (K x0 H) as (_ & Hg & U). apply In_addLayer in Hl.
    destruct Hl as [Hl| ->]; [now apply U | lia].
  - destruct Ho' as [->|[->| ->]]; [|discriminate|injection H as <-; lia].
    destruct (V x0 H) as (Hv & _). lia.
  - intros y Hy. destruct Ho' as [->|[->| ->]]; [now apply V|discriminate|].
    injection H as <-. destruct (K y Hy) as (_ & Hg & _). lia.
Qed.

(** Attaching the aircraft marker just constructed. *)
Lemma stamped_attach_marker x m n g b o k :
  stamped_at (m_layers m) n g b o k ->
  l_oid x = n ->
  is_marker x = true ->
  (forall l, In l (m_layers m) -> is_marker l = false) ->
  stamped_at (m_layers (addLayer x m)) (S n) g b o (Some x).
Proof.
  intros (F & G & D & B & O & M & K & V) Hx Hm Hn.
  destruct (marker_pane x Hm) as (Hxb & Hxo). repeat split.
  - apply Forall_forall. intros l Hl. apply In_addLayer in Hl.
    destruct Hl as [Hl| ->]; [|lia].
    pose proof (proj1 (Forall_forall _ _) F l Hl). cbn in *. lia.
  - lia.
  - now apply NoDup_addLayer.
  - intros l Hl. apply In_addLayer in Hl.
    destruct Hl as [Hl| ->]; [now apply B | congruence].
  - intros l Hl. apply In_addLayer in Hl.
    destruct Hl as [Hl| ->]; [now apply O | congruence].
  - intros l Hl Hl'. apply In_addLayer in Hl.
    destruct Hl as [Hl| ->]; [|reflexivity]. rewrite (Hn l Hl) in Hl'. discriminate.
  - injection H as <-. exact Hm.
  - injection H as <-. lia.
  - injection H as <-. lia.
  - injection H as <-. intros l Hl E. apply In_addLayer in Hl.
    destruct Hl as [Hl| ->]; [|reflexivity].
    pose proof (proj1 (Forall_forall _ _) F l Hl). cbn in *. lia.
  - destruct (V x0 H) as (Hv & _). lia.
  - intros y [= <-]. destruct (V x0 H) as (Hv & _). lia.
Qed.

(** *** The scene under the functions of the scripts *)

Lemma stamped_scene (s t : State Panel) : scene s = scene t -> stamped s -> stamped t.
Proof.
  unfold scene, stamped, attached. intros H. injection H as -> -> -> -> -> ->. auto.
Qed.

Lemma based_scene (s t : State Panel) : scene s = scene t -> based s -> based t.
Proof. unfold scene, based. intros H. injection H as -> -> _ _ _ _. auto. Qed.

Lemma coherent_scene (s t : State Panel) :
  scene s = scene t -> coherent s -> coherent t.
Proof.
  intros H (S1 & S2). split; [now apply (stamped_scene s) | now apply (based_scene s)].
Qed.

Lemma via_scene {A} (c : M Panel A) :
  (forall v, preserves (fun s => scene s = v) c) -> preserves coherent c.
Proof. intros H s C. apply (coherent_scene s); [symmetry; now apply H | exact C]. Qed.

Lemma coherent_updateStatus msg type : preserves coherent (@updateStatus Panel msg type).
Proof. apply via_scene. intros v. unfold updateStatus, modify_dom. keeps. Qed.

Lemma coherent_update_map meth (f : LMap -> LMap) :
  (forall m, m_layers (f m) = m_layers m) ->
  preserves coherent (update_map meth f).
Proof.
  intros Hf s (S1 & S2). unfold update_map, with_map, bind, modify.
  destruct (map s) as [m|] eqn:E; cbn; [|now split].
  split.
  - unfold stamped, attached in *. cbn. rewrite E in S1. now rewrite Hf.
  - unfold based in *. cbn. intros m' [= <-]. rewrite Hf. now apply S2.
Qed.

Lemma scene_addAirportMarkers_no_map l (s : State Panel) :
  map s = None -> scene (snd (addAirportMarkers l s)) = scene s.
Proof.
  intros Hm. destruct s as [mp cb co am ga sock auto sim adt amk pnl io d con req oid].
  cbn in Hm. subst mp. reflexivity.
Qed.

Lemma coherent_addAirportMarkers l : preserves coherent (addAirportMarkers l).
Proof.
  intros s C. destruct (map s) as [m|] eqn:Hm.
  2:{ apply (coherent_scene s); [|exact C].
      symmetry. now apply scene_addAirportMarkers_no_map. }
  rewrite (addAirportMarkers_state l s m Hm). cbn [snd].
  destruct C as (S1 & S2). split.
  - unfold stamped, attached in *. rewrite Hm in S1. cbn.
    apply (stamped_bump _ (next_oid s)); [lia|]. now apply stamped_add_group.
  - unfold based in *. cbn. intros m' [= <-].
    destruct (S2 m Hm) as (b & Hb & Hi & Hp). exists b.
    split; [exact Hb|]. split; [now apply In_addLayer_old | exact Hp].
Qed.

Lemma coherent_zoomend_listener l : preserves coherent (zoomend_listener l).
Proof.
  unfold zoomend_listener. apply preserves_bind; [apply coherent_addAirportMarkers|].
  intros _. apply preserves_bind; [apply preserves_with_map|].
  intros z. apply coherent_updateStatus.
Qed.

Lemma coherent_fire_zoomend z : preserves coherent (fire_zoomend z).
Proof.
  unfold fire_zoomend. apply preserves_bind.
  { apply coherent_update_map. reflexivity. }
  intros _. apply preserves_bind; [apply preserves_with_map|].
  intros ls. apply preserves_forEach. intros l. apply coherent_zoomend_listener.
Qed.

Lemma coherent_recompute sel : preserves coherent (recompute_and_report sel).
Proof.
  unfold recompute_and_report. apply preserves_bind.
  { apply via_scene. intros v. keeps. }
  intros l. apply preserves_bind; [apply coherent_addAirportMarkers|].
  intros _. apply coherent_updateStatus.
Qed.

(** *** Loading the map keeps the identities consistent *)

Lemma coherent_map_ready (s : State Panel) : coherent s -> coherent (map_ready s).
Proof.
  intros ((F & G & D & B & O & M & K & V) & _).
  set (base := mkLayer (next_oid s) (MaplibreGL tomtom_style tomtom_attribution)).
  set (m0 := mkLMap (m_center new_map) 4 [] (m_panes new_map ++ ["labels"])
               "bottomright" []).
  assert (S0 : stamped_at (m_layers m0) (next_oid s) (g_oid (airportMarkers s))
                 None (currentOverlayLayer s) (aircraftMarker s)).
  { repeat split; try exact G; try (now apply K); try (now apply V);
      try (intros ? []); constructor. }
  assert (S1 : stamped_at (m_layers (addLayer base m0)) (S (next_oid s))
                 (g_oid (airportMarkers s)) (Some base) (currentOverlayLayer s)
                 (aircraftMarker s)).
  { apply (stamped_attach base m0 _ _ None (currentOverlayLayer s)); auto.
    - intros l [[]| ->] _. reflexivity.
    - intros l [[]| ->]. discriminate. }
  split.
  - unfold stamped, attached, map_ready. cbn [map set_map currentBaseLayer
      set_currentBaseLayer currentOverlayLayer aircraftMarker next_oid set_next_oid
      airportMarkers].
    apply (stamped_add_group (addLayer base m0)). exact S1.
  - unfold based, map_ready. cbn [map set_map currentBaseLayer set_currentBaseLayer].
    intros m [= <-]. exists base. split; [reflexivity|].
    split; [|reflexivity]. apply (In_addLayer_old _ (addLayer base m0)). now left.
Qed.

Lemma coherent_initMap r : preserves coherent (initMap r).
Proof.
  intros s C. rewrite initMap_unfold.
  assert (P : preserves coherent
                (bind (try_catch (load_airports r)
                         (fun _ => updateStatus "Failed to load airports.json" "error"))
                   (fun _ => updateStatus "Map loaded successfully" "success"))).
  { apply preserves_bind; [|intros _; apply coherent_updateStatus].
    apply preserves_try_catch; [|intros _; apply coherent_updateStatus].
    unfold load_airports. apply preserves_bind.
    { apply via_scene. intros v. unfold fetch. keeps. }
    intros [l|].
    - apply preserves_bind; [apply coherent_addAirportMarkers|].
      intros _. apply coherent_update_map. reflexivity.
    - apply via_scene. intros v.
      unfold addAirportMarkers_null, clear_and_getZoom, clearLayers. keeps. }
  apply P, coherent_map_ready, C.
Qed.

(** *** Changing the layer keeps the identities consistent *)

Lemma remove_if_set_state cur (s : State Panel) m :
  map s = Some m ->
  remove_if_set cur s = (Ok tt, set_map (Some (removed cur m)) s).
Proof.
  intros Hm. destruct s as [mp cb co am ga sock auto sim adt amk pnl io d con req oid].
  cbn in Hm. subst mp. destruct cur; reflexivity.
Qed.

Lemma changeMapLayer_no_map_scene (s : State Panel) :
  map s = None ->
  exists o n,
    next_oid s <= n /\
    (o = currentOverlayLayer s \/ o = None) /\
    scene (snd (changeMapLayer s))
    = (None, currentBaseLayer s, o, aircraftMarker s, g_oid (airportMarkers s), n).
Proof.
  intros Hm. destruct s as [mp cb co am ga sock auto sim adt amk pnl io d con req oid].
  cbn in Hm. subst mp.
  unfold changeMapLayer. rewrite bind_get. cbn [dom].
  destruct (String.eqb (mapLayer_value d) "darkHybrid");
    [|destruct (String.eqb (mapLayer_value d) "tomtom")];
    destruct cb, co; cbn; eexists; eexists;
    (split; [|split; [|reflexivity]]); cbn; auto.
Qed.

Lemma stamped_no_layers ls n n' g b o k b' o' :
  stamped_at ls n g b o k -> n <= n' -> o' = o \/ o' = None ->
  stamped_at [] n' g b' o' k.
Proof.
  intros (F & G & D & B & O & M & K & V) Hn Ho'.
  assert (V' : forall x, o' = Some x ->
                 l_oid x < n' /\ forall y, k = Some y -> l_oid x <> l_oid y).
  { intros x Hx. destruct Ho' as [->| ->]; [|discriminate].
    destruct (V x Hx) as (Hv & Hd). split; [lia | exact Hd]. }
  repeat split; try lia; try (now apply K); try (now apply V');
    try (intros ? []); try constructor.
  destruct (K x H) as (_ & Hg & _). lia.
Qed.

Lemma cleared_for_selection m n g b o k :
  stamped_at (m_layers m) n g b o k ->
  let m2 := removed o (removed b m) in
  stamped_at (m_layers m2) n g b None k /\
  (forall l, In l (m_layers m2) -> is_base l = false) /\
  (forall l, In l (m_layers m2) -> is_overlay l = false).
Proof.
  intros S0 m2.
  assert (S2 : stamped_at (m_layers m2) n g b o k) by now do 2 apply stamped_removed.
  destruct S0 as (_ & _ & _ & B & O & _).
  assert (Hb : forall l, In l (m_layers m2) -> is_base l = false).
  { intros l Hl. destruct (is_base l) eqn:E; [|reflexivity]. exfalso.
    apply In_removed in Hl. pose proof (B l (In_removed _ _ _ Hl) E) as ->.
    now apply In_removed_oid in Hl. }
  assert (Ho : forall l, In l (m_layers m2) -> is_overlay l = false).
  { intros l Hl. destruct (is_overlay l) eqn:E; [|reflexivity]. exfalso.
    pose proof (O l (In_removed _ _ _ (In_removed _ _ _ Hl)) E) as ->.
    now apply In_removed_oid in Hl. }
  split; [|split; assumption].
  destruct S2 as (F & G & D & _ & _ & M & K & V). repeat split; auto.
  - intros l Hl E. rewrite (Hb l Hl) in E. discriminate.
  - intros l Hl E. rewrite (Ho l Hl) in E. discriminate.
  - now apply K.
  - now apply K.
  - now apply K.
  - now apply K.
  - discriminate.
  - discriminate.
Qed.

Lemma In_addLayer_new x m :
  Forall (fun l => l_oid l < l_oid x) (m_layers m) -> In x (m_layers (addLayer x m)).
Proof. intros F. rewrite addLayer_fresh by exact F. apply in_or_app. right. now left. Qed.

(** A base layer just constructed is attached to a map without base layer,
    then the rest runs. *)
Lemma coherent_attach_base src k (s : State Panel) m :
  map s = Some m ->
  stamped s ->
  (forall l, In l (m_layers m) -> is_base l = false) ->
  (forall n, is_base (mkLayer n src) = true) ->
  (forall s', coherent s' ->
     (forall l, In l (attached s') -> is_overlay l = true ->
        In l (m_layers m)) ->
     currentOverlayLayer s' = currentOverlayLayer s ->
     coherent (snd (k s'))) ->
  coherent (snd (attach_base src k s)).
Proof.
  intros Hm S0 Hb Hsrc Hk. rewrite (attach_base_run src k s m Hm).
  unfold stamped, attached in S0. rewrite Hm in S0.
  set (base := mkLayer (next_oid s) src).
  pose proof (Hsrc (next_oid s)) as Hbase. fold base in Hbase.
  assert (S1 : stamped_at (m_layers (addLayer base m)) (S (next_oid s))
                 (g_oid (airportMarkers s)) (Some base) (currentOverlayLayer s)
                 (aircraftMarker s)).
  { apply (stamped_attach base m _ _ (currentBaseLayer s) (currentOverlayLayer s));
      auto.
    - now apply base_not_marker.
    - intros l [Hl| ->] E; [rewrite (Hb l Hl) in E; discriminate | reflexivity].
    - destruct S0 as (_ & _ & _ & _ & O & _).
      intros l [Hl| ->] E; [now apply O|].
      rewrite (base_not_overlay _ Hbase) in E. discriminate. }
  apply Hk; [split| |reflexivity].
  - exact S1.
  - unfold based. cbn. intros m' [= <-]. exists base. split; [reflexivity|].
    split; [|exact Hbase]. apply In_addLayer_new. now destruct S0.
  - unfold attached. cbn. intros l Hl E. apply In_addLayer in Hl.
    destruct Hl as [Hl| ->]; [exact Hl|].
    rewrite (base_not_overlay _ Hbase) in E. discriminate.
Qed.

Lemma coherent_attach_overlay src k (s : State Panel) :
  coherent s ->
  (forall l, In l (attached s) -> is_overlay l = false) ->
  (forall n, is_overlay (mkLayer n src) = true) ->
  preserves coherent k ->
  coherent (snd (attach_overlay src k s)).
Proof.
  intros (S0 & B0) Ho Hsrc Hk. destruct (map s) as [m|] eqn:Hm.
  2:{ unfold attach_overlay, new_layer, addTo_map, update_map, with_map, bind.
      cbn. rewrite Hm. cbn. split.
      - unfold stamped, attached in *. cbn. rewrite Hm in *.
        apply (stamped_bump _ (next_oid s)); [lia | exact S0].
      - unfold based. cbn. rewrite Hm. discriminate. }
  rewrite (attach_overlay_run src k s m Hm). apply Hk.
  unfold stamped, attached in S0, Ho. rewrite Hm in S0, Ho.
  set (labels := mkLayer (next_oid s) src).
  pose proof (Hsrc (next_oid s)) as Hl. fold labels in Hl.
  split.
  - unfold stamped, attached. cbn.
    apply (stamped_attach labels m _ _ (currentBaseLayer s) (currentOverlayLayer s));
      auto.
    + now apply overlay_not_marker.
    + destruct S0 as (_ & _ & _ & B & _).
      intros l [Hi| ->] E; [now apply B|].
      destruct (is_overlay labels) eqn:E'; [|discriminate].
      unfold is_base, is_overlay in *. apply String.eqb_eq in E, E'.
      rewrite E in E'. discriminate.
    + intros l [Hi| ->] E; [rewrite (Ho l Hi) in E; discriminate | reflexivity].
  - unfold based in *. cbn. intros m' [= <-].
    destruct (B0 m Hm) as (b & Hb & Hi & Hp). exists b.
    split; [exact Hb|]. split; [now apply In_addLayer_old | exact Hp].
Qed.

Lemma base_source_is_base sel n : is_base (mkLayer n (base_source sel)) = true.
Proof.
  unfold base_source. destruct (String.eqb sel "darkHybrid"); [reflexivity|].
  destruct (String.eqb sel "tomtom"); reflexivity.
Qed.

Lemma coherent_changeMapLayer : preserves coherent (@changeMapLayer Panel).
Proof.
  intros s (S0 & B0). destruct (map s) as [m|] eqn:Hm.
  2:{ destruct (changeMapLayer_no_map_scene s Hm) as (o & n & Hn & Ho & E).
      unfold scene in E. injection E as E1 E2 E3 E4 E5 E6. split.
      - unfold stamped, attached in *. rewrite E1, E3, E4, E5, E6. rewrite Hm in S0.
        now apply (stamped_no_layers _ _ _ _ _ _ _ _ _ S0).
      - unfold based. rewrite E1. discriminate. }
  rewrite changeMapLayer_unfold.
  rewrite (bind_ok _ _ _ _ _ (remove_if_set_state (currentBaseLayer s) s m Hm)).
  rewrite bind_get. cbn [currentOverlayLayer set_map].
  erewrite bind_ok by (apply remove_if_set_state; reflexivity).
  rewrite bind_modify.
  unfold stamped, attached in S0. rewrite Hm in S0.
  destruct (cleared_for_selection m _ _ _ _ _ S0) as (S2 & Hb & Ho).
  set (m2 := removed (currentOverlayLayer s) (removed (currentBaseLayer s) m)) in *.
  match goal with |- coherent (snd (attach_selected _ ?t)) => set (s3 := t) end.
  assert (M3 : map s3 = Some m2) by reflexivity.
  assert (S3 : stamped s3) by (unfold stamped, attached; rewrite M3; exact S2).
  assert (K : forall src,
             (forall n, is_base (mkLayer n src) = true) ->
             coherent (snd (attach_base src
                              (recompute_and_report (mapLayer_value (dom s))) s3))).
  { intros src Hsrc. apply (coherent_attach_base src _ s3 m2 M3 S3 Hb Hsrc).
    intros s' C' _ _. now apply coherent_recompute. }
  unfold attach_selected.
  destruct (String.eqb (mapLayer_value (dom s)) "darkHybrid").
  - apply (coherent_attach_base _ _ s3 m2 M3 S3 Hb); [reflexivity|].
    intros s' C' Hs' _. apply coherent_attach_overlay;
      [exact C' | | reflexivity | apply coherent_recompute].
    intros l Hl. destruct (is_overlay l) eqn:E; [|reflexivity].
    pose proof (Ho l (Hs' l Hl E)). congruence.
  - destruct (String.eqb (mapLayer_value (dom s)) "tomtom"); apply K; reflexivity.
Qed.

(** *** Moving the aircraft marker keeps the identities consistent *)

Lemma marker_update_scene lat lng hdg (s : State Panel) m :
  map s = Some m ->
  scene (snd (updateAircraftMarkerPosition lat lng hdg s))
  = match lat, lng with
    | Some a, Some b =>
        let x := mkLayer (next_oid s)
                   (MarkerLayer (mkMarker (a, b) (aircraft_icon hdg) None)) in
        (Some (addLayer x (removed (aircraftMarker s) m)), currentBaseLayer s,
         currentOverlayLayer s, Some x, g_oid (airportMarkers s), S (next_oid s))
    | _, _ =>
        (Some (removed (aircraftMarker s) m), currentBaseLayer s,
         currentOverlayLayer s, aircraftMarker s, g_oid (airportMarkers s),
         next_oid s)
    end.
Proof.
  intros Hm. destruct s as [mp cb co am ga sock auto sim adt amk pnl io d con req oid].
  cbn in Hm. subst mp. destruct amk, lat, lng; reflexivity.
Qed.

Lemma In_removed_kept cur m l :
  In l (m_layers m) ->
  (forall x, cur = Some x -> l_oid l <> l_oid x) ->
  In l (m_layers (removed cur m)).
Proof.
  intros Hl Hx. destruct cur as [x|]; cbn; [|exact Hl].
  apply filter_In. split; [exact Hl|]. unfold same_oid.
  specialize (Hx x eq_refl).
  destruct (Nat.eqb_spec (l_oid x) (l_oid l)); [congruence | reflexivity].
Qed.

Lemma coherent_marker_update lat lng hdg :
  preserves coherent (@updateAircraftMarkerPosition Panel lat lng hdg).
Proof.
  intros s (S0 & B0). destruct (map s) as [m|] eqn:Hm.
  2:{ assert (E : snd (updateAircraftMarkerPosition lat lng hdg s) = s).
      { destruct s as [mp cb co am ga sock auto sim adt amk pnl io d con req oid].
        cbn in Hm. subst mp. destruct amk; reflexivity. }
      rewrite E. now split. }
  pose proof (marker_update_scene lat lng hdg s m Hm) as E.
  unfold stamped, attached in S0. rewrite Hm in S0.
  destruct (B0 m Hm) as (b & Hb & Hi & Hp).
  assert (Hi' : In b (m_layers (removed (aircraftMarker s) m))).
  { apply In_removed_kept; [exact Hi|]. intros x Hx E'.
    destruct S0 as (_ & _ & _ & _ & _ & _ & K & _).
    destruct (K x Hx) as (Hmk & _ & U). pose proof (U b Hi E') as ->.
    rewrite (base_not_marker _ Hp) in Hmk. discriminate. }
  assert (Hn : forall l, In l (m_layers (removed (aircraftMarker s) m)) ->
                         is_marker l = false).
  { intros l Hl. destruct (is_marker l) eqn:El; [|reflexivity]. exfalso.
    destruct S0 as (_ & _ & _ & _ & _ & M & _ & _).
    pose proof (M l (In_removed _ _ _ Hl) El) as Hk. rewrite Hk in Hl.
    now apply In_removed_oid in Hl. }
  assert (S1 : stamped_at (m_layers (removed (aircraftMarker s) m)) (next_oid s)
                 (g_oid (airportMarkers s)) (currentBaseLayer s)
                 (currentOverlayLayer s) (aircraftMarker s))
    by now apply stamped_removed.
  unfold coherent, stamped, based, attached. unfold scene in E.
  destruct lat as [a|], lng as [c|]; cbv zeta in E;
    injection E as -> -> -> -> -> ->.
  1:{ split.
      - eapply stamped_attach_marker; [exact S1 | reflexivity | reflexivity | exact Hn].
      - intros m' [= <-]. exists b. split; [exact Hb|].
        split; [now apply In_addLayer_old | exact Hp]. }
  all: split; [exact S1 | intros m' [= <-]; exists b; auto].
Qed.

(** *** The identities along the events *)

Lemma preserves_try_finally I (c f : M Panel unit) :
  preserves I c -> preserves I f -> preserves I (try_finally c f).
Proof.
  intros Hc Hf s H. unfold try_finally. specialize (Hc s H).
  destruct (c s) as [[a|e] s1]; cbn in *; [now apply Hf|].
  specialize (Hf s1 Hc). destruct (f s1) as [[a|e'] s2]; exact Hf.
Qed.

Lemma scene_kept ev v :
  touches_scene ev = false ->
  preserves (fun s : State Panel => scene s = v) (handle ev).
Proof.
  intros H. destruct ev as [r|z|sel|o r1 r2| |e|r|r| |r1 r2|r];
    try discriminate H; unfold handle.
  - open_live_link. keeps.
  - open_live_link. keeps.
  - destruct e as [| |d|d|x]; try discriminate H;
      unfold socket_on, updateSimConnectStatus, show_indicator_if_auto;
      open_live_link; keeps.
  - unfold connectSimConnect, show_indicator_if_auto. open_live_link.
    apply preserves_bind; [keeps|intros _]. apply preserves_bind; [keeps|intros _].
    apply preserves_try_finally; keeps.
  - unfold disconnectSimConnect. open_live_link. keeps.
  - unfold toggleAutoUpdate. open_live_link. keeps.
  - unfold checkSimConnectStatus, updateSimConnectStatus, show_indicator_if_auto.
    open_live_link. keeps.
Qed.

Ltac keeps_coherent_by known :=
  repeat first
    [ known | apply coherent_marker_update | apply coherent_updateStatus
    | apply preserves_ret | apply preserves_throw | apply preserves_get
    | apply preserves_when
    | apply preserves_try_catch; [|intros ?]
    | apply preserves_bind; [|intros ?]
    | match goal with
      | |- preserves _ (match ?x with _ => _ end) => destruct x
      | |- preserves _ (if ?x then _ else _) => destruct x
      end
    | solve [apply via_scene; intros ?; keeps] ].

Ltac keeps_coherent := keeps_coherent_by fail.

Lemma coherent_handler p :
  preserves coherent (handleRealtimePositionUpdate showAircraftInfo p).
Proof.
  unfold handleRealtimePositionUpdate, set_field, call_toFixed, updateStatus,
    modify_dom, console_write.
  keeps_coherent.
Qed.

Lemma coherent_handle ev : preserves coherent (handle ev).
Proof.
  destruct (touches_scene ev) eqn:T.
  2:{ apply via_scene. intros v. now apply scene_kept. }
  destruct ev as [r|z|sel|o r1 r2| |e|r|r| |r1 r2|r]; try discriminate T;
    unfold handle.
  - apply coherent_initMap.
  - apply coherent_fire_zoomend.
  - apply preserves_bind; [|intros _; apply coherent_changeMapLayer].
    apply via_scene. intros v. keeps.
  - destruct e as [| |d|d|x]; try discriminate T. unfold socket_on.
    keeps_coherent_by ltac:(apply coherent_handler).
  - unfold fetchAircraftDataEnhanced, fetch, read, console_write.
    keeps_coherent_by ltac:(apply coherent_handler).
Qed.

Lemma coherent_page_load d io ad (pnl : Panel) : coherent (page_load d io ad pnl).
Proof.
  split.
  - unfold stamped, attached. cbn.
    repeat split; try (intros ? []); try constructor; try discriminate.
  - intros m. discriminate.
Qed.

Lemma coherent_reached d io ad (pnl : Panel) evs :
  coherent (run evs (page_load d io ad pnl)).
Proof.
  apply run_invariant; [apply coherent_handle | apply coherent_page_load].
Qed.

Lemma held_at_most_once (p : Layer -> bool) ls (c : option Layer) :
  NoDup (List.map l_oid ls) ->
  (forall l, In l ls -> p l = true -> c = Some l) ->
  List.length (filter p ls) <= 1.
Proof.
  intros D H.
  assert (Df : NoDup (filter p ls)) by (apply NoDup_filter; now apply NoDup_map_inv in D).
  assert (Hf : forall l, In l (filter p ls) -> c = Some l).
  { intros l Hl. apply filter_In in Hl. now apply H. }
  destruct (filter p ls) as [|x [|y r]]; cbn; try lia. exfalso.
  pose proof (Hf x (or_introl eq_refl)) as Hx.
  pose proof (Hf y (or_intror (or_introl eq_refl))) as Hy.
  rewrite Hx in Hy. injection Hy as <-.
  inversion Df as [|? ? Hn _]. apply Hn. now left.
Qed.

Lemma held_exactly_once (p : Layer -> bool) ls (b : Layer) :
  NoDup (List.map l_oid ls) ->
  (forall l, In l ls -> p l = true -> Some b = Some l) ->
  In b ls -> p b = true ->
  filter p ls = [b].
Proof.
  intros D H Hi Hp. pose proof (held_at_most_once p ls (Some b) D H) as Hl.
  assert (Hb : In b (filter p ls)) by (apply filter_In; now split).
  destruct (filter p ls) as [|x [|y r]] eqn:E; cbn in *; try lia; try tauto.
  destruct Hb as [->|[]]. reflexivity.
Qed.

Lemma coherent_tracked (s : State Panel) : coherent s -> tracked s.
Proof.
  intros ((F & G & D & B & O & M & K & V) & _). unfold tracked, base_layers, overlay_layers.
  split; [|split; [|split]].
  - intros l Hl. apply filter_In in Hl. destruct Hl as (Hl & Hp).
    exists l. split; [now apply B | apply same_oid_refl].
  - intros l Hl. apply filter_In in Hl. destruct Hl as (Hl & Hp).
    exists l. split; [now apply O | apply same_oid_refl].
  - now apply (held_at_most_once _ _ (currentBaseLayer s)).
  - now apply (held_at_most_once _ _ (currentOverlayLayer s)).
Qed.

Lemma group_kept ev v :
  touches_scene ev = false ->
  preserves (fun s : State Panel => airportMarkers s = v)
    (handle ev).
Proof.
  intros H. destruct ev as [r|z|sel|o r1 r2| |e|r|r| |r1 r2|r];
    try discriminate H; unfold handle.
  - open_live_link. keeps.
  - open_live_link. keeps.
  - destruct e as [| |d|d|x]; try discriminate H;
      unfold socket_on, updateSimConnectStatus, show_indicator_if_auto;
      open_live_link; keeps.
  - unfold connectSimConnect, show_indicator_if_auto. open_live_link.
    apply preserves_bind; [keeps|intros _]. apply preserves_bind; [keeps|intros _].
    apply preserves_try_finally; keeps.
  - unfold disconnectSimConnect. open_live_link. keeps.
  - unfold toggleAutoUpdate. open_live_link. keeps.
  - unfold checkSimConnectStatus, updateSimConnectStatus, show_indicator_if_auto.
    open_live_link. keeps.
Qed.

(** X19: map loading, zooms, layer changes and position updates apart, no
    event touches the map, the variables that hold layers or the marker
    group, or constructs a layer. *)
Theorem map_only_moves_on_map_events :
  forall (ev : Event) (s : State Panel),
    touches_scene ev = false ->
    scene (step s ev) = scene s /\
    airportMarkers (step s ev) = airportMarkers s.
Proof.
  intros ev s T. split.
  - exact (scene_kept ev (scene s) T s eq_refl).
  - exact (group_kept ev (airportMarkers s) T s eq_refl).
Qed.

(** X20: from the loading of the page on, whatever events happen, once the
    map exists exactly one base layer is attached to it, and it is the
    object currentBaseLayer holds: no position update, zoom or failed layer
    change leaves the map without its base layer or with two. *)
Theorem one_base_layer_once_loaded :
  forall (d : DOM) (io : bool) (ad : option AircraftData) (pnl : Panel)
         (evs : list Event) (m : LMap),
    let s := run evs (page_load d io ad pnl) in
    map s = Some m ->
    exists b, currentBaseLayer s = Some b /\ base_layers s = [b].
Proof.
  intros d io ad pnl evs m s Hm.
  destruct (coherent_reached d io ad pnl evs) as ((F & G & D & B & O & M & K & V) & E).
  fold s in F, G, D, B, O, M, K, E.
  destruct (E m Hm) as (b & Hb & Hi & Hp). exists b. split; [exact Hb|].
  unfold base_layers. unfold attached in *. rewrite Hm in *.
  apply held_exactly_once; auto. now rewrite <- Hb.
Qed.


(** X22: from the loading of the page on, whatever events happened, once the
    map exists a choice in the layer selector leaves exactly the chosen base
    layer attached, newly constructed, and the labels overlay exactly for
    darkHybrid. *)
Theorem selection_is_shown_after_any_run :
  forall (d : DOM) (io : bool) (ad : option AircraftData) (pnl : Panel)
         (evs : list Event) (m : LMap) (sel : string),
    let s := run evs (page_load d io ad pnl) in
    let s' := step s (SelectLayer sel) in
    map s = Some m ->
    base_layers s' = [mkLayer (next_oid s) (base_source sel)] /\
    overlay_layers s'
    = (if String.eqb sel "darkHybrid"
       then [mkLayer (S (next_oid s)) labels_source] else []).
Proof.
  intros d io ad pnl evs m sel s s' Hm.
  pose proof (coherent_reached d io ad pnl evs) as C. fold s in C.
  assert (C' : coherent (select_mapLayer sel s))
    by (apply (coherent_scene s); [reflexivity | exact C]).
  destruct (changeMapLayer_selection (select_mapLayer sel s) m Hm
              (coherent_tracked _ C') (proj1 (proj1 C')))
    as (H1 & _ & H3 & _).
  split; [exact H1 | exact H3].
Qed.

(** *** The aircraft marker under zooms and layer changes *)

Lemma attached_update_map k meth (f : LMap -> LMap) :
  (forall m, In k (m_layers m) -> In k (m_layers (f m))) ->
  preserves (fun s : State Panel => In k (attached s)) (update_map meth f).
Proof.
  intros Hf s H. unfold update_map, with_map, bind, modify, attached in *.
  destruct (map s) as [m|]; cbn; [now apply Hf | destruct H].
Qed.

Ltac keeps_attached :=
  repeat first
    [ apply attached_update_map;
      (let K := fresh in intros ? K; first [exact K | now apply In_addLayer_old])
    | apply preserves_ret | apply preserves_throw | apply preserves_get
    | apply preserves_with_map | apply preserves_when
    | apply preserves_forEach; intros ?
    | apply preserves_bind; [|intros ?]
    | apply preserves_modify; (let K := fresh in intros ? K; exact K)
    | match goal with
      | |- preserves _ (match ?x with _ => _ end) => destruct x
      | |- preserves _ (if ?x then _ else _) => destruct x
      | |- preserves _ lookup_airports =>
          (let s := fresh "s" in let K := fresh in intros s K;
           unfold lookup_airports; destruct (global_airports s); exact K)
      | |- preserves _ (new_layer _) => (let K := fresh in intros ? K; exact K)
      end ].

Ltac open_attaching :=
  unfold attach_selected, attach_base, attach_overlay, fire_zoomend,
    zoomend_listener, recompute_and_report, addAirportMarkers, clear_and_getZoom,
    clearLayers, airportMarkers_addLayer, airportMarkers_addTo_map, addTo_map,
    updateStatus, modify_dom.

Lemma attached_attach_selected k sel :
  preserves (fun s : State Panel => In k (attached s)) (attach_selected sel).
Proof. open_attaching. keeps_attached. Qed.

Lemma attached_fire_zoomend k z :
  preserves (fun s : State Panel => In k (attached s)) (fire_zoomend z).
Proof. open_attaching. keeps_attached. Qed.

Lemma marker_kept_by_changeMapLayer (s : State Panel) k :
  coherent s -> aircraftMarker s = Some k -> In k (attached s) ->
  In k (attached (snd (changeMapLayer s))).
Proof.
  intros ((F & G & D & B & O & M & K & V) & E) Hk Hi.
  destruct (map s) as [m|] eqn:Hm; [|unfold attached in Hi; rewrite Hm in Hi; destruct Hi].
  rewrite changeMapLayer_unfold.
  rewrite (bind_ok _ _ _ _ _ (remove_if_set_state (currentBaseLayer s) s m Hm)).
  rewrite bind_get. cbn [currentOverlayLayer set_map].
  erewrite bind_ok by (apply remove_if_set_state; reflexivity).
  rewrite bind_modify. apply attached_attach_selected.
  unfold attached in *. rewrite Hm in *. cbn.
  destruct (K k Hk) as (Hmk & _ & U).
  apply In_removed_kept; [apply In_removed_kept; [exact Hi|]|].
  - intros x Hx Eq. destruct (E m Hm) as (b & Hb & Hbi & Hbp).
    rewrite Hx in Hb. injection Hb as <-.
    pose proof (U x Hbi (eq_sym Eq)) as ->.
    rewrite (base_not_marker _ Hbp) in Hmk. discriminate.
  - intros x Hx Eq. destruct (V x Hx) as (_ & Hd). now apply (Hd k Hk).
Qed.

(** X23: from the loading of the page on, once the aircraft marker is on the
    map it stays there, the same object, under every event that neither
    creates the map anew nor brings a position: a layer change removes the
    base layer and the overlay only, a zoom only recomputes the airport
    markers. *)
Theorem aircraft_marker_survives_layer_changes :
  forall (d : DOM) (io : bool) (ad : option AircraftData) (pnl : Panel)
         (evs : list Event) (ev : Event) (k : Layer),
    let s := run evs (page_load d io ad pnl) in
    may_replace_marker ev = false ->
    aircraftMarker s = Some k ->
    In k (attached s) ->
    aircraftMarker (step s ev) = Some k /\
    In k (attached (step s ev)).
Proof.
  intros d io ad pnl evs ev k s T Hk Hi.
  pose proof (coherent_reached d io ad pnl evs) as C. fold s in C.
  destruct (touches_scene ev) eqn:Ts.
  2:{ pose proof (scene_kept ev (scene s) Ts s eq_refl) as Hs.
      unfold scene in Hs. injection Hs as H1 _ _ H4 _ _.
      unfold step, attached in *. now rewrite H1, H4. }
  destruct ev as [r|z|sel|o r1 r2| |e|r|r| |r1 r2|r]; try discriminate T;
    try discriminate Ts; unfold step, handle.
  - split.
    + assert (P : preserves (fun t : State Panel => aircraftMarker t = Some k)
                    (fire_zoomend z)) by (open_map_script; keeps).
      now apply P.
    + now apply attached_fire_zoomend.
  - rewrite bind_modify. split.
    + assert (P : preserves (fun t : State Panel => aircraftMarker t = Some k)
                    changeMapLayer) by (open_map_script; keeps).
      now apply P.
    + apply marker_kept_by_changeMapLayer; [|exact Hk|exact Hi].
      apply (coherent_scene s); [reflexivity | exact C].
  - destruct e; discriminate.
Qed.

(** *** The fallback poller and the state of the socket *)

(** X24: with SimConnect connected, the enhanced poller takes over exactly
    while the socket is down: after the socket's disconnect event a tick
    issues the requests of a poll cycle, after its connect event a tick does
    nothing at all. *)
Theorem fallback_polls_while_socket_is_down :
  forall (s : State Panel) (k : Socket) (r1 : Reply PositionReply)
         (r2 : Reply TypeReply),
    socket s = Some k ->
    isSimConnectConnected s = true ->
    let down := step s (FromSocket ev_disconnect) in
    let up := step s (FromSocket ev_connect) in
    requests (step down (EnhancedTick r1 r2))
    = (requests s ++ poll_requests "" r1)%list /\
    step up (EnhancedTick r1 r2) = up.
Proof.
  intros s k r1 r2 Hk Hsim.
  destruct s as [mp cb co am ga sock auto sim adt amk pnl io d con req oid].
  cbn in Hk, Hsim. subst sock sim. cbv zeta. split.
  - unfold step at 1. unfold handle at 1.
    match goal with |- requests (snd (_ _ _ _ ?t)) = _ =>
      destruct (enhanced_poll_cycle r1 r2 t eq_refl eq_refl)
        as (s' & new & E & R & _)
    end.
    rewrite E. exact R.
  - reflexivity.
Qed.

(** *** Zooming in *)

Lemma zoom_filter_monotone a z z' :
  (z <= z')%Z -> zoom_filter z a = true -> zoom_filter z' a = true.
Proof.
  unfold zoom_filter. intros Hz.
  destruct (Z.ltb_spec z 5), (Z.ltb_spec z' 5), (Z.leb_spec z 8), (Z.leb_spec z' 8);
    try lia; try reflexivity; auto.
Qed.

Lemma shown_after_zooms (s : State Panel) l zs z :
  shown_markers (zoom_through (zs ++ [z]) (snd (initMap (Body l) s)))
  = markers_of (filter (zoom_filter z) l).
Proof.
  rewrite zoom_through_last.
  destruct (initMap_loaded s l) as (_ & H).
  destruct (fire_zoomend_listening l z _ (zoom_through_listening l zs _ H))
    as (s' & E & _ & Hs & _).
  now rewrite E.
Qed.

(** X25: zooming in never hides an airport: after a successful load, the
    markers shown at a zoom level are among those shown at any higher
    level. *)
Theorem zooming_in_keeps_markers :
  forall (s : State Panel) (l : list Airport) (zs zs' : list Z) (z z' : Z),
    (z <= z')%Z ->
    let loaded := snd (initMap (Body l) s) in
    incl (shown_markers (zoom_through (zs ++ [z]) loaded))
         (shown_markers (zoom_through (zs' ++ [z']) loaded)).
Proof.
  intros s l zs zs' z z' Hz loaded. unfold loaded.
  rewrite !shown_after_zooms. unfold markers_of. intros x Hx.
  apply in_map_iff in Hx. destruct Hx as (a & <- & Ha).
  apply filter_In in Ha. destruct Ha as (Ha & Hf).
  apply in_map_iff. exists a. split; [reflexivity|].
  apply filter_In. split; [exact Ha|]. now apply (zoom_filter_monotone a z z').
Qed.

(** *** The poller with auto-update off *)

(** X26: the auto-update toggle does not stop the fallback poller: with
    auto-update off, when it polls, it still issues both requests, discards
    the position (the page, the marker and the map are untouched) and still
    writes the aircraft type into aircraftData. *)
Theorem enhanced_poll_with_auto_update_off :
  forall (s : State Panel) (p : PositionReply) (t : TypeReply) (ad : AircraftData),
    socket_is_connected s = false ->
    isSimConnectConnected s = true ->
    autoUpdateEnabled s = false ->
    aircraftData s = Some ad ->
    truthy (t_error t) = false ->
    let s' := snd (fetchAircraftDataEnhanced showAircraftInfo (Body p) (Body t) s) in
    requests s'
    = (requests s ++ [mkRequest "GET" "/aircraft/position";
                      mkRequest "GET" "/aircraft/type"])%list /\
    dom s' = dom s /\
    marker_state s' = marker_state s /\
    aircraftData s'
    = Some (mkAircraftData (ad_latitude ad) (ad_longitude ad) (ad_altitude ad)
              (ad_heading ad) (ad_groundSpeed ad) (t_type t) (ad_callsign ad)).
Proof.
  intros s p t ad Hsock Hsim Hauto Had Ht. cbv zeta.
  rewrite enhanced_unfold, Hsock, Hsim. cbn [negb].
  destruct s as [mp cb co am ga sock auto sim adt amk pnl io d con req oid].
  cbn in Hsim, Hauto, Had. subst sim auto adt.
  unfold try_catch, bind, fetch, read, enhanced_position_branch, enhanced_type_half,
    console_write, assign_aircraft, when, get, modify, ret.
  cbn. rewrite Ht.
  destruct (truthy (p_error p)); cbn; rewrite <- app_assoc; repeat split; reflexivity.
Qed.

(** *** A position without longitude *)


(** *** Warnings *)

(** X28: updateStatus has no case for the type 'warning': the three events
    that show a warning (the socket disconnecting, auto-update switched off,
    Socket.IO missing) replace the message only, and the dot and the
    Succeeded/Failed text keep what the previous status left. *)
Theorem warning_keeps_previous_outcome :
  forall (s : State Panel) (ev : Event) (msg : string),
    warning_of s ev = Some msg ->
    let s' := step s ev in
    status_textContent (dom s') = msg /\
    status_dot_background (dom s') = status_dot_background (dom s) /\
    status_text_textContent (dom s') = status_text_textContent (dom s).
Proof.
  intros s ev msg H.
  destruct s as [mp cb co am ga sock auto sim adt amk pnl io d con req oid].
  destruct ev as [r|z|sel|o r1 r2| |e|r|r| |r1 r2|r]; try discriminate H.
  - cbn in H. destruct io; [discriminate|]. injection H as <-.
    repeat split; reflexivity.
  - destruct e as [| |st|p|x]; try discriminate H. cbn in H.
    destruct sock; [|discriminate]. injection H as <-. repeat split; reflexivity.
  - cbn in H. destruct auto; [|discriminate]. injection H as <-.
    repeat split; reflexivity.
Qed.

(** *** After a disconnect *)

Lemma controls_kept_run evs :
  forallb (fun ev => negb (touches_controls ev)) evs = true ->
  forall s : State Panel, controls (run evs s) = controls s.
Proof.
  induction evs as [|ev evs IH]; intros H s; [reflexivity|].
  cbn in H. apply andb_prop in H. destruct H as (H1 & H2).
  change (run (ev :: evs) s)
    with (run evs (step s ev)).
  rewrite (IH H2). apply negb_true_iff in H1.
  exact (controls_kept ev (controls s) H1 s eq_refl).
Qed.

(** X29: once a disconnect was answered with a body, the fallback poller
    stays silent, whatever happens on the map, on the socket's position,
    connect, disconnect and error events or in the legacy poller, until a
    control or a status message connects again: each of its ticks leaves the
    state as it is and issues no request. *)
Theorem poller_silent_after_disconnect :
  forall (s : State Panel) (result : ApiResult) (evs : list Event)
         (r1 : Reply PositionReply) (r2 : Reply TypeReply),
    forallb (fun ev => negb (touches_controls ev)) evs = true ->
    let s1 :=
      run evs
        (step s (ClickDisconnect (Body result))) in
    step s1 (EnhancedTick r1 r2) = s1.
Proof.
  intros s result evs r1 r2 H s1.
  assert (Hsim : isSimConnectConnected s1 = false).
  { pose proof (controls_kept_run evs H
                  (step s (ClickDisconnect (Body result)))) as Hc.
    fold s1 in Hc. unfold controls in Hc. injection Hc as _ -> _ _ _ _ _.
    destruct s as [mp cb co am ga sock auto sim adt amk pnl io d con req oid].
    reflexivity. }
  unfold step at 1. unfold handle. rewrite enhanced_unfold, Hsim.
  destruct (socket_is_connected s1); reflexivity.
Qed.

End Properties.

(** * Runs on concrete pages *)

Example toFixed_47_6 : toFixed 6 (476 # 10)%Q = "47.600000".
Proof. reflexivity. Qed.

Example toFixed_negative : toFixed 4 (- (1223 # 10))%Q = "-122.3000".
Proof. reflexivity. Qed.

Example round_half_goes_up :
  number_to_string (Math_round (Num (5 # 2)%Q)) = "3" /\
  number_to_string (Math_round (Num (- (5 # 2))%Q)) = "-2" /\
  number_to_string (Math_round (ToNumber None)) = "NaN".
Proof. repeat split. Qed.

(** The page used below is well formed: the map exists, no global named
    [airports] does, and only the coarse airport is shown at zoom 4. *)
Example example_loaded_facts :
  global_airports example_loaded = None /\
  status_textContent (dom example_loaded) = "Map loaded successfully" /\
  List.map l_src (g_layers (airportMarkers example_loaded))
  = [MarkerLayer (airport_marker (mkAirport "KSEA" (4745 # 100)%Q
                                     (- (12231 # 100))%Q 1))] /\
  List.length (base_layers example_loaded) = 1 /\
  List.length (overlay_layers example_loaded) = 0.
Proof. vm_compute. repeat split. Qed.

(** The listener of [zoomend] recomputes the markers for the new zoom. *)
Example zoomend_recomputes :
  List.map l_src (g_layers (airportMarkers (snd (fire_zoomend 6 example_loaded))))
  = List.map (fun a => MarkerLayer (airport_marker a))
      [mkAirport "KSEA" (4745 # 100)%Q (- (12231 # 100))%Q 1;
       mkAirport "KBFI" (4753 # 100)%Q (- (12230 # 100))%Q 2] /\
  List.length (g_layers (airportMarkers (snd (fire_zoomend 9 example_loaded)))) = 3.
Proof. vm_compute. split; reflexivity. Qed.

Example example_connected_facts :
  socket_is_connected example_connected = true /\
  isSimConnectConnected example_connected = true /\
  disconnect_btn_disabled (dom example_connected) = false /\
  autoUpdateEnabled example_connected = true.
Proof. vm_compute. repeat split. Qed.

Example darkHybrid_attaches_both :
  let s := change_layer_to example_loaded "darkHybrid" in
  List.length (base_layers s) = 1 /\ List.length (overlay_layers s) = 1.
Proof. vm_compute. split; reflexivity. Qed.
(** C6, at a failing input: on the loaded page the user selects "satellite".
    changeMapLayer removes the old base layer and attaches the new one, then
    ends by a ReferenceError on [airports]: the markers of the group are the
    objects of before (no recompute ran) and the status still reads what
    initMap wrote. *)
Theorem changeMapLayer_marker_recompute_fails :
  let s := select_mapLayer "satellite" example_loaded in
  let s' := snd (changeMapLayer s) in
  fst (changeMapLayer s) = Throw (ReferenceError "airports") /\
  List.map l_src (base_layers s')
  = [TileLayer "https://{s}.google.com/vt/lyrs=s&x={x}&y={y}&z={z}"
       (mkTileOptions "© Google" 19 (Some google_subdomains) "tilePane")] /\
  overlay_layers s' = [] /\
  airportMarkers s' = airportMarkers example_loaded /\
  status_textContent (dom s') = "Map loaded successfully".
Proof. vm_compute. repeat split. Qed.

(** ** Witnesses *)

Lemma addAirportMarkers_band_rule_witness :
  exists m,
    map example_loaded = Some m /\
    exists s',
      addAirportMarkers example_airports example_loaded = (Ok tt, s') /\
      List.map l_src (g_layers (airportMarkers s'))
      = [MarkerLayer (airport_marker (mkAirport "KSEA" (4745 # 100)%Q
                                         (- (12231 # 100))%Q 1))].
Proof.
  eexists. split; [reflexivity|].
  destruct (addAirportMarkers_band_rule example_airports example_loaded _ eq_refl)
    as (s' & E & Hm & _).
  exists s'. split; [exact E | exact Hm].
Defined.

Lemma example_update_altitude_and_rotation_witness :
  autoUpdateEnabled example_connected = true /\
  altitude_field (dom example_connected) = Some "" /\
  let s' := snd (handleRealtimePositionUpdate no_panel example_position
                   example_connected) in
  altitude_field (dom s') = Some "1000" /\
  exists marker,
    aircraftMarker s' = Some marker /\
    marker_rotation marker = Some (Num 0) /\
    l_src marker
    = MarkerLayer (mkMarker ((476 # 10)%Q, (- (1223 # 10))%Q)
                     (aircraft_icon (Some 90%Q)) None).
Proof.
  split; [reflexivity|]. split; [reflexivity|].
  exact (example_update_altitude_and_rotation no_panel example_connected _ _ _
           eq_refl eq_refl eq_refl eq_refl).
Defined.

Lemma position_update_idempotent_witness :
  fresh example_connected /\
  aircraft_view
    (snd (handleRealtimePositionUpdate no_panel example_position
            (snd (handleRealtimePositionUpdate no_panel example_position
                    example_connected))))
  = aircraft_view
      (snd (handleRealtimePositionUpdate no_panel example_position
              example_connected)).
Proof.
  assert (F : fresh example_connected).
  { unfold fresh. vm_compute. repeat constructor. }
  split; [exact F|].
  exact (position_update_idempotent no_panel example_connected example_position F).
Defined.

Lemma position_update_ignored_when_auto_update_off_witness :
  autoUpdateEnabled example_auto_off = false /\
  isSimConnectConnected example_auto_off = true /\
  socket_on no_panel (ev_aircraft_position_update (Some example_position))
    example_auto_off
  = (Ok tt, example_auto_off).
Proof.
  split; [reflexivity|]. split; [reflexivity|].
  exact (position_update_ignored_when_auto_update_off no_panel example_auto_off
           (Some example_position) eq_refl).
Defined.

Lemma enhanced_poll_noop_when_sim_disconnected_witness :
  isSimConnectConnected example_loaded = false /\
  fetchAircraftDataEnhanced no_panel (Body example_position_reply)
    (Body example_type_reply) example_loaded
  = (Ok tt, example_loaded).
Proof.
  split; [reflexivity|].
  exact (enhanced_poll_noop_when_sim_disconnected no_panel example_loaded _ _
           eq_refl).
Defined.

Lemma enhanced_poll_silent_when_socket_connected_witness :
  socket example_connected = Some (mkSocket true ["request_position"]) /\
  fetchAircraftDataEnhanced no_panel (Body example_position_reply)
    (Body example_type_reply) example_connected
  = (Ok tt, example_connected).
Proof.
  split; [reflexivity|].
  exact (enhanced_poll_silent_when_socket_connected no_panel example_connected
           _ _ _ eq_refl eq_refl).
Defined.

Lemma poll_cycle_outcomes_witness :
  socket_is_connected example_polling = false /\
  isSimConnectConnected example_polling = true /\
  exists s' new,
    fetchAircraftDataEnhanced no_panel (Body null_error_reply)
      (FetchRejects (TypeError "Failed to fetch")) example_polling
    = (Ok tt, s') /\
    requests s'
    = (requests example_polling
       ++ poll_requests "" (Body null_error_reply))%list /\
    console s' = (console example_polling ++ new)%list /\
    enhanced_report (Body null_error_reply)
      (FetchRejects (TypeError "Failed to fetch")) new.
Proof.
  split; [reflexivity|]. split; [reflexivity|].
  exact (proj2 (poll_cycle_outcomes no_panel "" (Body null_error_reply)
                  (FetchRejects (TypeError "Failed to fetch")) example_polling)
           eq_refl eq_refl).
Defined.

(** ** Counterexamples to the claims as stated *)

(** C2: SimConnect is connected and the disconnect request fails on the
    network: afterwards the connection flag is still true and the disconnect
    button still enabled. *)
Lemma disconnect_network_failure_stays_connected :
  let s' := snd (disconnectSimConnect (FetchRejects (TypeError "Failed to fetch"))
                   example_connected) in
  isSimConnectConnected example_connected = true /\
  isSimConnectConnected s' = true /\
  disconnect_btn_disabled (dom s') = false /\
  status_textContent (dom s') = "Disconnect error: Failed to fetch".
Proof. vm_compute. repeat split. Qed.

(** C4: the socket and SimConnect are both connected, and a tick of the
    timer of fetchAircraftData issues its two requests all the same. *)
Lemma legacy_poll_fetches_while_connected :
  socket_is_connected example_connected = true /\
  isSimConnectConnected example_connected = true /\
  requests (snd (fetchAircraftData (Body example_position_reply)
                   (Body example_type_reply) example_connected))
  = (requests example_connected
     ++ [mkRequest "GET" "/aircraft/position"; mkRequest "GET" "/aircraft/type"])%list.
Proof. vm_compute. repeat split. Qed.

(** C9: the position response has an error property, holding [null]; it is
    reported as data, and no error is logged for it. *)
Lemma present_falsy_error_reported_as_data :
  p_error null_error_reply <> JUndefined /\
  console (snd (fetchAircraftData (Body null_error_reply)
                  (Body example_type_reply) example_loaded))
  = (console example_loaded
     ++ [mkLog log "Position:" (LPosition null_error_reply);
         mkLog log "Aircraft Type:" (LVal (JString "Cessna 172"))])%list.
Proof. split; [discriminate | vm_compute; reflexivity]. Qed.

(** ** Witnesses of the further properties *)

Lemma status_update_mirrors_payload_witness :
  simconnect_status (dom example_connected) = Some (mkStatusElement "" "") /\
  isSimConnectConnected example_connected = true /\
  isSimConnectConnected
    (snd (updateSimConnectStatus (Some (mkStatusData (JBool false)))
            example_connected))
  = false.
Proof.
  split; [reflexivity|]. split; [reflexivity|].
  exact (proj1 (proj2 (status_update_mirrors_payload example_connected
                         (mkStatusData (JBool false)) _ eq_refl))).
Defined.

Lemma status_update_without_element_witness :
  simconnect_status (dom example_no_status_element) = None /\
  isSimConnectConnected
    (snd (updateSimConnectStatus (Some (mkStatusData (JBool false)))
            example_no_status_element))
  = true.
Proof.
  split; [reflexivity|].
  rewrite (status_update_without_element example_no_status_element
             (Some (mkStatusData (JBool false))) eq_refl).
  reflexivity.
Defined.


Lemma position_update_without_latitude_witness :
  latitude_field (dom example_connected) = Some "" /\
  core (snd (handleRealtimePositionUpdate no_panel example_no_latitude
               example_connected))
  = core example_connected.
Proof.
  split; [reflexivity|].
  rewrite (position_update_without_latitude no_panel example_connected
             example_no_latitude "" eq_refl eq_refl eq_refl).
  reflexivity.
Defined.


Lemma enhanced_poll_type_is_last_write_witness :
  socket_is_connected example_polling = false /\
  isSimConnectConnected example_polling = true /\
  exists ad',
    aircraftData (snd (fetchAircraftDataEnhanced no_panel
                         (Body example_position_reply) (Body example_type_reply)
                         example_polling))
    = Some ad' /\
    ad_aircraft ad' = JString "Cessna 172".
Proof.
  split; [reflexivity|]. split; [reflexivity|].
  exact (enhanced_poll_type_is_last_write no_panel example_polling
           example_position_reply example_type_reply example_aircraftData
           eq_refl eq_refl eq_refl eq_refl eq_refl).
Defined.

Lemma failed_load_is_never_retried_witness :
  failure (FetchRejects (TypeError "Failed to fetch") : Reply (list Airport))
  = Some (TypeError "Failed to fetch") /\
  let s1 := snd (initMap (FetchRejects (TypeError "Failed to fetch")) example_page) in
  airportMarkers (zoom_through [6%Z; 10%Z] s1) = airportMarkers s1.
Proof.
  split; [reflexivity|].
  exact (proj1 (failed_load_is_never_retried example_page
                  (FetchRejects (TypeError "Failed to fetch")) _ [6%Z; 10%Z]
                  eq_refl)).
Defined.

Lemma changeMapLayer_before_initMap_witness :
  map example_page = None /\
  dom (snd (changeMapLayer example_page)) = dom example_page.
Proof.
  split; [reflexivity|].
  pose proof (changeMapLayer_before_initMap example_page eq_refl) as H.
  cbv zeta in H. apply H.
Defined.

Lemma changeMapLayer_attaches_selection_witness :
  tracked example_loaded /\ fresh example_loaded /\
  base_layers (snd (changeMapLayer example_loaded))
  = [mkLayer (next_oid example_loaded)
       (base_source (mapLayer_value (dom example_loaded)))].
Proof.
  assert (T : tracked example_loaded).
  { unfold tracked. split; [|split; [|split]].
    - vm_compute. intros l [<-|[]]. eexists. split; reflexivity.
    - vm_compute. intros l [].
    - vm_compute. lia.
    - vm_compute. lia. }
  assert (F : fresh example_loaded).
  { unfold fresh. vm_compute. repeat constructor. }
  split; [exact T|]. split; [exact F|].
  exact (proj1 (changeMapLayer_attaches_selection example_loaded _ eq_refl T F)).
Defined.

Lemma indicator_follows_the_flags_witness :
  indicator_consistent example_page /\
  indicator_consistent
    (run no_panel
       [ClickConnect (Body (mkApiResult (JBool true) None)); ClickToggle]
       example_page).
Proof.
  assert (H : indicator_consistent example_page).
  { unfold indicator_consistent. vm_compute. intuition discriminate. }
  split; [exact H|].
  exact (indicator_follows_the_flags no_panel _ example_page H).
Defined.

Lemma disconnect_button_follows_connection_witness :
  disconnect_consistent example_page /\
  disconnect_consistent
    (run no_panel
       [ClickConnect (Body (mkApiResult (JBool true) None));
        ClickDisconnect (FetchRejects (TypeError "Failed to fetch"))]
       example_page).
Proof.
  assert (H : disconnect_consistent example_page) by reflexivity.
  split; [exact H|].
  exact (disconnect_button_follows_connection no_panel _ example_page H).
Defined.

Lemma controls_only_move_on_control_events_witness :
  touches_controls (FromSocket (ev_aircraft_position_update (Some example_position)))
  = false /\
  controls
    (step no_panel example_connected
       (FromSocket (ev_aircraft_position_update (Some example_position))))
  = controls example_connected.
Proof.
  split; [reflexivity|].
  exact (controls_only_move_on_control_events no_panel
           (FromSocket (ev_aircraft_position_update (Some example_position)))
           example_connected eq_refl).
Defined.

Lemma no_request_without_fetch_witness :
  fetches (FromSocket (ev_aircraft_position_update (Some example_position)))
  = false /\
  requests
    (step no_panel example_connected
       (FromSocket (ev_aircraft_position_update (Some example_position))))
  = requests example_connected.
Proof.
  split; [reflexivity|].
  exact (no_request_without_fetch no_panel
           (FromSocket (ev_aircraft_position_update (Some example_position)))
           example_connected eq_refl).
Defined.

Lemma map_only_moves_on_map_events_witness :
  touches_scene ClickToggle = false /\
  scene (step no_panel example_loaded ClickToggle) = scene example_loaded.
Proof.
  split; [reflexivity|].
  exact (proj1 (map_only_moves_on_map_events no_panel ClickToggle example_loaded
                  eq_refl)).
Defined.

Lemma one_base_layer_once_loaded_witness :
  exists m,
    map (run no_panel example_session example_page) = Some m /\
    exists b, base_layers (run no_panel example_session example_page) = [b].
Proof.
  assert (H : {m | map (run no_panel example_session example_page) = Some m})
    by (vm_compute; eexists; reflexivity).
  destruct H as (m & H). exists m. split; [exact H|].
  destruct (one_base_layer_once_loaded no_panel example_dom true
              (Some example_aircraftData) tt example_session m H) as (b & _ & Hb).
  exists b. exact Hb.
Defined.


Lemma selection_is_shown_after_any_run_witness :
  exists m,
    map (run no_panel example_session example_page) = Some m /\
    base_layers
      (step no_panel (run no_panel example_session example_page)
         (SelectLayer "topo"))
    = [mkLayer (next_oid (run no_panel example_session example_page))
         (base_source "topo")].
Proof.
  assert (H : {m | map (run no_panel example_session example_page) = Some m})
    by (vm_compute; eexists; reflexivity).
  destruct H as (m & H). exists m. split; [exact H|].
  exact (proj1 (selection_is_shown_after_any_run no_panel example_dom true
                  (Some example_aircraftData) tt example_session m "topo" H)).
Defined.

Lemma fallback_polls_while_socket_is_down_witness :
  socket example_connected = Some (mkSocket true ["request_position"]) /\
  isSimConnectConnected example_connected = true /\
  requests
    (step no_panel (step no_panel example_connected (FromSocket ev_disconnect))
       (EnhancedTick (Body example_position_reply) (Body example_type_reply)))
  = (requests example_connected
     ++ [mkRequest "GET" "/aircraft/position"; mkRequest "GET" "/aircraft/type"])%list.
Proof.
  split; [reflexivity|]. split; [reflexivity|].
  exact (proj1 (fallback_polls_while_socket_is_down no_panel example_connected
                  _ (Body example_position_reply) (Body example_type_reply)
                  eq_refl eq_refl)).
Defined.

Lemma aircraft_marker_survives_layer_changes_witness :
  exists k,
    aircraftMarker (run no_panel example_first_position example_page) = Some k /\
    In k (attached (run no_panel example_first_position example_page)) /\
    In k (attached (step no_panel (run no_panel example_first_position example_page)
                      (SelectLayer "satellite"))).
Proof.
  assert (H : {k | aircraftMarker (run no_panel example_first_position example_page)
                   = Some k /\
                   In k (attached (run no_panel example_first_position
                                     example_page))}).
  { vm_compute. eexists. split; [reflexivity | auto]. }
  destruct H as (k & Hk & Hi). exists k. split; [exact Hk|]. split; [exact Hi|].
  exact (proj2 (aircraft_marker_survives_layer_changes no_panel example_dom true
                  (Some example_aircraftData) tt example_first_position
                  (SelectLayer "satellite") k eq_refl Hk Hi)).
Defined.

Lemma zooming_in_keeps_markers_witness :
  (4 <= 6)%Z /\
  incl (shown_markers (zoom_through [4%Z] example_loaded))
       (shown_markers (zoom_through [6%Z] example_loaded)).
Proof.
  split; [lia|].
  exact (zooming_in_keeps_markers example_page example_airports [] [] 4 6
           ltac:(lia)).
Defined.

Lemma enhanced_poll_with_auto_update_off_witness :
  autoUpdateEnabled (snd (toggleAutoUpdate example_polling)) = false /\
  dom (snd (fetchAircraftDataEnhanced no_panel (Body example_position_reply)
              (Body example_type_reply) (snd (toggleAutoUpdate example_polling))))
  = dom (snd (toggleAutoUpdate example_polling)).
Proof.
  split; [reflexivity|].
  exact (proj1 (proj2 (enhanced_poll_with_auto_update_off no_panel
                         (snd (toggleAutoUpdate example_polling))
                         example_position_reply example_type_reply
                         example_aircraftData eq_refl eq_refl eq_refl eq_refl
                         eq_refl))).
Defined.


Lemma warning_keeps_previous_outcome_witness :
  warning_of example_connected ClickToggle = Some "Real-time updates disabled" /\
  status_text_textContent (dom (step no_panel example_connected ClickToggle))
  = "Succeeded".
Proof.
  split; [reflexivity|].
  exact (proj2 (proj2 (warning_keeps_previous_outcome no_panel example_connected
                         ClickToggle _ eq_refl))).
Defined.

Lemma poller_silent_after_disconnect_witness :
  forallb (fun ev => negb (touches_controls ev))
    [FromSocket ev_disconnect; ZoomEnd 6] = true /\
  let s1 :=
    run no_panel [FromSocket ev_disconnect; ZoomEnd 6]
      (step no_panel example_connected
         (ClickDisconnect (Body (mkApiResult (JBool true) None)))) in
  step no_panel s1
    (EnhancedTick (Body example_position_reply) (Body example_type_reply))
  = s1.
Proof.
  split; [reflexivity|].
  exact (poller_silent_after_disconnect no_panel example_connected
           (mkApiResult (JBool true) None) [FromSocket ev_disconnect; ZoomEnd 6]
           (Body example_position_reply) (Body example_type_reply) eq_refl).
Defined.
